(** * Universal Raspberry Pi / QEMU console: a shallow embedding of
    [toolchain/kernel.c] and the properties of its hardware detection,
    framebuffer negotiation, scrollback buffer and PS/2 input decoding.

    Conventions of the embedding.
    - A [uint32_t] is a [Z] in [0, 2^32); every C operation that can leave
      that range is followed by [uint32], the reduction modulo 2^32.  An [int]
      is a [Z] in [-2^31, 2^31); [to_int] is the conversion from [uint32_t]
      (and the two's-complement wrap of an [int] result).
    - A [char] is an [ascii]; a [uint8_t] is a [Z] in [0, 256).
    - The C globals ([current_platform], [console], the pixel memory behind
      [console.framebuffer], the function-local statics of
      [handle_mouse_input]) are the fields of one record, [world], that every
      operation takes and returns.
    - What the program reads from the outside (physical memory during
      detection, the firmware's reply to a mailbox request, the PS/2 registers)
      is an explicit argument.  The mailbox busy-wait loops are taken to
      return: the reply is whatever the firmware wrote into the request block.
    - An array access outside its array is undefined in C.  Here a store
      outside the array stores nothing and a load outside it yields the zero
      cell; statements about cell contents assume the grid lies inside
      [static_buffer]. *)

From Stdlib Require Import ZArith Lia Bool Ascii String.
From stdpp Require Import base option list gmap.

Local Open Scope Z_scope.

(** ** Machine integers *)

Definition uint32 (z : Z) : Z := z mod 2 ^ 32.

Definition to_int (z : Z) : Z :=
  let u := z mod 2 ^ 32 in if u <? 2 ^ 31 then u else u - 2 ^ 32.

Definition uint8 (z : Z) : Z := z mod 256.

(** [(int8_t)b] for a byte [b]. *)
Definition to_int8 (b : Z) : Z :=
  let u := b mod 256 in if u <? 128 then u else u - 256.

(** [(uint8_t)c] for a character [c]. *)
Definition char_code (c : ascii) : Z := Z.of_N (N_of_ascii c).

(** [for (i = lo; i < lo + n; i++) body], for a body that leaves [i] and the
    bound alone. *)
Fixpoint for_loop {S : Type} (n : nat) (i : Z) (body : Z -> S -> S) (s : S) : S :=
  match n with
  | O => s
  | Datatypes.S n' => for_loop n' (i + 1) body (body i s)
  end.

(** ** Platform description *)

Inductive platform_type_t : Set :=
  | PLATFORM_UNKNOWN
  | PLATFORM_PI_BCM2835
  | PLATFORM_PI_BCM2836
  | PLATFORM_PI_BCM2837
  | PLATFORM_PI_BCM2837B0
  | PLATFORM_PI_BCM2711
  | PLATFORM_QEMU_VERSATILE.

Definition platform_eqb (a b : platform_type_t) : bool :=
  match a, b with
  | PLATFORM_UNKNOWN, PLATFORM_UNKNOWN
  | PLATFORM_PI_BCM2835, PLATFORM_PI_BCM2835
  | PLATFORM_PI_BCM2836, PLATFORM_PI_BCM2836
  | PLATFORM_PI_BCM2837, PLATFORM_PI_BCM2837
  | PLATFORM_PI_BCM2837B0, PLATFORM_PI_BCM2837B0
  | PLATFORM_PI_BCM2711, PLATFORM_PI_BCM2711
  | PLATFORM_QEMU_VERSATILE, PLATFORM_QEMU_VERSATILE => true
  | _, _ => false
  end.

Record platform_info_t : Type := {
  platform : platform_type_t;
  peripheral_base : Z;
  mailbox_base : Z;
  gpio_base : Z;
  uart_base : Z;
  usb_base : Z;
  name : string;
  has_usb : bool;
  has_ps2 : bool
}.

Definition BCM2835_PERIPHERAL_BASE : Z := 0x20000000.
Definition BCM2836_PERIPHERAL_BASE : Z := 0x3F000000.
Definition BCM2711_PERIPHERAL_BASE : Z := 0xFE000000.

Definition QEMU_PL050_KBD_BASE : Z := 0x10007000.
Definition QEMU_PL050_MOUSE_BASE : Z := 0x10008000.
Definition QEMU_PL011_UART_BASE : Z := 0x101F1000.
Definition QEMU_CLCD_BASE : Z := 0x10120000.

Definition GPIO_OFFSET : Z := 0x200000.
Definition UART_OFFSET : Z := 0x201000.
Definition MAILBOX_OFFSET : Z := 0x00B880.
Definition USB_OFFSET : Z := 0x980000.

Definition FONT_WIDTH : Z := 8.
Definition FONT_HEIGHT : Z := 16.
Definition MIN_CONSOLE_COLS : Z := 40.
Definition MIN_CONSOLE_ROWS : Z := 15.
Definition MAX_BUFFER_LINES : Z := 3000.
Definition STATUS_BAR_HEIGHT : Z := FONT_HEIGHT.

Definition COLOR_BLACK : Z := 0xFF000000.
Definition COLOR_GREEN : Z := 0xFF00AA00.
Definition COLOR_LIGHT_GREEN : Z := 0xFF55FF55.
Definition COLOR_CYAN : Z := 0xFF00AAAA.
Definition COLOR_DARK_GRAY : Z := 0xFF555555.
Definition COLOR_YELLOW : Z := 0xFFFFFF55.
Definition COLOR_WHITE : Z := 0xFFFFFFFF.

(** ** Console state *)

Record console_cell_t : Type := {
  character : ascii;
  foreground : Z;
  background : Z;
  attributes : Z
}.

Record universal_console_t : Type := {
  framebuffer : Z;
  width : Z;
  height : Z;
  pitch : Z;
  console_cols : Z;
  console_rows : Z;
  buffer : list console_cell_t;
  buffer_lines : Z;
  current_line : Z;
  current_col : Z;
  display_start : Z;
  current_fg : Z;
  current_bg : Z;
  cursor_visible : bool;
  cursor_blink_counter : Z;
  mouse_x : Z;
  mouse_y : Z;
  mouse_buttons : Z;
  mouse_available : bool;
  keyboard_available : bool;
  total_chars : Z;
  scroll_position : Z
}.

(** Calls the properties below speak about, recorded in program order (most
    recent first).  The record is write-only: no operation reads it. *)
Inductive event : Type :=
  | EvShiftScroll                       (* a call of [scroll_buffer_up] *)
  | EvScrollCmd (delta : Z)             (* a call of [handle_scroll delta] *)
  | EvPs2Write (base : Z) (data : Z).   (* a byte written by [ps2_write_data] *)

Record world : Type := {
  current_platform : platform_info_t;
  console : universal_console_t;
  vram : gmap Z Z;          (* pixel memory: byte address to 32-bit colour *)
  mouse_packet : list Z;    (* [static uint8_t mouse_packet[3]] *)
  packet_index : Z;         (* [static int packet_index] *)
  trace : list event
}.

(** Field assignments. *)

Definition set_character (v : ascii) (r : console_cell_t) : console_cell_t :=
  {| character := v; foreground := foreground r; background := background r; attributes :=
     attributes r |}.

Definition set_foreground (v : Z) (r : console_cell_t) : console_cell_t :=
  {| character := character r; foreground := v; background := background r; attributes :=
     attributes r |}.

Definition set_background (v : Z) (r : console_cell_t) : console_cell_t :=
  {| character := character r; foreground := foreground r; background := v; attributes :=
     attributes r |}.

Definition set_attributes (v : Z) (r : console_cell_t) : console_cell_t :=
  {| character := character r; foreground := foreground r; background := background r;
     attributes := v |}.

Definition set_framebuffer (v : Z) (r : universal_console_t) : universal_console_t :=
  {| framebuffer := v; width := width r; height := height r; pitch := pitch r; console_cols :=
     console_cols r; console_rows := console_rows r; buffer := buffer r; buffer_lines :=
     buffer_lines r; current_line := current_line r; current_col := current_col r; display_start
     := display_start r; current_fg := current_fg r; current_bg := current_bg r; cursor_visible
     := cursor_visible r; cursor_blink_counter := cursor_blink_counter r; mouse_x := mouse_x r;
     mouse_y := mouse_y r; mouse_buttons := mouse_buttons r; mouse_available := mouse_available
     r; keyboard_available := keyboard_available r; total_chars := total_chars r;
     scroll_position := scroll_position r |}.

Definition set_width (v : Z) (r : universal_console_t) : universal_console_t :=
  {| framebuffer := framebuffer r; width := v; height := height r; pitch := pitch r;
     console_cols := console_cols r; console_rows := console_rows r; buffer := buffer r;
     buffer_lines := buffer_lines r; current_line := current_line r; current_col := current_col
     r; display_start := display_start r; current_fg := current_fg r; current_bg := current_bg
     r; cursor_visible := cursor_visible r; cursor_blink_counter := cursor_blink_counter r;
     mouse_x := mouse_x r; mouse_y := mouse_y r; mouse_buttons := mouse_buttons r;
     mouse_available := mouse_available r; keyboard_available := keyboard_available r;
     total_chars := total_chars r; scroll_position := scroll_position r |}.

Definition set_height (v : Z) (r : universal_console_t) : universal_console_t :=
  {| framebuffer := framebuffer r; width := width r; height := v; pitch := pitch r; console_cols
     := console_cols r; console_rows := console_rows r; buffer := buffer r; buffer_lines :=
     buffer_lines r; current_line := current_line r; current_col := current_col r; display_start
     := display_start r; current_fg := current_fg r; current_bg := current_bg r; cursor_visible
     := cursor_visible r; cursor_blink_counter := cursor_blink_counter r; mouse_x := mouse_x r;
     mouse_y := mouse_y r; mouse_buttons := mouse_buttons r; mouse_available := mouse_available
     r; keyboard_available := keyboard_available r; total_chars := total_chars r;
     scroll_position := scroll_position r |}.

Definition set_pitch (v : Z) (r : universal_console_t) : universal_console_t :=
  {| framebuffer := framebuffer r; width := width r; height := height r; pitch := v;
     console_cols := console_cols r; console_rows := console_rows r; buffer := buffer r;
     buffer_lines := buffer_lines r; current_line := current_line r; current_col := current_col
     r; display_start := display_start r; current_fg := current_fg r; current_bg := current_bg
     r; cursor_visible := cursor_visible r; cursor_blink_counter := cursor_blink_counter r;
     mouse_x := mouse_x r; mouse_y := mouse_y r; mouse_buttons := mouse_buttons r;
     mouse_available := mouse_available r; keyboard_available := keyboard_available r;
     total_chars := total_chars r; scroll_position := scroll_position r |}.

Definition set_console_cols (v : Z) (r : universal_console_t) : universal_console_t :=
  {| framebuffer := framebuffer r; width := width r; height := height r; pitch := pitch r;
     console_cols := v; console_rows := console_rows r; buffer := buffer r; buffer_lines :=
     buffer_lines r; current_line := current_line r; current_col := current_col r; display_start
     := display_start r; current_fg := current_fg r; current_bg := current_bg r; cursor_visible
     := cursor_visible r; cursor_blink_counter := cursor_blink_counter r; mouse_x := mouse_x r;
     mouse_y := mouse_y r; mouse_buttons := mouse_buttons r; mouse_available := mouse_available
     r; keyboard_available := keyboard_available r; total_chars := total_chars r;
     scroll_position := scroll_position r |}.

Definition set_console_rows (v : Z) (r : universal_console_t) : universal_console_t :=
  {| framebuffer := framebuffer r; width := width r; height := height r; pitch := pitch r;
     console_cols := console_cols r; console_rows := v; buffer := buffer r; buffer_lines :=
     buffer_lines r; current_line := current_line r; current_col := current_col r; display_start
     := display_start r; current_fg := current_fg r; current_bg := current_bg r; cursor_visible
     := cursor_visible r; cursor_blink_counter := cursor_blink_counter r; mouse_x := mouse_x r;
     mouse_y := mouse_y r; mouse_buttons := mouse_buttons r; mouse_available := mouse_available
     r; keyboard_available := keyboard_available r; total_chars := total_chars r;
     scroll_position := scroll_position r |}.

Definition set_buffer (v : list console_cell_t) (r : universal_console_t) : universal_console_t :=
  {| framebuffer := framebuffer r; width := width r; height := height r; pitch := pitch r;
     console_cols := console_cols r; console_rows := console_rows r; buffer := v; buffer_lines
     := buffer_lines r; current_line := current_line r; current_col := current_col r;
     display_start := display_start r; current_fg := current_fg r; current_bg := current_bg r;
     cursor_visible := cursor_visible r; cursor_blink_counter := cursor_blink_counter r; mouse_x
     := mouse_x r; mouse_y := mouse_y r; mouse_buttons := mouse_buttons r; mouse_available :=
     mouse_available r; keyboard_available := keyboard_available r; total_chars := total_chars
     r; scroll_position := scroll_position r |}.

Definition set_buffer_lines (v : Z) (r : universal_console_t) : universal_console_t :=
  {| framebuffer := framebuffer r; width := width r; height := height r; pitch := pitch r;
     console_cols := console_cols r; console_rows := console_rows r; buffer := buffer r;
     buffer_lines := v; current_line := current_line r; current_col := current_col r;
     display_start := display_start r; current_fg := current_fg r; current_bg := current_bg r;
     cursor_visible := cursor_visible r; cursor_blink_counter := cursor_blink_counter r; mouse_x
     := mouse_x r; mouse_y := mouse_y r; mouse_buttons := mouse_buttons r; mouse_available :=
     mouse_available r; keyboard_available := keyboard_available r; total_chars := total_chars
     r; scroll_position := scroll_position r |}.

Definition set_current_line (v : Z) (r : universal_console_t) : universal_console_t :=
  {| framebuffer := framebuffer r; width := width r; height := height r; pitch := pitch r;
     console_cols := console_cols r; console_rows := console_rows r; buffer := buffer r;
     buffer_lines := buffer_lines r; current_line := v; current_col := current_col r;
     display_start := display_start r; current_fg := current_fg r; current_bg := current_bg r;
     cursor_visible := cursor_visible r; cursor_blink_counter := cursor_blink_counter r; mouse_x
     := mouse_x r; mouse_y := mouse_y r; mouse_buttons := mouse_buttons r; mouse_available :=
     mouse_available r; keyboard_available := keyboard_available r; total_chars := total_chars
     r; scroll_position := scroll_position r |}.

Definition set_current_col (v : Z) (r : universal_console_t) : universal_console_t :=
  {| framebuffer := framebuffer r; width := width r; height := height r; pitch := pitch r;
     console_cols := console_cols r; console_rows := console_rows r; buffer := buffer r;
     buffer_lines := buffer_lines r; current_line := current_line r; current_col := v;
     display_start := display_start r; current_fg := current_fg r; current_bg := current_bg r;
     cursor_visible := cursor_visible r; cursor_blink_counter := cursor_blink_counter r; mouse_x
     := mouse_x r; mouse_y := mouse_y r; mouse_buttons := mouse_buttons r; mouse_available :=
     mouse_available r; keyboard_available := keyboard_available r; total_chars := total_chars
     r; scroll_position := scroll_position r |}.

Definition set_display_start (v : Z) (r : universal_console_t) : universal_console_t :=
  {| framebuffer := framebuffer r; width := width r; height := height r; pitch := pitch r;
     console_cols := console_cols r; console_rows := console_rows r; buffer := buffer r;
     buffer_lines := buffer_lines r; current_line := current_line r; current_col := current_col
     r; display_start := v; current_fg := current_fg r; current_bg := current_bg r;
     cursor_visible := cursor_visible r; cursor_blink_counter := cursor_blink_counter r; mouse_x
     := mouse_x r; mouse_y := mouse_y r; mouse_buttons := mouse_buttons r; mouse_available :=
     mouse_available r; keyboard_available := keyboard_available r; total_chars := total_chars
     r; scroll_position := scroll_position r |}.

Definition set_current_fg (v : Z) (r : universal_console_t) : universal_console_t :=
  {| framebuffer := framebuffer r; width := width r; height := height r; pitch := pitch r;
     console_cols := console_cols r; console_rows := console_rows r; buffer := buffer r;
     buffer_lines := buffer_lines r; current_line := current_line r; current_col := current_col
     r; display_start := display_start r; current_fg := v; current_bg := current_bg r;
     cursor_visible := cursor_visible r; cursor_blink_counter := cursor_blink_counter r; mouse_x
     := mouse_x r; mouse_y := mouse_y r; mouse_buttons := mouse_buttons r; mouse_available :=
     mouse_available r; keyboard_available := keyboard_available r; total_chars := total_chars
     r; scroll_position := scroll_position r |}.

Definition set_current_bg (v : Z) (r : universal_console_t) : universal_console_t :=
  {| framebuffer := framebuffer r; width := width r; height := height r; pitch := pitch r;
     console_cols := console_cols r; console_rows := console_rows r; buffer := buffer r;
     buffer_lines := buffer_lines r; current_line := current_line r; current_col := current_col
     r; display_start := display_start r; current_fg := current_fg r; current_bg := v;
     cursor_visible := cursor_visible r; cursor_blink_counter := cursor_blink_counter r; mouse_x
     := mouse_x r; mouse_y := mouse_y r; mouse_buttons := mouse_buttons r; mouse_available :=
     mouse_available r; keyboard_available := keyboard_available r; total_chars := total_chars
     r; scroll_position := scroll_position r |}.

Definition set_cursor_visible (v : bool) (r : universal_console_t) : universal_console_t :=
  {| framebuffer := framebuffer r; width := width r; height := height r; pitch := pitch r;
     console_cols := console_cols r; console_rows := console_rows r; buffer := buffer r;
     buffer_lines := buffer_lines r; current_line := current_line r; current_col := current_col
     r; display_start := display_start r; current_fg := current_fg r; current_bg := current_bg
     r; cursor_visible := v; cursor_blink_counter := cursor_blink_counter r; mouse_x := mouse_x
     r; mouse_y := mouse_y r; mouse_buttons := mouse_buttons r; mouse_available :=
     mouse_available r; keyboard_available := keyboard_available r; total_chars := total_chars
     r; scroll_position := scroll_position r |}.

Definition set_cursor_blink_counter (v : Z) (r : universal_console_t) : universal_console_t :=
  {| framebuffer := framebuffer r; width := width r; height := height r; pitch := pitch r;
     console_cols := console_cols r; console_rows := console_rows r; buffer := buffer r;
     buffer_lines := buffer_lines r; current_line := current_line r; current_col := current_col
     r; display_start := display_start r; current_fg := current_fg r; current_bg := current_bg
     r; cursor_visible := cursor_visible r; cursor_blink_counter := v; mouse_x := mouse_x r;
     mouse_y := mouse_y r; mouse_buttons := mouse_buttons r; mouse_available := mouse_available
     r; keyboard_available := keyboard_available r; total_chars := total_chars r;
     scroll_position := scroll_position r |}.

Definition set_mouse_x (v : Z) (r : universal_console_t) : universal_console_t :=
  {| framebuffer := framebuffer r; width := width r; height := height r; pitch := pitch r;
     console_cols := console_cols r; console_rows := console_rows r; buffer := buffer r;
     buffer_lines := buffer_lines r; current_line := current_line r; current_col := current_col
     r; display_start := display_start r; current_fg := current_fg r; current_bg := current_bg
     r; cursor_visible := cursor_visible r; cursor_blink_counter := cursor_blink_counter r;
     mouse_x := v; mouse_y := mouse_y r; mouse_buttons := mouse_buttons r; mouse_available :=
     mouse_available r; keyboard_available := keyboard_available r; total_chars := total_chars
     r; scroll_position := scroll_position r |}.

Definition set_mouse_y (v : Z) (r : universal_console_t) : universal_console_t :=
  {| framebuffer := framebuffer r; width := width r; height := height r; pitch := pitch r;
     console_cols := console_cols r; console_rows := console_rows r; buffer := buffer r;
     buffer_lines := buffer_lines r; current_line := current_line r; current_col := current_col
     r; display_start := display_start r; current_fg := current_fg r; current_bg := current_bg
     r; cursor_visible := cursor_visible r; cursor_blink_counter := cursor_blink_counter r;
     mouse_x := mouse_x r; mouse_y := v; mouse_buttons := mouse_buttons r; mouse_available :=
     mouse_available r; keyboard_available := keyboard_available r; total_chars := total_chars
     r; scroll_position := scroll_position r |}.

Definition set_mouse_buttons (v : Z) (r : universal_console_t) : universal_console_t :=
  {| framebuffer := framebuffer r; width := width r; height := height r; pitch := pitch r;
     console_cols := console_cols r; console_rows := console_rows r; buffer := buffer r;
     buffer_lines := buffer_lines r; current_line := current_line r; current_col := current_col
     r; display_start := display_start r; current_fg := current_fg r; current_bg := current_bg
     r; cursor_visible := cursor_visible r; cursor_blink_counter := cursor_blink_counter r;
     mouse_x := mouse_x r; mouse_y := mouse_y r; mouse_buttons := v; mouse_available :=
     mouse_available r; keyboard_available := keyboard_available r; total_chars := total_chars
     r; scroll_position := scroll_position r |}.

Definition set_mouse_available (v : bool) (r : universal_console_t) : universal_console_t :=
  {| framebuffer := framebuffer r; width := width r; height := height r; pitch := pitch r;
     console_cols := console_cols r; console_rows := console_rows r; buffer := buffer r;
     buffer_lines := buffer_lines r; current_line := current_line r; current_col := current_col
     r; display_start := display_start r; current_fg := current_fg r; current_bg := current_bg
     r; cursor_visible := cursor_visible r; cursor_blink_counter := cursor_blink_counter r;
     mouse_x := mouse_x r; mouse_y := mouse_y r; mouse_buttons := mouse_buttons r;
     mouse_available := v; keyboard_available := keyboard_available r; total_chars :=
     total_chars r; scroll_position := scroll_position r |}.

Definition set_keyboard_available (v : bool) (r : universal_console_t) : universal_console_t :=
  {| framebuffer := framebuffer r; width := width r; height := height r; pitch := pitch r;
     console_cols := console_cols r; console_rows := console_rows r; buffer := buffer r;
     buffer_lines := buffer_lines r; current_line := current_line r; current_col := current_col
     r; display_start := display_start r; current_fg := current_fg r; current_bg := current_bg
     r; cursor_visible := cursor_visible r; cursor_blink_counter := cursor_blink_counter r;
     mouse_x := mouse_x r; mouse_y := mouse_y r; mouse_buttons := mouse_buttons r;
     mouse_available := mouse_available r; keyboard_available := v; total_chars := total_chars
     r; scroll_position := scroll_position r |}.

Definition set_total_chars (v : Z) (r : universal_console_t) : universal_console_t :=
  {| framebuffer := framebuffer r; width := width r; height := height r; pitch := pitch r;
     console_cols := console_cols r; console_rows := console_rows r; buffer := buffer r;
     buffer_lines := buffer_lines r; current_line := current_line r; current_col := current_col
     r; display_start := display_start r; current_fg := current_fg r; current_bg := current_bg
     r; cursor_visible := cursor_visible r; cursor_blink_counter := cursor_blink_counter r;
     mouse_x := mouse_x r; mouse_y := mouse_y r; mouse_buttons := mouse_buttons r;
     mouse_available := mouse_available r; keyboard_available := keyboard_available r;
     total_chars := v; scroll_position := scroll_position r |}.

Definition set_scroll_position (v : Z) (r : universal_console_t) : universal_console_t :=
  {| framebuffer := framebuffer r; width := width r; height := height r; pitch := pitch r;
     console_cols := console_cols r; console_rows := console_rows r; buffer := buffer r;
     buffer_lines := buffer_lines r; current_line := current_line r; current_col := current_col
     r; display_start := display_start r; current_fg := current_fg r; current_bg := current_bg
     r; cursor_visible := cursor_visible r; cursor_blink_counter := cursor_blink_counter r;
     mouse_x := mouse_x r; mouse_y := mouse_y r; mouse_buttons := mouse_buttons r;
     mouse_available := mouse_available r; keyboard_available := keyboard_available r;
     total_chars := total_chars r; scroll_position := v |}.

Definition set_current_platform (v : platform_info_t) (r : world) : world :=
  {| current_platform := v; console := console r; vram := vram r; mouse_packet := mouse_packet
     r; packet_index := packet_index r; trace := trace r |}.

Definition set_console (v : universal_console_t) (r : world) : world :=
  {| current_platform := current_platform r; console := v; vram := vram r; mouse_packet :=
     mouse_packet r; packet_index := packet_index r; trace := trace r |}.

Definition set_vram (v : gmap Z Z) (r : world) : world :=
  {| current_platform := current_platform r; console := console r; vram := v; mouse_packet :=
     mouse_packet r; packet_index := packet_index r; trace := trace r |}.

Definition set_mouse_packet (v : list Z) (r : world) : world :=
  {| current_platform := current_platform r; console := console r; vram := vram r; mouse_packet
     := v; packet_index := packet_index r; trace := trace r |}.

Definition set_packet_index (v : Z) (r : world) : world :=
  {| current_platform := current_platform r; console := console r; vram := vram r; mouse_packet
     := mouse_packet r; packet_index := v; trace := trace r |}.

Definition set_trace (v : list event) (r : world) : world :=
  {| current_platform := current_platform r; console := console r; vram := vram r; mouse_packet
     := mouse_packet r; packet_index := packet_index r; trace := v |}.

Definition upd_console (f : universal_console_t -> universal_console_t) (w : world) : world :=
  set_console (f (console w)) w.

Definition log (e : event) (w : world) : world := set_trace (e :: trace w) w.

(** ** Hardware detection *)

(** [safe_peek32]: [mem] gives the word a 32-bit load returns at a physical
    address; the result is the pair of the returned flag and [*value]. *)
Definition safe_peek32 (mem : Z -> Z) (address : Z) : bool * Z :=
  let value := uint32 (mem address) in
  (negb (value =? 0xFFFFFFFF) && negb (value =? 0x00000000), value).

Definition qemu_profile : platform_info_t :=
  {| platform := PLATFORM_QEMU_VERSATILE;
     peripheral_base := 0x10000000;
     mailbox_base := 0;
     gpio_base := QEMU_PL050_KBD_BASE;
     uart_base := QEMU_PL011_UART_BASE;
     usb_base := 0;
     name := "QEMU ARM Versatile PB";
     has_usb := false;
     has_ps2 := true |}.

(** The assignments shared by the three Raspberry Pi branches. *)
Definition pi_profile (p : platform_type_t) (base : Z) (n : string) : platform_info_t :=
  {| platform := p;
     peripheral_base := base;
     mailbox_base := uint32 (base + MAILBOX_OFFSET);
     gpio_base := uint32 (base + GPIO_OFFSET);
     uart_base := uint32 (base + UART_OFFSET);
     usb_base := uint32 (base + USB_OFFSET);
     name := n;
     has_usb := true;
     has_ps2 := false |}.

Definition detect_platform (mem : Z -> Z) (w : world) : platform_type_t * world :=
  let '(ok_qemu, test_value) := safe_peek32 mem (QEMU_PL050_KBD_BASE + 0x04) in
  if ok_qemu && negb (Z.land test_value 0xFF =? 0xFF) then
    (PLATFORM_QEMU_VERSATILE, set_current_platform qemu_profile w)
  else if fst (safe_peek32 mem (BCM2711_PERIPHERAL_BASE + MAILBOX_OFFSET + 0x18)) then
    (PLATFORM_PI_BCM2711,
     set_current_platform
       (pi_profile PLATFORM_PI_BCM2711 BCM2711_PERIPHERAL_BASE
          "Raspberry Pi 4/400/CM4 (BCM2711)") w)
  else if fst (safe_peek32 mem (BCM2836_PERIPHERAL_BASE + MAILBOX_OFFSET + 0x18)) then
    let arm_timer_base := BCM2836_PERIPHERAL_BASE + 0x40000 in
    if fst (safe_peek32 mem arm_timer_base) then
      (PLATFORM_PI_BCM2837,
       set_current_platform
         (pi_profile PLATFORM_PI_BCM2837 BCM2836_PERIPHERAL_BASE
            "Raspberry Pi 2/3/Zero2W (BCM2836/2837)") w)
    else
      (PLATFORM_PI_BCM2836,
       set_current_platform
         (pi_profile PLATFORM_PI_BCM2836 BCM2836_PERIPHERAL_BASE
            "Raspberry Pi 2 (BCM2836)") w)
  else
    (PLATFORM_PI_BCM2835,
     set_current_platform
       (pi_profile PLATFORM_PI_BCM2835 BCM2835_PERIPHERAL_BASE
          "Raspberry Pi 1/Zero (BCM2835)") w).

(** ** Mailbox and display negotiation *)

Definition mailbox_available (w : world) : bool :=
  negb (mailbox_base (current_platform w) =? 0)
  && negb (platform_eqb (platform (current_platform w)) PLATFORM_QEMU_VERSATILE).

Module Req.
(** [display_request_t], the property-tag block exchanged with the GPU. *)
Record display_request_t : Type := {
  size : Z;
  code : Z;
  tag_get_physical : Z;
  tag_get_physical_size : Z;
  tag_get_physical_code : Z;
  physical_width : Z;
  physical_height : Z;
  tag_set_physical : Z;
  tag_set_physical_size : Z;
  tag_set_physical_code : Z;
  set_width : Z;
  set_height : Z;
  tag_set_virtual : Z;
  tag_set_virtual_size : Z;
  tag_set_virtual_code : Z;
  virtual_width : Z;
  virtual_height : Z;
  tag_set_depth : Z;
  tag_set_depth_size : Z;
  tag_set_depth_code : Z;
  depth : Z;
  tag_allocate : Z;
  tag_allocate_size : Z;
  tag_allocate_code : Z;
  fb_address : Z;
  fb_size : Z;
  tag_get_pitch : Z;
  tag_get_pitch_size : Z;
  tag_get_pitch_code : Z;
  pitch : Z;
  end_tag : Z
}.

(** Thirty-one words, rounded up by [aligned(16)]. *)
Definition sizeof : Z := 128.

Definition zero : display_request_t :=
  Build_display_request_t 0 0 0 0 0 0 0 0 0 0 0 0 0 0 0 0 0 0 0 0 0 0 0 0 0 0 0 0 0 0 0.
End Req.

(** The firmware, as seen through one [mailbox_write]/[mailbox_read] pair on
    the GPU channel: it maps the request block to the block after the reply.
    The fields of a block are 32-bit words. *)
Definition firmware : Type := Req.display_request_t -> Req.display_request_t.

(** The block of [detect_display_resolution]. *)
Definition resolution_request : Req.display_request_t :=
  let r := Req.zero in
  Req.Build_display_request_t
    Req.sizeof 0
    0x40003 8 0 0 0
    (Req.tag_set_physical r) (Req.tag_set_physical_size r) (Req.tag_set_physical_code r)
    (Req.set_width r) (Req.set_height r)
    (Req.tag_set_virtual r) (Req.tag_set_virtual_size r) (Req.tag_set_virtual_code r)
    (Req.virtual_width r) (Req.virtual_height r)
    (Req.tag_set_depth r) (Req.tag_set_depth_size r) (Req.tag_set_depth_code r) (Req.depth r)
    (Req.tag_allocate r) (Req.tag_allocate_size r) (Req.tag_allocate_code r)
    (Req.fb_address r) (Req.fb_size r)
    (Req.tag_get_pitch r) (Req.tag_get_pitch_size r) (Req.tag_get_pitch_code r) (Req.pitch r)
    0.

(** The block of [setup_framebuffer], with the requested geometry filled in. *)
Definition fb_request (width height : Z) : Req.display_request_t :=
  Req.Build_display_request_t
    Req.sizeof 0
    0 0 0 0 0
    0x48003 8 0 width height
    0x48004 8 0 width height
    0x48005 4 0 32
    0x40001 8 0 0 0
    0x40008 4 0 0
    0.

(** The fallback switch at the end of [detect_display_resolution]. *)
Definition fallback_resolution (p : platform_type_t) : Z * Z :=
  match p with
  | PLATFORM_PI_BCM2711 => (1920, 1080)
  | PLATFORM_PI_BCM2837 | PLATFORM_PI_BCM2837B0 => (1680, 1050)
  | PLATFORM_PI_BCM2836 => (1280, 1024)
  | _ => (1024, 768)
  end.

(** Returns the status and the values left in [*width] and [*height]. *)
Definition detect_display_resolution (fw : firmware) (w : world) : Z * (Z * Z) :=
  if platform_eqb (platform (current_platform w)) PLATFORM_QEMU_VERSATILE then
    (0, (640, 480))
  else if negb (mailbox_available w) then
    (-1, (640, 480))
  else
    let request := fw resolution_request in
    if (Req.code request =? 0x80000000)
       && (0 <? Req.physical_width request) && (0 <? Req.physical_height request)
    then (0, (Req.physical_width request, Req.physical_height request))
    else (-1, fallback_resolution (platform (current_platform w))).

(** The [switch] of [setup_framebuffer] that turns the GPU bus address of the
    frame buffer into an ARM physical address. *)
Definition gpu_to_arm_address (p : platform_type_t) (fb_address : Z) : Z :=
  match p with
  | PLATFORM_PI_BCM2835
  | PLATFORM_PI_BCM2836
  | PLATFORM_PI_BCM2837
  | PLATFORM_PI_BCM2837B0 => Z.land fb_address 0x3FFFFFFF
  | PLATFORM_PI_BCM2711 =>
      if 0xC0000000 <=? fb_address then uint32 (fb_address - 0xC0000000) else fb_address
  | _ => fb_address
  end.

Definition setup_framebuffer (fw : firmware) (req_width req_height : Z) (w : world) : Z * world :=
  if platform_eqb (platform (current_platform w)) PLATFORM_QEMU_VERSATILE then
    let w := upd_console (set_framebuffer 0x200000) w in
    let w := upd_console (set_width req_width) w in
    let w := upd_console (set_height req_height) w in
    let w := upd_console (set_pitch req_width) w in
    let w := upd_console (fun c => set_console_cols (Z.div (width c) FONT_WIDTH) c) w in
    let w := upd_console
               (fun c => set_console_rows
                           (Z.div (uint32 (height c - STATUS_BAR_HEIGHT)) FONT_HEIGHT) c) w in
    (0, w)
  else if negb (mailbox_available w) then
    (-1, w)
  else
    let reply := fw (fb_request req_width req_height) in
    if negb (Req.code reply =? 0x80000000) then
      (-1, w)
    else
      let fb_address :=
        gpu_to_arm_address (platform (current_platform w)) (Req.fb_address reply) in
      let w := upd_console (set_framebuffer fb_address) w in
      let w := upd_console (set_width (Req.set_width reply)) w in
      let w := upd_console (set_height (Req.set_height reply)) w in
      let w := upd_console (set_pitch (Z.div (Req.pitch reply) 4)) w in
      let w := upd_console (fun c => set_console_cols (Z.div (width c) FONT_WIDTH) c) w in
      let w := upd_console
                 (fun c => set_console_rows
                             (Z.div (uint32 (height c - STATUS_BAR_HEIGHT)) FONT_HEIGHT) c) w in
      let w := upd_console
                 (fun c => if console_cols c <? MIN_CONSOLE_COLS
                           then set_console_cols MIN_CONSOLE_COLS c else c) w in
      let w := upd_console
                 (fun c => if console_rows c <? MIN_CONSOLE_ROWS
                           then set_console_rows MIN_CONSOLE_ROWS c else c) w in
      (0, w).

(** ** PS/2 devices *)

Definition PL050_STAT_RXFULL : Z := 0x10.
Definition PL050_STAT_TXBUSY : Z := 0x20.

(** The two registers of a PL050 that [ps2_read_data] loads, as they stand at
    the time of the call. *)
Record pl050_regs : Type := { PL050_STAT : Z; PL050_DATA : Z }.

Definition ps2_read_data (regs : pl050_regs) : Z :=
  if negb (Z.land (PL050_STAT regs) PL050_STAT_RXFULL =? 0)
  then Z.land (PL050_DATA regs) 0xFF
  else 0.

(** The wait for [PL050_STAT_TXBUSY] to clear is taken to end. *)
Definition ps2_write_data (base : Z) (data : Z) (w : world) : world :=
  log (EvPs2Write base data) w.

Definition init_ps2_devices (w : world) : world :=
  if negb (platform_eqb (platform (current_platform w)) PLATFORM_QEMU_VERSATILE) then w
  else
    let w := ps2_write_data QEMU_PL050_MOUSE_BASE 0xFF w in
    let w := ps2_write_data QEMU_PL050_MOUSE_BASE 0xF4 w in
    let w := upd_console (set_mouse_available true) w in
    upd_console (set_keyboard_available true) w.

(** ** Console buffer *)

Definition STATIC_BUFFER_CELLS : Z := MAX_BUFFER_LINES * 240.

Definition zero_cell : console_cell_t :=
  {| character := Ascii.zero; foreground := 0; background := 0; attributes := 0 |}.

Definition blank_cell (fg bg : Z) : console_cell_t :=
  {| character := " "; foreground := fg; background := bg; attributes := 0 |}.

(** [static_buffer] is zero until the first [init_console_buffer]; from then on
    [console.buffer] points at it, so the list in [buffer] is its contents and
    the empty list stands for the null pointer of the zeroed [console]. *)
Definition static_buffer (c : universal_console_t) : list console_cell_t :=
  match buffer c with
  | [] => replicate (Z.to_nat STATIC_BUFFER_CELLS) zero_cell
  | cells => cells
  end.

(** [buffer[i]] as an rvalue. *)
Definition cell_at (cells : list console_cell_t) (i : Z) : console_cell_t :=
  default zero_cell (cells !! Z.to_nat i).

Definition init_console_buffer (w : world) : Z * world :=
  let w := upd_console (set_buffer_lines MAX_BUFFER_LINES) w in
  let buffer_size := uint32 (buffer_lines (console w) * console_cols (console w)) in
  let w := upd_console (fun c => set_buffer (static_buffer c) c) w in
  let w := upd_console
             (fun c => set_buffer
                (for_loop (Z.to_nat (Z.min buffer_size STATIC_BUFFER_CELLS)) 0
                   (fun i cells => <[Z.to_nat i := blank_cell COLOR_WHITE COLOR_BLACK]> cells)
                   (buffer c)) c) w in
  let w := upd_console (set_current_line 0) w in
  let w := upd_console (set_current_col 0) w in
  let w := upd_console (set_display_start 0) w in
  let w := upd_console (set_current_fg COLOR_WHITE) w in
  let w := upd_console (set_current_bg COLOR_BLACK) w in
  let w := upd_console (set_cursor_visible true) w in
  let w := upd_console (set_scroll_position 0) w in
  (0, w).

(** The index of the cell [get_cell] points at, or [None] for [NULL]. *)
Definition get_cell (c : universal_console_t) (line col : Z) : option Z :=
  if (console_cols c <=? col) || (buffer_lines c <=? line) then None
  else Some (uint32 (line * console_cols c + col)).

Definition scroll_buffer_up (w : world) : world :=
  let w := log EvShiftScroll w in
  let cells_per_line := console_cols (console w) in
  let w := upd_console
             (fun c => set_buffer
                (for_loop (Z.to_nat (uint32 (buffer_lines c - 1))) 0
                   (fun line cells =>
                      for_loop (Z.to_nat cells_per_line) 0
                        (fun col cells =>
                           let src_idx := uint32 (uint32 (line + 1) * cells_per_line + col) in
                           let dst_idx := uint32 (line * cells_per_line + col) in
                           <[Z.to_nat dst_idx := cell_at cells src_idx]> cells)
                        cells)
                   (buffer c)) c) w in
  let last_line_start := uint32 (uint32 (buffer_lines (console w) - 1) * cells_per_line) in
  upd_console
    (fun c => set_buffer
       (for_loop (Z.to_nat cells_per_line) 0
          (fun col cells =>
             <[Z.to_nat (uint32 (last_line_start + col)) :=
                 blank_cell (current_fg c) (current_bg c)]> cells)
          (buffer c)) c) w.

(** ** Formatted output

    [snprintf] and [vsnprintf] are used by this file but not defined in it; they
    are given the C library's meaning for the conversions the callers use:
    [%s], [%d] and [%X], with an optional [0] flag and field width. *)

Inductive fmt_arg : Type :=
  | ArgString (s : string)
  | ArgInt (z : Z).

(** A C string ends at its first NUL. *)
Fixpoint c_str (s : string) : string :=
  match s with
  | EmptyString => EmptyString
  | String a s' => if Ascii.eqb a Ascii.zero then EmptyString else String a (c_str s')
  end.

Definition digit_char (d : Z) : ascii :=
  ascii_of_N (Z.to_N (if d <? 10 then 48 + d else 55 + d)).

Fixpoint digits (fuel : nat) (base n : Z) (acc : string) : string :=
  match fuel with
  | O => acc
  | Datatypes.S fuel' =>
      let acc := String (digit_char (n mod base)) acc in
      if n / base =? 0 then acc else digits fuel' base (n / base) acc
  end.

Fixpoint pad (n : nat) (fill : ascii) (s : string) : string :=
  match n with
  | O => s
  | Datatypes.S n' => String fill (pad n' fill s)
  end.

Definition pad_to (zero_flag : bool) (field : nat) (negative : bool) (body : string) : string :=
  let sign := if negative then "-"%string else ""%string in
  let used := (String.length sign + String.length body)%nat in
  if zero_flag then (sign ++ pad (field - used) "0" body)%string
  else pad (field - used) " " (sign ++ body)%string.

Definition convert (conv : ascii) (zero_flag : bool) (field : nat) (a : fmt_arg) : string :=
  match a with
  | ArgString s => pad (field - String.length (c_str s)) " " (c_str s)
  | ArgInt z =>
      if Ascii.eqb conv "X" then pad_to zero_flag field false (digits 32 16 (uint32 z) "")
      else
        let i := to_int z in
        pad_to zero_flag field (i <? 0) (digits 32 10 (Z.abs i) "")
  end.

(** The scanner: [spec] is [None] in literal text and [Some (zero_flag, field)]
    after a [%]. *)
Fixpoint format (spec : option (bool * nat)) (fmt : string) (args : list fmt_arg) : string :=
  match fmt with
  | EmptyString => EmptyString
  | String a fmt' =>
      match spec with
      | None =>
          if Ascii.eqb a "%" then format (Some (false, O)) fmt' args
          else String a (format None fmt' args)
      | Some (zero_flag, field) =>
          let d := char_code a - 48 in
          if (d =? 0) && (field =? 0)%nat && negb zero_flag then
            format (Some (true, O)) fmt' args
          else if (0 <=? d) && (d <=? 9) then
            format (Some (zero_flag, (10 * field + Z.to_nat d)%nat)) fmt' args
          else if Ascii.eqb a "%" then String a (format None fmt' args)
          else
            match args with
            | [] => format None fmt' args
            | arg :: args' => (convert a zero_flag field arg ++ format None fmt' args')%string
            end
      end
  end.

Fixpoint truncate (n : nat) (s : string) : string :=
  match n, s with
  | Datatypes.S n', String a s' => String a (truncate n' s')
  | _, _ => EmptyString
  end.

Definition snprintf (size : Z) (fmt : string) (args : list fmt_arg) : string :=
  truncate (Z.to_nat (size - 1)) (format None (c_str fmt) args).

(** ** Rendering *)

(** [qemu_vga_font.h]: 256 glyphs of 16 rows, every byte the placeholder 0xFF. *)
Definition qemu_vga_font_8x16 : list Z := replicate (256 * 16) 0xFF.

(** The offset of the glyph in the font table. *)
Definition get_font_char (c : Z) : Z := c * 16.

(** The address of [console.framebuffer[index]]. *)
Definition pixel_address (c : universal_console_t) (index : Z) : Z :=
  uint32 (framebuffer c + 4 * index).

Definition draw_char_at (x y : Z) (c : ascii) (fg bg : Z) (w : world) : world :=
  let con := console w in
  if (framebuffer con =? 0) || (width con <? uint32 (x + FONT_WIDTH))
     || (height con <? uint32 (y + FONT_HEIGHT))
  then w
  else
    let font_data := get_font_char (char_code c) in
    for_loop (Z.to_nat FONT_HEIGHT) 0
      (fun row w =>
         let font_row := default 0 (qemu_vga_font_8x16 !! Z.to_nat (font_data + row)) in
         let pixel_row := uint32 (uint32 (y + row) * pitch con + x) in
         for_loop (Z.to_nat FONT_WIDTH) 0
           (fun col w =>
              set_vram
                (<[pixel_address con (pixel_row + col) :=
                     if negb (Z.land font_row (Z.shiftr 0x80 col) =? 0) then fg else bg]>
                   (vram w)) w)
           w)
      w.

(** The double loop shared by [clear_screen], [draw_status_bar] and
    [render_console]: rows [y0 <= y < y1], every column, one colour. *)
Definition fill_rows (y0 y1 : Z) (color : Z) (w : world) : world :=
  let con := console w in
  for_loop (Z.to_nat (y1 - y0)) y0
    (fun y w =>
       let row := uint32 (y * pitch con) in
       for_loop (Z.to_nat (width con)) 0
         (fun x w => set_vram (<[pixel_address con (row + x) := color]> (vram w)) w)
         w)
    w.

Definition clear_screen (color : Z) (w : world) : world :=
  if framebuffer (console w) =? 0 then w
  else fill_rows 0 (height (console w)) color w.

(** The text loop at the end of [draw_status_bar]: [i] counts the characters
    drawn so far and [limit] is [(int)(console.width / FONT_WIDTH)]. *)
Fixpoint draw_status_text (status : string) (i limit status_y : Z) (w : world) : world :=
  match status with
  | EmptyString => w
  | String a rest =>
      if Ascii.eqb a Ascii.zero then w
      else if i <? limit then
        draw_status_text rest (i + 1) limit status_y
          (draw_char_at (uint32 (i * FONT_WIDTH)) status_y a COLOR_WHITE COLOR_DARK_GRAY w)
      else w
  end.

Definition draw_status_bar (w : world) : world :=
  let con := console w in
  let status_y := uint32 (height con - STATUS_BAR_HEIGHT) in
  let w := fill_rows status_y (height con) COLOR_DARK_GRAY w in
  let status :=
    snprintf 256 "%s | %dx%d | L:%d C:%d | Scroll:%d | Inputs: %s%s"
      [ ArgString (name (current_platform w)); ArgInt (width con); ArgInt (height con);
        ArgInt (uint32 (current_line con + 1)); ArgInt (uint32 (current_col con + 1));
        ArgInt (scroll_position con);
        ArgString (if has_ps2 (current_platform w) then "PS2 " else "");
        ArgString (if has_usb (current_platform w) then "USB " else "UART") ] in
  draw_status_text status 0 (to_int (width con / FONT_WIDTH)) status_y w.

(** The body of the column loop of [render_console]. *)
Definition render_cell (buffer_line screen_row col : Z) (w : world) : world :=
  let con := console w in
  match get_cell con buffer_line col with
  | None => w
  | Some idx =>
      let cell := cell_at (buffer con) idx in
      let x := uint32 (col * FONT_WIDTH) in
      let y := uint32 (screen_row * FONT_HEIGHT) in
      if (buffer_line =? current_line con) && (col =? current_col con)
         && cursor_visible con && negb (Z.land (cursor_blink_counter con) 0x20 =? 0)
      then draw_char_at x y (character cell) (background cell) (foreground cell) w
      else draw_char_at x y (character cell) (foreground cell) (background cell) w
  end.

(** The row loop of [render_console], with its [break]; [n] rows remain. *)
Fixpoint render_rows (n : nat) (screen_row : Z) (w : world) : world :=
  match n with
  | O => w
  | Datatypes.S n' =>
      let con := console w in
      let buffer_line := uint32 (display_start con + screen_row) in
      if buffer_lines con <=? buffer_line then w
      else
        render_rows n' (screen_row + 1)
          (for_loop (Z.to_nat (console_cols con)) 0 (render_cell buffer_line screen_row) w)
  end.

Definition render_console (w : world) : world :=
  if framebuffer (console w) =? 0 then w
  else
    let w := fill_rows 0 (uint32 (height (console w) - STATUS_BAR_HEIGHT)) COLOR_BLACK w in
    let w := render_rows (Z.to_nat (console_rows (console w))) 0 w in
    draw_status_bar w.

(** ** Input processing *)

Definition handle_scroll (delta : Z) (w : world) : world :=
  let w := log (EvScrollCmd delta) w in
  let con := console w in
  let new_scroll := to_int (to_int (scroll_position con) + delta) in
  let new_scroll := if new_scroll <? 0 then 0 else new_scroll in
  let max_scroll :=
    to_int (to_int (to_int (current_line con) - to_int (console_rows con)) + 1) in
  let max_scroll := if max_scroll <? 0 then 0 else max_scroll in
  let new_scroll := if max_scroll <? new_scroll then max_scroll else new_scroll in
  if negb (new_scroll =? to_int (scroll_position con)) then
    let w := upd_console (set_scroll_position (uint32 new_scroll)) w in
    let w := upd_console (fun c => set_display_start (scroll_position c) c) w in
    render_console w
  else w.

Definition handle_mouse_input (mouse : pl050_regs) (w : world) : world :=
  if negb (platform_eqb (platform (current_platform w)) PLATFORM_QEMU_VERSATILE) then w
  else
    let data := ps2_read_data mouse in
    if data =? 0 then w
    else
      let w := set_mouse_packet (<[Z.to_nat (packet_index w) := data]> (mouse_packet w)) w in
      let w := set_packet_index (to_int (packet_index w + 1)) w in
      if 3 <=? packet_index w then
        let w := set_packet_index 0 w in
        let buttons := default 0 (mouse_packet w !! 0%nat) in
        let delta_x := to_int8 (default 0 (mouse_packet w !! 1%nat)) in
        let delta_y := to_int8 (default 0 (mouse_packet w !! 2%nat)) in
        let w := upd_console (fun c => set_mouse_x (to_int (mouse_x c + delta_x)) c) w in
        let w := upd_console (fun c => set_mouse_y (to_int (mouse_y c - delta_y)) c) w in
        let w := upd_console (fun c => if mouse_x c <? 0 then set_mouse_x 0 c else c) w in
        let w := upd_console (fun c => if mouse_y c <? 0 then set_mouse_y 0 c else c) w in
        let w := upd_console
                   (fun c => if to_int (width c) <=? mouse_x c
                             then set_mouse_x (to_int (uint32 (width c - 1))) c else c) w in
        let w := upd_console
                   (fun c => if to_int (height c) <=? mouse_y c
                             then set_mouse_y (to_int (uint32 (height c - 1))) c else c) w in
        let w :=
          if negb (Z.land buttons 0x02 =? 0) then
            if negb (delta_y =? 0) then handle_scroll (if 0 <? delta_y then 3 else -3) w
            else w
          else w in
        upd_console (set_mouse_buttons buttons) w
      else w.

Definition handle_keyboard_input (kbd : pl050_regs) (w : world) : world :=
  if negb (platform_eqb (platform (current_platform w)) PLATFORM_QEMU_VERSATILE) then w
  else
    let scancode := ps2_read_data kbd in
    if scancode =? 0 then w
    else if scancode =? 0x48 then handle_scroll (-1) w
    else if scancode =? 0x50 then handle_scroll 1 w
    else if scancode =? 0x49 then handle_scroll (to_int (- to_int (console_rows (console w)))) w
    else if scancode =? 0x51 then handle_scroll (to_int (console_rows (console w))) w
    else if scancode =? 0x47 then
      let w := upd_console (set_scroll_position 0) w in
      let w := upd_console (set_display_start 0) w in
      render_console w
    else if scancode =? 0x4F then
      let w := upd_console (fun c => set_scroll_position (current_line c) c) w in
      let w := upd_console
                 (fun c => set_display_start
                             (if console_rows c <=? current_line c
                              then uint32 (uint32 (current_line c - console_rows c) + 1)
                              else 0) c) w in
      render_console w
    else w.

(** ** Console output *)

(** The ['\n'] case of [console_putchar]; the tab and printable cases reach it
    through their call [console_putchar('\n')]. *)
Definition putchar_newline (w : world) : world :=
  let w := upd_console (set_current_col 0) w in
  let w := upd_console (fun c => set_current_line (uint32 (current_line c + 1)) c) w in
  let w :=
    if buffer_lines (console w) <=? current_line (console w) then
      let w := scroll_buffer_up w in
      upd_console (fun c => set_current_line (uint32 (buffer_lines c - 1)) c) w
    else w in
  if uint32 (display_start (console w) + console_rows (console w)) <=? current_line (console w)
  then
    let w := upd_console
               (fun c => set_display_start
                           (uint32 (uint32 (current_line c - console_rows c) + 1)) c) w in
    upd_console (fun c => set_scroll_position (display_start c) c) w
  else w.

Definition console_putchar (c : ascii) (w : world) : world :=
  if Ascii.eqb c "010" then putchar_newline w
  else if Ascii.eqb c "013" then upd_console (set_current_col 0) w
  else if Ascii.eqb c "009" then
    let w := upd_console
               (fun con => set_current_col
                             (Z.land (uint32 (current_col con + 8)) (uint32 (Z.lnot 7))) con) w in
    if console_cols (console w) <=? current_col (console w) then putchar_newline w else w
  else if Ascii.eqb c "008" then
    if 0 <? current_col (console w) then
      let w := upd_console (fun con => set_current_col (uint32 (current_col con - 1)) con) w in
      match get_cell (console w) (current_line (console w)) (current_col (console w)) with
      | Some idx =>
          upd_console
            (fun con =>
               set_buffer
                 (alter (fun cell => set_background (current_bg con)
                                       (set_foreground (current_fg con)
                                          (set_character " " cell)))
                    (Z.to_nat idx) (buffer con)) con) w
      | None => w
      end
    else w
  else if (32 <=? char_code c) && (char_code c <=? 126) then
    let w :=
      match get_cell (console w) (current_line (console w)) (current_col (console w)) with
      | Some idx =>
          upd_console
            (fun con =>
               set_buffer
                 (alter (fun cell => set_attributes 0
                                       (set_background (current_bg con)
                                          (set_foreground (current_fg con)
                                             (set_character c cell))))
                    (Z.to_nat idx) (buffer con)) con) w
      | None => w
      end in
    let w := upd_console (fun con => set_current_col (uint32 (current_col con + 1)) con) w in
    let w := upd_console (fun con => set_total_chars (uint32 (total_chars con + 1)) con) w in
    if console_cols (console w) <=? current_col (console w) then putchar_newline w else w
  else w.

Fixpoint console_puts (str : string) (w : world) : world :=
  match str with
  | EmptyString => w
  | String a rest =>
      if Ascii.eqb a Ascii.zero then w else console_puts rest (console_putchar a w)
  end.

Definition console_printf (fmt : string) (args : list fmt_arg) (w : world) : world :=
  console_puts (snprintf 1024 fmt args) w.

Definition console_set_color (fg bg : Z) (w : world) : world :=
  let w := upd_console (set_current_fg fg) w in
  upd_console (set_current_bg bg) w.

(** ** The console interface *)

Definition set_platform (p : platform_type_t) (i : platform_info_t) : platform_info_t :=
  {| platform := p; peripheral_base := peripheral_base i; mailbox_base := mailbox_base i;
     gpio_base := gpio_base i; uart_base := uart_base i; usb_base := usb_base i;
     name := name i; has_usb := has_usb i; has_ps2 := has_ps2 i |}.

(** The messages [universal_console_init] prints once the buffer exists. *)
Definition print_banner (w : world) : world :=
  let w := console_set_color COLOR_YELLOW COLOR_BLACK w in
  let w := console_puts "CORRECTED Universal Pi Console
" w in
  let w := console_puts "==============================

" w in
  let w := console_set_color COLOR_CYAN COLOR_BLACK w in
  let w := console_printf "Platform: %s
" [ArgString (name (current_platform w))] w in
  let w := console_printf "Peripheral Base: 0x%08X
" [ArgInt (peripheral_base (current_platform w))] w in
  let w := console_printf "Display: %dx%d (%d x %d chars)
" [ArgInt (width (console w)); ArgInt (height (console w));
   ArgInt (console_cols (console w)); ArgInt (console_rows (console w))] w in
  let w := console_set_color COLOR_WHITE COLOR_BLACK w in
  let w := console_puts "
Supported Models:
" w in
  let w := console_puts "- Pi 1 A/A+/B/B+ (BCM2835)
" w in
  let w := console_puts "- Pi Zero/Zero W (BCM2835)
" w in
  let w := console_puts "- Pi 2 (BCM2836)
" w in
  let w := console_puts "- Pi 3/3A+/3B+ (BCM2837/B0)
" w in
  let w := console_puts "- Pi Zero 2 W (RP3A0/BCM2837)
" w in
  let w := console_puts "- Pi 4/400 (BCM2711)
" w in
  let w := console_puts "- QEMU versatilepb
" w in
  let w := console_puts "
Input Support:
" w in
  let w :=
    if has_ps2 (current_platform w) then
      let w := console_puts "- PS/2 Keyboard and Mouse
" w in
      let w := console_puts "- Arrow keys, Page Up/Down, Home/End
" w in
      console_puts "- Right-click + drag to scroll
" w
    else w in
  let w :=
    if has_usb (current_platform w) then console_puts "- USB devices supported
" w
    else w in
  let w := console_puts "- UART console always available
" w in
  let w := console_set_color COLOR_GREEN COLOR_BLACK w in
  let w := console_puts "
Hardware-specific console ready!

" w in
  console_set_color COLOR_WHITE COLOR_BLACK w.

(** The first block of [universal_console_init] after detection: the geometry
    later passed to [setup_framebuffer]. *)
Definition initial_resolution (fw : firmware) (w : world) : Z * Z :=
  let '(status, (width0, height0)) := detect_display_resolution fw w in
  if negb (status =? 0) then
    match platform (current_platform w) with
    | PLATFORM_PI_BCM2711 => (1920, 1080)
    | PLATFORM_PI_BCM2837 | PLATFORM_PI_BCM2837B0 => (1680, 1050)
    | PLATFORM_PI_BCM2836 => (1280, 1024)
    | PLATFORM_QEMU_VERSATILE => (640, 480)
    | _ => (1024, 768)
    end
  else (width0, height0).

Definition universal_console_init (mem : Z -> Z) (fw : firmware) (w : world) : Z * world :=
  let '(p, w) := detect_platform mem w in
  let w := set_current_platform (set_platform p (current_platform w)) w in
  let '(width0, height0) := initial_resolution fw w in
  let '(status, w') := setup_framebuffer fw width0 height0 w in
  if negb (status =? 0) then (-1, w')
  else
    let w := init_ps2_devices w' in
    let '(status, w') := init_console_buffer w in
    if negb (status =? 0) then (-1, w')
    else
      let w := clear_screen COLOR_BLACK w' in
      (0, print_banner w).

Definition console_update (kbd mouse : pl050_regs) (w : world) : world :=
  let w := handle_keyboard_input kbd w in
  let w := handle_mouse_input mouse w in
  let w := upd_console
             (fun c => set_cursor_blink_counter (uint32 (cursor_blink_counter c + 1)) c) w in
  render_console w.

Definition console_clear (w : world) : world :=
  let buffer_size := uint32 (buffer_lines (console w) * console_cols (console w)) in
  let w := upd_console
             (fun c => set_buffer
                (for_loop (Z.to_nat buffer_size) 0
                   (fun i cells => <[Z.to_nat i := blank_cell COLOR_WHITE COLOR_BLACK]> cells)
                   (buffer c)) c) w in
  let w := upd_console (set_current_line 0) w in
  let w := upd_console (set_current_col 0) w in
  let w := upd_console (set_display_start 0) w in
  let w := upd_console (set_scroll_position 0) w in
  let w := upd_console (set_total_chars 0) w in
  render_console w.

(** The state of the program at its start: [current_platform] and [console]
    are zero-initialised, as are the statics of [handle_mouse_input]. *)
Definition boot_world : world :=
  {| current_platform :=
       {| platform := PLATFORM_UNKNOWN; peripheral_base := 0; mailbox_base := 0;
          gpio_base := 0; uart_base := 0; usb_base := 0; name := "";
          has_usb := false; has_ps2 := false |};
     console :=
       {| framebuffer := 0; width := 0; height := 0; pitch := 0;
          console_cols := 0; console_rows := 0; buffer := []; buffer_lines := 0;
          current_line := 0; current_col := 0; display_start := 0;
          current_fg := 0; current_bg := 0; cursor_visible := false;
          cursor_blink_counter := 0; mouse_x := 0; mouse_y := 0; mouse_buttons := 0;
          mouse_available := false; keyboard_available := false;
          total_chars := 0; scroll_position := 0 |};
     vram := ∅;
     mouse_packet := [0; 0; 0];
     packet_index := 0;
     trace := [] |}.

(** [main] up to its endless loop: the exit status of the early [return], or
    the state in which [while (1)] is entered. *)
Definition main (mem : Z -> Z) (fw : firmware) : Z + world :=
  let '(status, w) := universal_console_init mem fw boot_world in
  if negb (status =? 0) then inl (-1)
  else
    let w := console_set_color COLOR_LIGHT_GREEN COLOR_BLACK w in
    let w := console_puts "Hardware detection test successful!
" w in
    let w := console_printf "Detected platform: %s
" [ArgString (name (current_platform w))] w in
    let w := console_printf "Peripheral base: 0x%08X
" [ArgInt (peripheral_base (current_platform w))] w in
    let w :=
      for_loop 100 0
        (fun i w =>
           let w := console_printf
                      "Test line %03d: Platform-specific console working correctly.
" [ArgInt i] w in
           if i mod 25 =? 0 then
             let w := console_set_color COLOR_YELLOW COLOR_BLACK w in
             let w := console_printf "=== Milestone %d ===
" [ArgInt (i / 25)] w in
             console_set_color COLOR_LIGHT_GREEN COLOR_BLACK w
           else w)
        w in
    let w := console_set_color COLOR_WHITE COLOR_BLACK w in
    inr (console_puts "
Scrollback test complete!
" w).

(** ** Vocabulary of the properties *)

(** A run of [console_putchar] calls, first character first. *)
Definition putchars (cs : list ascii) (w : world) : world :=
  fold_left (fun w c => console_putchar c w) cs w.

Definition is_shift_scroll (e : event) : bool :=
  match e with EvShiftScroll => true | _ => false end.

(** How many times [scroll_buffer_up] has run. *)
Definition shift_scrolls (w : world) : nat :=
  length (List.filter is_shift_scroll (trace w)).

(** The window follows the cursor. *)
Definition auto_follow (c : universal_console_t) : Prop :=
  if console_rows c - 1 <=? current_line c
  then display_start c + console_rows c - 1 = current_line c
  else display_start c = 0.

(** [x] clamped to the interval from [lo] to [hi]. *)
Definition clamp (lo hi x : Z) : Z := Z.max lo (Z.min hi x).

(** The upper end of the manual scroll range. *)
Definition max_scroll (c : universal_console_t) : Z :=
  Z.max 0 (current_line c - console_rows c + 1).

(** Every cell of buffer line [line] is a blank on background [bg]. *)
Definition line_blank (c : universal_console_t) (line bg : Z) : Prop :=
  forall col, 0 <= col < console_cols c ->
    exists idx, get_cell c line col = Some idx
      /\ character (cell_at (buffer c) idx) = " "%char
      /\ background (cell_at (buffer c) idx) = bg.

(** [w'] differs from [w] in pixel memory at most. *)
Definition only_vram (w w' : world) : Prop :=
  console w' = console w
  /\ current_platform w' = current_platform w
  /\ trace w' = trace w
  /\ mouse_packet w' = mouse_packet w
  /\ packet_index w' = packet_index w.

(** What a run of [console_putchar] calls maintains about the cursor and the
    window. *)
Definition follow_inv (c : universal_console_t) : Prop :=
  1 <= buffer_lines c < 2 ^ 31
  /\ 0 <= current_line c < buffer_lines c
  /\ 1 <= console_rows c < 2 ^ 31
  /\ auto_follow c.

(** The emulator profile before any display setup. *)
Definition qemu_boot_world : world := set_current_platform qemu_profile boot_world.

(** The emulator with its fixed 640x480 display, before the console buffer is
    initialised. *)
Definition qemu_world : world :=
  snd (setup_framebuffer (fun request => request) 640 480 qemu_boot_world).

(** Two console states with the same cursor line and the same window. *)
Definition same_window (c c' : universal_console_t) : Prop :=
  current_line c' = current_line c
  /\ display_start c' = display_start c
  /\ scroll_position c' = scroll_position c
  /\ console_rows c' = console_rows c
  /\ buffer_lines c' = buffer_lines c.

(** [z] is the value of some [int]. *)
Definition fits_int (z : Z) : Prop := - 2 ^ 31 <= z < 2 ^ 31.

(** The cell grid lies inside the array behind [buffer]. *)
Definition grid_ok (c : universal_console_t) : Prop :=
  1 <= buffer_lines c < 2 ^ 31
  /\ 0 <= console_cols c
  /\ buffer_lines c * console_cols c <= Z.of_nat (length (buffer c))
  /\ buffer_lines c * console_cols c < 2 ^ 32.

(** The newline character. *)
Definition newline : ascii := "010".

(** A Raspberry Pi 2 on which the ARM timer word reads as zero: only the
    mailbox status register of the BCM2836/BCM2837 block answers. *)
Definition pi2_memory (address : Z) : Z :=
  if address =? BCM2836_PERIPHERAL_BASE + MAILBOX_OFFSET + 0x18 then 0x40000000 else 0.

(** A firmware that answers every request with the error code. *)
Definition failing_firmware : firmware :=
  fun request =>
    Req.Build_display_request_t
      (Req.size request) 0x80000001
      (Req.tag_get_physical request) (Req.tag_get_physical_size request)
      (Req.tag_get_physical_code request)
      (Req.physical_width request) (Req.physical_height request)
      (Req.tag_set_physical request) (Req.tag_set_physical_size request)
      (Req.tag_set_physical_code request) (Req.set_width request) (Req.set_height request)
      (Req.tag_set_virtual request) (Req.tag_set_virtual_size request)
      (Req.tag_set_virtual_code request)
      (Req.virtual_width request) (Req.virtual_height request)
      (Req.tag_set_depth request) (Req.tag_set_depth_size request)
      (Req.tag_set_depth_code request) (Req.depth request)
      (Req.tag_allocate request) (Req.tag_allocate_size request)
      (Req.tag_allocate_code request) (Req.fb_address request) (Req.fb_size request)
      (Req.tag_get_pitch request) (Req.tag_get_pitch_size request)
      (Req.tag_get_pitch_code request) (Req.pitch request)
      (Req.end_tag request).

(** The state [universal_console_init] is in after its first statement. *)
Definition detected (mem : Z -> Z) (w : world) : world :=
  let '(p, w) := detect_platform mem w in
  set_current_platform (set_platform p (current_platform w)) w.

(** ** Vocabulary of the further properties *)

(** A probed word counts as present when it is neither all zeros nor all
    ones. *)
Definition present (v : Z) : Prop := uint32 v <> 0xFFFFFFFF /\ uint32 v <> 0.

(** The cell [get_cell] points at, read through the pointer. *)
Definition read_cell (c : universal_console_t) (line col : Z) : option console_cell_t :=
  match get_cell c line col with
  | Some idx => Some (cell_at (buffer c) idx)
  | None => None
  end.

(** The write cursor lies on a cell of the grid. *)
Definition cursor_in_grid (c : universal_console_t) : Prop :=
  0 <= current_line c < buffer_lines c /\ 0 <= current_col c < console_cols c.

(** The characters [console_putchar] stores. *)
Definition is_printable (c : ascii) : bool :=
  (32 <=? char_code c) && (char_code c <=? 126).

Definition printable_count (cs : list ascii) : Z :=
  Z.of_nat (length (List.filter is_printable cs)).

(** The pointer is on the screen and the packet decoder is between bytes. *)
Definition pointer_inv (w : world) : Prop :=
  0 <= mouse_x (console w) < width (console w)
  /\ 0 <= mouse_y (console w) < height (console w)
  /\ 0 <= packet_index w < 3
  /\ length (mouse_packet w) = 3%nat.

(** A run of [handle_mouse_input] calls, one per register snapshot. *)
Definition mouse_inputs (snapshots : list pl050_regs) (w : world) : world :=
  fold_left (fun w regs => handle_mouse_input regs w) snapshots w.

(** The cell a printable character [ch] leaves under the cursor. *)
Definition written_cell (ch : ascii) (c : universal_console_t) : console_cell_t :=
  {| character := ch; foreground := current_fg c; background := current_bg c;
     attributes := 0 |}.

(** Two console states that differ in the cells and the cursor column at
    most. *)
Definition same_layout (c c' : universal_console_t) : Prop :=
  console_cols c' = console_cols c
  /\ console_rows c' = console_rows c
  /\ buffer_lines c' = buffer_lines c
  /\ current_line c' = current_line c
  /\ display_start c' = display_start c
  /\ scroll_position c' = scroll_position c
  /\ current_fg c' = current_fg c
  /\ current_bg c' = current_bg c
  /\ length (buffer c') = length (buffer c).


(** Two console states with the same text: cells, cursor, colours, character
    count and geometry.  The window, the pointer and the blink counter may
    differ. *)
Definition same_text (c c' : universal_console_t) : Prop :=
  buffer c' = buffer c
  /\ current_line c' = current_line c
  /\ current_col c' = current_col c
  /\ current_fg c' = current_fg c
  /\ current_bg c' = current_bg c
  /\ total_chars c' = total_chars c
  /\ buffer_lines c' = buffer_lines c
  /\ console_cols c' = console_cols c
  /\ console_rows c' = console_rows c
  /\ framebuffer c' = framebuffer c
  /\ width c' = width c
  /\ height c' = height c
  /\ pitch c' = pitch c.

(** A run of [console_update] calls, one per pair of register snapshots. *)
Definition console_updates (snapshots : list (pl050_regs * pl050_regs)) (w : world) : world :=
  fold_left (fun w regs => console_update (fst regs) (snd regs) w) snapshots w.

(** What every operation keeps true of the window: the first displayed line
    lies in the manual scroll range and the scroll position does not pass the
    cursor. *)
Definition window_inv (c : universal_console_t) : Prop :=
  1 <= buffer_lines c < 2 ^ 30
  /\ 0 <= current_line c < buffer_lines c
  /\ 1 <= console_rows c < 2 ^ 30
  /\ 0 <= display_start c <= max_scroll c
  /\ 0 <= scroll_position c <= current_line c.

(** What happens to a running console: a character is written, the console is
    cleared, or the main loop polls the keyboard and the mouse. *)
Inductive session_step : Type :=
  | StepPutchar (c : ascii)
  | StepClear
  | StepUpdate (kbd mouse : pl050_regs).

Definition session_do (w : world) (s : session_step) : world :=
  match s with
  | StepPutchar c => console_putchar c w
  | StepClear => console_clear w
  | StepUpdate kbd mouse => console_update kbd mouse w
  end.

Definition session (steps : list session_step) (w : world) : world :=
  fold_left session_do steps w.

(** Pixel memory [v'] is [v] with some words overwritten by [color]. *)
Definition painted (color : Z) (v v' : gmap Z Z) : Prop :=
  forall a, v' !! a = Some color \/ v' !! a = v !! a.

(** The grid fits the cell array and the cursor is on it. *)
Definition text_inv (c : universal_console_t) : Prop :=
  grid_ok c /\ cursor_in_grid c /\ console_cols c < 2 ^ 31.

(** The framebuffer negotiation of [universal_console_init], as [main] runs
    it on the zeroed state: its status and the state it leaves. *)
Definition negotiated (mem : Z -> Z) (fw : firmware) : Z * world :=
  let w := detected mem boot_world in
  let geometry := initial_resolution fw w in
  setup_framebuffer fw (fst geometry) (snd geometry) w.

(** Between two operations the window is in step with the scroll position,
    or the End key has left the scroll position above the scroll range with
    the window at the end of that range. *)
Definition scroll_ready (c : universal_console_t) : Prop :=
  display_start c = scroll_position c
  \/ (display_start c = max_scroll c /\ max_scroll c < scroll_position c).
(** ** Machine integers: small values are their own representatives *)

Lemma uint32_small z : 0 <= z < 2 ^ 32 -> uint32 z = z.
Proof. intros H. unfold uint32. now apply Z.mod_small. Qed.

Lemma uint32_range z : 0 <= uint32 z < 2 ^ 32.
Proof. unfold uint32. apply Z.mod_pos_bound. lia. Qed.

Lemma to_int_small z : - 2 ^ 31 <= z < 2 ^ 31 -> to_int z = z.
Proof.
  intros H. unfold to_int. cbv zeta.
  destruct (Z.leb_spec 0 z) as [Hz | Hz].
  - rewrite Z.mod_small by lia.
    destruct (Z.ltb_spec z (2 ^ 31)); lia.
  - assert (Hm : z mod 2 ^ 32 = z + 2 ^ 32).
    { symmetry. apply (Z.mod_unique z (2 ^ 32) (-1)); lia. }
    rewrite Hm.
    destruct (Z.ltb_spec (z + 2 ^ 32) (2 ^ 31)); lia.
Qed.

Lemma to_int8_small z : 0 <= z < 128 -> to_int8 z = z.
Proof.
  intros H. unfold to_int8. cbv zeta. rewrite Z.mod_small by lia.
  destruct (Z.ltb_spec z 128); lia.
Qed.

Lemma to_int8_high z : 128 <= z < 256 -> to_int8 z = z - 256.
Proof.
  intros H. unfold to_int8. cbv zeta. rewrite Z.mod_small by lia.
  destruct (Z.ltb_spec z 128); lia.
Qed.

(** ** Loops *)

Lemma for_loop_invariant {S : Type} (P : Z -> S -> Prop) (body : Z -> S -> S) :
  forall n i s,
    P i s ->
    (forall j t, i <= j < i + Z.of_nat n -> P j t -> P (j + 1) (body j t)) ->
    P (i + Z.of_nat n) (for_loop n i body s).
Proof.
  induction n as [| n IH]; intros i s Hs Hstep.
  - cbn. now rewrite Z.add_0_r.
  - cbn [for_loop].
    replace (i + Z.of_nat (Datatypes.S n)) with (i + 1 + Z.of_nat n) by lia.
    apply IH.
    + apply Hstep; [lia | exact Hs].
    + intros j t Hj. apply Hstep. lia.
Qed.

Lemma for_loop_preserves {S : Type} (P : S -> Prop) (body : Z -> S -> S) n i s :
  P s -> (forall j t, P t -> P (body j t)) -> P (for_loop n i body s).
Proof.
  intros Hs Hstep.
  apply (for_loop_invariant (fun _ => P)); auto.
Qed.

(** ** The renderer writes pixels and nothing else *)

Lemma only_vram_refl w : only_vram w w.
Proof. repeat split. Qed.

Lemma only_vram_trans w1 w2 w3 : only_vram w1 w2 -> only_vram w2 w3 -> only_vram w1 w3.
Proof.
  unfold only_vram. intros (A1 & A2 & A3 & A4 & A5) (B1 & B2 & B3 & B4 & B5).
  repeat split; congruence.
Qed.

Lemma only_vram_set_vram w v : only_vram w (set_vram v w).
Proof. repeat split. Qed.

Lemma only_vram_loop (body : Z -> world -> world) n i w :
  (forall j t, only_vram t (body j t)) -> only_vram w (for_loop n i body w).
Proof.
  intros Hbody.
  apply (for_loop_preserves (only_vram w)); [apply only_vram_refl |].
  intros j t Ht. eapply only_vram_trans; [exact Ht | apply Hbody].
Qed.

Lemma draw_char_at_only_vram x y c fg bg w : only_vram w (draw_char_at x y c fg bg w).
Proof.
  unfold draw_char_at.
  destruct (_ || _); [apply only_vram_refl |].
  apply only_vram_loop. intros row t.
  apply only_vram_loop. intros col u. apply only_vram_set_vram.
Qed.

Lemma fill_rows_only_vram y0 y1 color w : only_vram w (fill_rows y0 y1 color w).
Proof.
  unfold fill_rows.
  apply only_vram_loop. intros y t.
  apply only_vram_loop. intros x u. apply only_vram_set_vram.
Qed.

Lemma clear_screen_only_vram color w : only_vram w (clear_screen color w).
Proof.
  unfold clear_screen.
  destruct (_ =? _); [apply only_vram_refl | apply fill_rows_only_vram].
Qed.

Lemma draw_status_text_only_vram status :
  forall i limit status_y w, only_vram w (draw_status_text status i limit status_y w).
Proof.
  induction status as [| a rest IH]; intros i limit status_y w; cbn [draw_status_text].
  - apply only_vram_refl.
  - destruct (Ascii.eqb a Ascii.zero); [apply only_vram_refl |].
    destruct (i <? limit); [| apply only_vram_refl].
    eapply only_vram_trans; [apply draw_char_at_only_vram | apply IH].
Qed.

Lemma draw_status_bar_only_vram w : only_vram w (draw_status_bar w).
Proof.
  unfold draw_status_bar.
  eapply only_vram_trans; [apply fill_rows_only_vram | apply draw_status_text_only_vram].
Qed.

Lemma render_cell_only_vram buffer_line screen_row col w :
  only_vram w (render_cell buffer_line screen_row col w).
Proof.
  unfold render_cell.
  destruct (get_cell _ _ _); [| apply only_vram_refl].
  destruct (_ && _); apply draw_char_at_only_vram.
Qed.

Lemma render_rows_only_vram n :
  forall screen_row w, only_vram w (render_rows n screen_row w).
Proof.
  induction n as [| n IH]; intros screen_row w; cbn [render_rows].
  - apply only_vram_refl.
  - destruct (_ <=? _); [apply only_vram_refl |].
    eapply only_vram_trans; [| apply IH].
    apply only_vram_loop. intros col t. apply render_cell_only_vram.
Qed.

Lemma render_console_only_vram w : only_vram w (render_console w).
Proof.
  unfold render_console.
  destruct (_ =? _); [apply only_vram_refl |].
  eapply only_vram_trans; [apply fill_rows_only_vram |].
  eapply only_vram_trans; [apply render_rows_only_vram | apply draw_status_bar_only_vram].
Qed.

Lemma console_render_console w : console (render_console w) = console w.
Proof. apply render_console_only_vram. Qed.

Lemma trace_render_console w : trace (render_console w) = trace w.
Proof. apply render_console_only_vram. Qed.

(** With no frame buffer configured the renderer returns at once. *)
Lemma render_console_null w : framebuffer (console w) = 0 -> render_console w = w.
Proof. intros H. unfold render_console. now rewrite H. Qed.

(** ** The newline step *)

Lemma scroll_buffer_up_console w :
  console (scroll_buffer_up w)
  = set_buffer (buffer (console (scroll_buffer_up w))) (console w).
Proof. reflexivity. Qed.

Lemma scroll_buffer_up_trace w : trace (scroll_buffer_up w) = EvShiftScroll :: trace w.
Proof. reflexivity. Qed.

Lemma putchar_newline_effect w :
  let c := console w in
  let c' := console (putchar_newline w) in
  let line1 := uint32 (current_line c + 1) in
  let line2 := if buffer_lines c <=? line1 then uint32 (buffer_lines c - 1) else line1 in
  current_line c' = line2
  /\ current_col c' = 0
  /\ (if uint32 (display_start c + console_rows c) <=? line2
      then display_start c' = uint32 (uint32 (line2 - console_rows c) + 1)
           /\ scroll_position c' = display_start c'
      else display_start c' = display_start c
           /\ scroll_position c' = scroll_position c)
  /\ console_rows c' = console_rows c
  /\ console_cols c' = console_cols c
  /\ buffer_lines c' = buffer_lines c
  /\ current_fg c' = current_fg c
  /\ current_bg c' = current_bg c.
Proof.
  cbv zeta. unfold putchar_newline.
  set (w1 := upd_console _ (upd_console (set_current_col 0) w)).
  change (uint32 (current_line (console w) + 1)) with (current_line (console w1)).
  change (buffer_lines (console w)) with (buffer_lines (console w1)).
  set (w2 := if buffer_lines (console w1) <=? current_line (console w1) then _ else w1).
  assert (H2 : current_line (console w2)
               = (if buffer_lines (console w1) <=? current_line (console w1)
                  then uint32 (buffer_lines (console w1) - 1)
                  else current_line (console w1))
               /\ current_col (console w2) = 0
               /\ display_start (console w2) = display_start (console w)
               /\ scroll_position (console w2) = scroll_position (console w)
               /\ console_rows (console w2) = console_rows (console w)
               /\ console_cols (console w2) = console_cols (console w)
               /\ buffer_lines (console w2) = buffer_lines (console w1)
               /\ current_fg (console w2) = current_fg (console w)
               /\ current_bg (console w2) = current_bg (console w)).
  { subst w2. destruct (buffer_lines (console w1) <=? current_line (console w1));
      repeat split; reflexivity. }
  destruct H2 as (L & C & D & P & R & K & B & F & G).
  clearbody w2. rewrite <- L. clear L.
  rewrite <- D, <- R.
  destruct (uint32 (display_start (console w2) + console_rows (console w2))
            <=? current_line (console w2)).
  - cbn. rewrite R. repeat split; assumption.
  - repeat split; assumption.
Qed.

Lemma putchar_newline_follow w :
  follow_inv (console w) -> follow_inv (console (putchar_newline w)).
Proof.
  intros (Hb & Hl & Hr & Hf).
  destruct (putchar_newline_effect w) as (L & _ & D & R & _ & B & _).
  cbv zeta in L, D.
  unfold follow_inv, auto_follow in *.
  rewrite R, B.
  rewrite (uint32_small (current_line (console w) + 1)) in L, D by lia.
  rewrite (uint32_small (buffer_lines (console w) - 1)) in L, D by lia.
  assert (Hds : 0 <= display_start (console w) <= current_line (console w)).
  { destruct (Z.leb_spec (console_rows (console w) - 1) (current_line (console w))); lia. }
  rewrite (uint32_small (display_start (console w) + console_rows (console w))) in D by lia.
  destruct (Z.leb_spec (buffer_lines (console w)) (current_line (console w) + 1)) as [Hfull | Hfull];
    rewrite L; clear L;
    match type of D with
    | if ?a <=? ?b then _ else _ => destruct (Z.leb_spec a b) as [Hgo | Hgo]
    end;
    destruct D as [D _]; rewrite D; clear D;
    try (rewrite (uint32_small (_ - console_rows (console w))) by lia;
         rewrite (uint32_small (_ + 1)) by lia);
    repeat split; try lia;
    match goal with
    | |- if ?a <=? ?b then _ else _ => destruct (Z.leb_spec a b)
    end;
    destruct (Z.leb_spec (console_rows (console w) - 1) (current_line (console w))); lia.
Qed.

Lemma putchar_newline_sync w :
  display_start (console w) = scroll_position (console w) ->
  display_start (console (putchar_newline w)) = scroll_position (console (putchar_newline w)).
Proof.
  intros H.
  destruct (putchar_newline_effect w) as (_ & _ & D & _).
  cbv zeta in D.
  destruct (_ <=? _) in D; destruct D as [D1 D2]; congruence.
Qed.

Lemma same_window_refl c : same_window c c.
Proof. repeat split. Qed.

Lemma same_window_follow c c' : same_window c c' -> follow_inv c -> follow_inv c'.
Proof.
  unfold same_window, follow_inv, auto_follow.
  intros (L & D & P & R & B). rewrite L, D, R, B. tauto.
Qed.

(** ** The shape of a [console_putchar] step: each case either leaves the
    cursor line and the window alone or ends in the newline step. *)

Lemma console_putchar_shape c w :
  exists w1, same_window (console w) (console w1)
    /\ (console_putchar c w = w1 \/ console_putchar c w = putchar_newline w1).
Proof.
  unfold console_putchar.
  destruct (Ascii.eqb c "010").
  { exists w. split; [apply same_window_refl | now right]. }
  destruct (Ascii.eqb c "013").
  { eexists. split; [| left; reflexivity]. repeat split. }
  destruct (Ascii.eqb c "009").
  { match goal with
    | |- context [if _ <=? _ then putchar_newline ?w1 else _] => exists w1
    end.
    split; [repeat split |].
    destruct (_ <=? _); [now right | now left]. }
  destruct (Ascii.eqb c "008").
  { destruct (0 <? _).
    - destruct (get_cell _ _ _);
        (eexists; split; [| left; reflexivity]); repeat split.
    - exists w. split; [apply same_window_refl | now left]. }
  destruct (_ && _).
  - match goal with
    | |- context [if _ <=? _ then putchar_newline ?w1 else _] => exists w1
    end.
    split.
    + destruct (get_cell _ _ _); repeat split.
    + destruct (_ <=? _); [now right | now left].
  - exists w. split; [apply same_window_refl | now left].
Qed.

Lemma console_putchar_follow c w :
  follow_inv (console w) -> follow_inv (console (console_putchar c w)).
Proof.
  intros H.
  destruct (console_putchar_shape c w) as (w1 & Hw & [-> | ->]).
  - now apply (same_window_follow (console w)).
  - apply putchar_newline_follow. now apply (same_window_follow (console w)).
Qed.

Lemma console_putchar_sync c w :
  display_start (console w) = scroll_position (console w) ->
  display_start (console (console_putchar c w))
  = scroll_position (console (console_putchar c w)).
Proof.
  intros H.
  destruct (console_putchar_shape c w) as (w1 & (L & D & P & R & B) & [-> | ->]).
  - congruence.
  - apply putchar_newline_sync. congruence.
Qed.

Lemma putchars_follow cs :
  forall w, follow_inv (console w) -> follow_inv (console (putchars cs w)).
Proof.
  induction cs as [| c cs IH]; intros w H; cbn.
  - exact H.
  - apply IH. now apply console_putchar_follow.
Qed.

Lemma init_console_buffer_console w :
  let c := console (snd (init_console_buffer w)) in
  buffer_lines c = MAX_BUFFER_LINES
  /\ current_line c = 0
  /\ current_col c = 0
  /\ display_start c = 0
  /\ scroll_position c = 0
  /\ current_fg c = COLOR_WHITE
  /\ current_bg c = COLOR_BLACK
  /\ console_rows c = console_rows (console w)
  /\ console_cols c = console_cols (console w).
Proof. cbv zeta. repeat split. Qed.

Lemma init_console_buffer_follow w :
  1 <= console_rows (console w) < 2 ^ 31 ->
  follow_inv (console (snd (init_console_buffer w))).
Proof.
  intros Hr.
  destruct (init_console_buffer_console w) as (B & L & _ & D & _ & _ & _ & R & _).
  cbv zeta in *. unfold follow_inv, auto_follow.
  rewrite B, L, D, R. unfold MAX_BUFFER_LINES.
  repeat split; try lia.
  destruct (Z.leb_spec (console_rows (console w) - 1) 0); lia.
Qed.

(** ** Auto-follow *)

(** C6: after any run of [console_putchar] calls (printable characters, tabs,
    backspaces, newlines or any other byte) on a freshly initialised console
    buffer, with no manual scroll in between, the window follows the cursor:
    [display_start + console_rows - 1 = current_line] whenever
    [current_line >= console_rows - 1], and [display_start = 0] otherwise.
    The console has at least one row, as every successful
    [setup_framebuffer] of the program guarantees. *)
Theorem auto_follow_after_putchars (w0 : world) (cs : list ascii) :
  1 <= console_rows (console w0) < 2 ^ 31 ->
  let c := console (putchars cs (snd (init_console_buffer w0))) in
  (console_rows c - 1 <= current_line c ->
     display_start c + console_rows c - 1 = current_line c)
  /\ (current_line c < console_rows c - 1 -> display_start c = 0).
Proof.
  intros Hr c.
  assert (H : follow_inv c).
  { apply putchars_follow. now apply init_console_buffer_follow. }
  destruct H as (_ & _ & _ & H). unfold auto_follow in H.
  destruct (Z.leb_spec (console_rows c - 1) (current_line c)); split; intros; lia.
Qed.

Lemma auto_follow_after_putchars_witness :
  1 <= console_rows (console qemu_world) < 2 ^ 31
  /\ let c := console (putchars ["a"%char; "010"%char; "009"%char; "008"%char]
                         (snd (init_console_buffer qemu_world))) in
     (console_rows c - 1 <= current_line c ->
        display_start c + console_rows c - 1 = current_line c)
     /\ (current_line c < console_rows c - 1 -> display_start c = 0).
Proof.
  assert (Hr : 1 <= console_rows (console qemu_world) < 2 ^ 31).
  { change (console_rows (console qemu_world)) with 29. lia. }
  split; [exact Hr |].
  exact (auto_follow_after_putchars qemu_world _ Hr).
Defined.

(** ** Characters without a case of their own *)

(** C9: [console_putchar] is defined on every one of the 256 byte values.  The
    carriage return sets [current_col] to 0 and leaves [current_line], the cell
    grid, [display_start], [scroll_position] and the colours as they were; a
    byte outside 32..126 that is none of newline, tab, backspace and carriage
    return leaves the whole state as it was. *)
Theorem console_putchar_frame (w : world) :
  (forall b, 0 <= b < 256 -> exists c w', char_code c = b /\ console_putchar c w = w')
  /\ (let w' := console_putchar "013" w in
      current_col (console w') = 0
      /\ current_line (console w') = current_line (console w)
      /\ buffer (console w') = buffer (console w)
      /\ display_start (console w') = display_start (console w)
      /\ scroll_position (console w') = scroll_position (console w)
      /\ current_fg (console w') = current_fg (console w)
      /\ current_bg (console w') = current_bg (console w))
  /\ (forall c,
        ~ (32 <= char_code c <= 126) ->
        c <> "010"%char -> c <> "009"%char -> c <> "008"%char -> c <> "013"%char ->
        console_putchar c w = w).
Proof.
  split; [| split].
  - intros b Hb. exists (ascii_of_N (Z.to_N b)). eexists. split; [| reflexivity].
    unfold char_code. rewrite N_ascii_embedding by lia. lia.
  - cbv zeta. repeat split.
  - intros c Hrange Hnl Htab Hbs Hcr. unfold console_putchar.
    apply Ascii.eqb_neq in Hnl, Htab, Hbs, Hcr.
    rewrite Hnl, Hcr, Htab, Hbs.
    destruct (Z.leb_spec 32 (char_code c)); destruct (Z.leb_spec (char_code c) 126);
      cbn [andb]; try reflexivity; lia.
Qed.

Lemma console_putchar_frame_witness :
  console_putchar "127" qemu_world = qemu_world
  /\ console_putchar "000" qemu_world = qemu_world.
Proof.
  destruct (console_putchar_frame qemu_world) as (_ & _ & H).
  split; apply H; try discriminate; unfold char_code; cbn; lia.
Defined.

(** ** Manual scrolling *)

Lemma handle_scroll_trace delta w : trace (handle_scroll delta w) = EvScrollCmd delta :: trace w.
Proof.
  unfold handle_scroll. cbv zeta.
  destruct (negb _); [| reflexivity].
  now rewrite trace_render_console.
Qed.

(** The two outcomes of [handle_scroll], with [new_scroll] the clamped value
    the function computes. *)
Lemma handle_scroll_console delta w :
  let c := console w in
  let c' := console (handle_scroll delta w) in
  let new0 := to_int (to_int (scroll_position c) + delta) in
  let new1 := if new0 <? 0 then 0 else new0 in
  let max0 := to_int (to_int (to_int (current_line c) - to_int (console_rows c)) + 1) in
  let max1 := if max0 <? 0 then 0 else max0 in
  let new_scroll := if max1 <? new1 then max1 else new1 in
  if new_scroll =? to_int (scroll_position c)
  then c' = c
  else c' = set_display_start (uint32 new_scroll) (set_scroll_position (uint32 new_scroll) c).
Proof.
  cbv zeta. unfold handle_scroll. cbv zeta.
  cbn [log console set_trace].
  destruct (_ =? to_int (scroll_position (console w))); cbn [negb].
  - reflexivity.
  - now rewrite console_render_console.
Qed.

Lemma handle_scroll_sync delta w :
  display_start (console w) = scroll_position (console w) ->
  display_start (console (handle_scroll delta w))
  = scroll_position (console (handle_scroll delta w)).
Proof.
  intros H. pose proof (handle_scroll_console delta w) as E. cbv zeta in E.
  destruct (_ =? _) in E; rewrite E; [exact H | reflexivity].
Qed.

Lemma handle_scroll_position delta w :
  let c := console w in
  let c' := console (handle_scroll delta w) in
  0 <= scroll_position c -> 0 <= current_line c -> 0 <= console_rows c ->
  fits_int (scroll_position c) -> fits_int (current_line c) -> fits_int (console_rows c) ->
  fits_int delta -> fits_int (scroll_position c + delta) ->
  fits_int (current_line c - console_rows c + 1) ->
  scroll_position c' = clamp 0 (max_scroll c) (scroll_position c + delta)
  /\ (scroll_position c' <> scroll_position c -> display_start c' = scroll_position c')
  /\ (scroll_position c' = scroll_position c -> display_start c' = display_start c).
Proof.
  cbv zeta. unfold fits_int, clamp, max_scroll.
  intros Hp Hl Hr Fp Fl Fr Fd Fs Fm.
  pose proof (handle_scroll_console delta w) as E. cbv zeta in E.
  rewrite (to_int_small (scroll_position (console w))) in E by lia.
  rewrite (to_int_small (current_line (console w))) in E by lia.
  rewrite (to_int_small (console_rows (console w))) in E by lia.
  rewrite (to_int_small (scroll_position (console w) + delta)) in E by lia.
  rewrite (to_int_small (current_line (console w) - console_rows (console w))) in E by lia.
  rewrite (to_int_small (current_line (console w) - console_rows (console w) + 1)) in E by lia.
  set (new0 := scroll_position (console w) + delta) in *.
  set (max0 := current_line (console w) - console_rows (console w) + 1) in *.
  destruct (Z.ltb_spec new0 0) as [Hn | Hn];
    destruct (Z.ltb_spec max0 0) as [Hm | Hm];
    match type of E with
    | if (if ?a <? ?b then _ else _) =? _ then _ else _ =>
        destruct (Z.ltb_spec a b) as [Hc | Hc]
    end;
    match type of E with
    | if ?a =? ?b then _ else _ => destruct (Z.eqb_spec a b) as [He | He]
    end;
    rewrite E; cbn [scroll_position display_start set_display_start set_scroll_position];
    try rewrite uint32_small by lia;
    repeat split; intros; try reflexivity; lia.
Qed.

(** ** The shift-scroll *)

Lemma for_loop_insert_length {A : Type} (idx : Z -> nat) (val : Z -> list A -> A) n i
      (cells : list A) :
  length (for_loop n i (fun j cells => <[idx j := val j cells]> cells) cells) = length cells.
Proof.
  apply (for_loop_preserves (fun t => length t = length cells)); [reflexivity |].
  intros j t Ht. now rewrite length_insert.
Qed.

Lemma scroll_buffer_up_length w :
  length (buffer (console (scroll_buffer_up w))) = length (buffer (console w)).
Proof.
  unfold scroll_buffer_up.
  cbn [upd_console console set_console set_buffer buffer log set_trace].
  rewrite for_loop_insert_length.
  apply (for_loop_preserves (fun t => length t = length (buffer (console w))));
    [reflexivity |].
  intros line t Ht. now rewrite for_loop_insert_length.
Qed.

(** A loop that stores [x] at [base], [base + 1], ... leaves [x] there. *)
Lemma for_loop_fill {A : Type} (x : A) (base : Z) n (cells : list A) :
  0 <= base -> base + Z.of_nat n <= Z.of_nat (length cells) ->
  base + Z.of_nat n < 2 ^ 32 ->
  forall col, 0 <= col < Z.of_nat n ->
    for_loop n 0 (fun col cells => <[Z.to_nat (uint32 (base + col)) := x]> cells) cells
      !! Z.to_nat (base + col) = Some x.
Proof.
  intros Hb Hlen Hw.
  pose (P := fun (j : Z) (t : list A) =>
               length t = length cells
               /\ forall col, 0 <= col < j -> t !! Z.to_nat (base + col) = Some x).
  assert (H : P (0 + Z.of_nat n)
                (for_loop n 0
                   (fun col cells => <[Z.to_nat (uint32 (base + col)) := x]> cells) cells)).
  { apply for_loop_invariant.
    - split; [reflexivity | intros col Hc; lia].
    - intros j t Hj [Hl Ht]. split; [now rewrite length_insert |].
      intros col Hc. rewrite uint32_small by lia.
      destruct (Z.eq_dec col j) as [-> | Hne].
      + apply list_lookup_insert_eq. lia.
      + rewrite list_lookup_insert_ne by lia. apply Ht. lia. }
  destruct H as [_ H]. intros col Hc. apply H. lia.
Qed.

Lemma scroll_buffer_up_last_line w :
  grid_ok (console w) ->
  line_blank (console (scroll_buffer_up w)) (buffer_lines (console w) - 1)
    (current_bg (console w)).
Proof.
  intros (Hb & Hc & Hlen & Hw) col Hcol.
  rewrite scroll_buffer_up_console in Hcol. cbn in Hcol.
  set (bl := buffer_lines (console w)) in *.
  set (cols := console_cols (console w)) in *.
  assert (Hmul : bl * cols = (bl - 1) * cols + cols) by ring.
  assert (Hpos : 0 <= (bl - 1) * cols) by (apply Z.mul_nonneg_nonneg; lia).
  exists ((bl - 1) * cols + col).
  split; [| cut (cell_at (buffer (console (scroll_buffer_up w))) ((bl - 1) * cols + col)
                 = blank_cell (current_fg (console w)) (current_bg (console w)));
             [intros ->; split; reflexivity |]].
  - unfold get_cell. rewrite scroll_buffer_up_console. cbn.
    fold bl cols.
    destruct (Z.leb_spec cols col); [lia |].
    destruct (Z.leb_spec bl (bl - 1)); [lia |].
    cbn. now rewrite uint32_small by lia.
  - unfold cell_at, scroll_buffer_up.
    cbn [upd_console console set_console set_buffer buffer log set_trace
         current_fg current_bg buffer_lines console_cols].
    fold bl cols.
    rewrite (uint32_small (bl - 1)) by lia.
    rewrite (uint32_small ((bl - 1) * cols)) by lia.
    rewrite for_loop_fill; [reflexivity | lia | | | ].
    + rewrite Z2Nat.id by lia.
      match goal with
      | |- _ <= Z.of_nat (length ?t) =>
          assert (Hl : length t = length (buffer (console w)))
      end.
      { apply (for_loop_preserves (fun t => length t = length (buffer (console w))));
          [reflexivity |].
        intros line t Ht. now rewrite for_loop_insert_length. }
      rewrite Hl. lia.
    + rewrite Z2Nat.id by lia. lia.
    + rewrite Z2Nat.id by lia. lia.
Qed.

Lemma line_blank_ext c c' line bg :
  console_cols c' = console_cols c -> buffer_lines c' = buffer_lines c ->
  buffer c' = buffer c -> line_blank c line bg -> line_blank c' line bg.
Proof.
  unfold line_blank, get_cell. intros -> -> ->. auto.
Qed.

Lemma grid_ok_ext c c' :
  console_cols c' = console_cols c -> buffer_lines c' = buffer_lines c ->
  length (buffer c') = length (buffer c) -> grid_ok c -> grid_ok c'.
Proof.
  unfold grid_ok. intros -> -> ->. auto.
Qed.

(** [putchar_newline] up to its auto-follow step, which touches neither the
    cells nor the record of calls. *)
Lemma putchar_newline_unfold w :
  let w1 := upd_console (fun c => set_current_line (uint32 (current_line c + 1)) c)
              (upd_console (set_current_col 0) w) in
  let w2 := if buffer_lines (console w) <=? uint32 (current_line (console w) + 1)
            then upd_console (fun c => set_current_line (uint32 (buffer_lines c - 1)) c)
                   (scroll_buffer_up w1)
            else w1 in
  buffer (console (putchar_newline w)) = buffer (console w2)
  /\ trace (putchar_newline w) = trace w2.
Proof.
  cbv zeta. unfold putchar_newline.
  set (w1 := upd_console _ (upd_console (set_current_col 0) w)).
  change (uint32 (current_line (console w) + 1)) with (current_line (console w1)).
  change (buffer_lines (console w)) with (buffer_lines (console w1)).
  set (w2 := if buffer_lines (console w1) <=? current_line (console w1) then _ else w1).
  clearbody w2.
  destruct (_ <=? current_line (console w2)); split; reflexivity.
Qed.

Lemma putchar_newline_quiet w :
  (buffer_lines (console w) <=? uint32 (current_line (console w) + 1)) = false ->
  buffer (console (putchar_newline w)) = buffer (console w)
  /\ trace (putchar_newline w) = trace w.
Proof.
  intros H. destruct (putchar_newline_unfold w) as [B T]. cbv zeta in B, T.
  rewrite H in B, T. now rewrite B, T.
Qed.

Lemma putchar_newline_scrolls w :
  (buffer_lines (console w) <=? uint32 (current_line (console w) + 1)) = true ->
  grid_ok (console w) ->
  trace (putchar_newline w) = EvShiftScroll :: trace w
  /\ length (buffer (console (putchar_newline w))) = length (buffer (console w))
  /\ line_blank (console (putchar_newline w)) (buffer_lines (console w) - 1)
       (current_bg (console w)).
Proof.
  intros H Hgrid. destruct (putchar_newline_unfold w) as [B T]. cbv zeta in B, T.
  rewrite H in B, T.
  destruct (putchar_newline_effect w) as (_ & _ & _ & _ & K & L & _).
  set (w1 := upd_console (fun c => set_current_line (uint32 (current_line c + 1)) c)
               (upd_console (set_current_col 0) w)) in *.
  split; [exact T | split].
  - rewrite B. apply (scroll_buffer_up_length w1).
  - apply (line_blank_ext (console (scroll_buffer_up w1))); try assumption.
    apply (scroll_buffer_up_last_line w1).
    now apply (grid_ok_ext (console w)).
Qed.

(** ** Runs of newlines *)

Lemma putchars_app cs1 cs2 w : putchars (cs1 ++ cs2) w = putchars cs2 (putchars cs1 w).
Proof. unfold putchars. apply fold_left_app. Qed.

Lemma putchars_newline_cons n w :
  putchars (replicate (Datatypes.S n) newline) w
  = putchars (replicate n newline) (putchar_newline w).
Proof. reflexivity. Qed.

(** While lines remain below the cursor, a newline moves it down and does
    nothing else to the cells or the record of calls. *)
Lemma newlines_quiet n :
  forall w,
    0 <= current_line (console w) ->
    current_line (console w) + Z.of_nat n < buffer_lines (console w) ->
    buffer_lines (console w) < 2 ^ 31 ->
    let w' := putchars (replicate n newline) w in
    current_line (console w') = current_line (console w) + Z.of_nat n
    /\ trace w' = trace w
    /\ buffer (console w') = buffer (console w)
    /\ buffer_lines (console w') = buffer_lines (console w)
    /\ console_cols (console w') = console_cols (console w)
    /\ current_fg (console w') = current_fg (console w)
    /\ current_bg (console w') = current_bg (console w).
Proof.
  induction n as [| n IH]; intros w Hl Hn Hb; cbv zeta.
  - cbn. repeat split. lia.
  - rewrite putchars_newline_cons.
    destruct (putchar_newline_effect w) as (L & _ & _ & _ & K & B & F & G).
    cbv zeta in L.
    rewrite (uint32_small (current_line (console w) + 1)) in L by lia.
    assert (Hq : (buffer_lines (console w) <=? uint32 (current_line (console w) + 1)) = false).
    { rewrite uint32_small by lia. apply Z.leb_gt. lia. }
    destruct (putchar_newline_quiet w Hq) as [Q1 Q2].
    rewrite uint32_small in Hq by lia. rewrite Hq in L.
    destruct (IH (putchar_newline w)) as (L' & T' & B' & BL' & K' & F' & G'); try lia.
    repeat split; try congruence. lia.
Qed.

Lemma shift_scrolls_replicate n w w' :
  trace w' = replicate n EvShiftScroll ++ trace w ->
  shift_scrolls w' = (n + shift_scrolls w)%nat.
Proof.
  unfold shift_scrolls. intros ->.
  induction n as [| n IH]; cbn; [reflexivity | now rewrite IH].
Qed.

Lemma replicate_snoc_cons {A : Type} (x : A) n (t : list A) :
  replicate n x ++ x :: t = replicate (Datatypes.S n) x ++ t.
Proof.
  induction n as [| n IH]; cbn; [reflexivity |].
  f_equal. exact IH.
Qed.

(** With the cursor on the last line every newline is a shift-scroll, and
    after the first of them the last line is blank. *)
Lemma newlines_bottom n :
  forall w,
    grid_ok (console w) ->
    current_line (console w) = buffer_lines (console w) - 1 ->
    (n = O -> line_blank (console w) (buffer_lines (console w) - 1) (current_bg (console w))) ->
    let w' := putchars (replicate n newline) w in
    current_line (console w') = buffer_lines (console w') - 1
    /\ trace w' = replicate n EvShiftScroll ++ trace w
    /\ line_blank (console w') (buffer_lines (console w') - 1) (current_bg (console w'))
    /\ buffer_lines (console w') = buffer_lines (console w).
Proof.
  induction n as [| n IH]; intros w Hgrid Hl H0; cbv zeta.
  - cbn. repeat split; auto.
  - rewrite putchars_newline_cons.
    pose proof Hgrid as (Hb & _).
    assert (Hfull : (buffer_lines (console w) <=? uint32 (current_line (console w) + 1)) = true).
    { rewrite uint32_small by lia. apply Z.leb_le. lia. }
    destruct (putchar_newline_effect w) as (L & _ & _ & _ & K & B & F & G).
    cbv zeta in L. rewrite Hfull in L. rewrite uint32_small in L by lia.
    destruct (putchar_newline_scrolls w Hfull Hgrid) as (T & Len & Blank).
    destruct (IH (putchar_newline w)) as (L' & T' & Blank' & B').
    + now apply (grid_ok_ext (console w)).
    + congruence.
    + intros _. now rewrite B, G.
    + repeat split; try assumption.
      * rewrite T', T. apply replicate_snoc_cons.
      * congruence.
Qed.

(** From the top line, [buffer_lines - 1] newlines reach the last line and each
    further one is a shift-scroll. *)
Lemma newlines_from_top (k : nat) w :
  grid_ok (console w) ->
  current_line (console w) = 0 ->
  let n := (Z.to_nat (buffer_lines (console w) - 1) + Datatypes.S k)%nat in
  let w' := putchars (replicate n newline) w in
  trace w' = replicate (Datatypes.S k) EvShiftScroll ++ trace w
  /\ current_line (console w') = buffer_lines (console w') - 1
  /\ line_blank (console w') (buffer_lines (console w') - 1) (current_bg (console w'))
  /\ buffer_lines (console w') = buffer_lines (console w).
Proof.
  intros Hgrid Hl. cbv zeta.
  pose proof Hgrid as (Hb & _).
  rewrite replicate_add, putchars_app.
  destruct (newlines_quiet (Z.to_nat (buffer_lines (console w) - 1)) w)
    as (L & T & B & BL & K & F & G); try lia.
  cbv zeta in L, T, B, BL, K, F, G.
  set (w1 := putchars (replicate (Z.to_nat (buffer_lines (console w) - 1)) newline) w) in *.
  destruct (newlines_bottom (Datatypes.S k) w1) as (L' & T' & Blank' & BL').
  - apply (grid_ok_ext (console w)); try assumption. now rewrite B.
  - rewrite L, BL. lia.
  - discriminate.
  - cbv zeta in L', T', Blank', BL'.
    repeat split; try assumption; congruence.
Qed.

Lemma init_console_buffer_grid w0 :
  buffer (console w0) = [] ->
  0 <= console_cols (console w0) <= 240 ->
  grid_ok (console (snd (init_console_buffer w0))).
Proof.
  intros Hnull Hcols.
  assert (Hlen : length (buffer (console (snd (init_console_buffer w0))))
                 = Z.to_nat STATIC_BUFFER_CELLS).
  { unfold init_console_buffer.
    cbn [snd upd_console console set_console buffer set_buffer set_current_line
         set_current_col set_display_start set_current_fg set_current_bg
         set_cursor_visible set_scroll_position set_buffer_lines].
    rewrite for_loop_insert_length.
    unfold static_buffer. cbn [buffer set_buffer_lines]. rewrite Hnull.
    apply length_replicate. }
  destruct (init_console_buffer_console w0) as (B & _ & _ & _ & _ & _ & _ & _ & K).
  cbv zeta in B, K.
  unfold grid_ok. rewrite B, K, Hlen.
  unfold MAX_BUFFER_LINES, STATIC_BUFFER_CELLS, MAX_BUFFER_LINES. lia.
Qed.

(** The run of newlines that the scrolling property is about, on a freshly
    initialised buffer. *)
Lemma newlines_past_the_end w0 :
  buffer (console w0) = [] ->
  0 <= console_cols (console w0) <= 240 ->
  let w := snd (init_console_buffer w0) in
  let w' := putchars (replicate (Z.to_nat (buffer_lines (console w) + 5)) newline) w in
  trace w' = replicate 6 EvShiftScroll ++ trace w
  /\ current_line (console w') = buffer_lines (console w') - 1
  /\ line_blank (console w') (buffer_lines (console w') - 1) (current_bg (console w')).
Proof.
  intros Hnull Hcols. cbv zeta.
  pose proof (init_console_buffer_grid w0 Hnull Hcols) as Hgrid.
  destruct (init_console_buffer_console w0) as (B & L & _).
  cbv zeta in B, L.
  generalize dependent (snd (init_console_buffer w0)). intros w Hgrid B L.
  destruct (newlines_from_top 5 w Hgrid L) as (T' & L' & Blank' & _).
  cbv zeta in T', L', Blank'.
  replace (Z.to_nat (buffer_lines (console w) + 5))
    with (Z.to_nat (buffer_lines (console w) - 1) + 6)%nat
    by (rewrite B; unfold MAX_BUFFER_LINES; lia).
  exact (conj T' (conj L' Blank')).
Qed.

(** ** Scrolling past the end of the buffer *)

(** C1, as the code has it: on a freshly initialised console buffer
    ([current_line = 0], [current_col = 0]) whose grid fits the static array,
    writing [buffer_lines + 5] newlines through [console_putchar] runs
    [scroll_buffer_up] exactly 6 times (the newline that would move the cursor
    to line [buffer_lines] is already a shift-scroll), ends with
    [current_line = buffer_lines - 1], and leaves every cell of the last
    buffer line a blank on the current background colour. *)
Theorem newlines_shift_scroll_six_times (w0 : world) :
  buffer (console w0) = [] ->
  0 <= console_cols (console w0) <= 240 ->
  let w := snd (init_console_buffer w0) in
  let w' := putchars (replicate (Z.to_nat (buffer_lines (console w) + 5)) newline) w in
  current_line (console w) = 0
  /\ current_col (console w) = 0
  /\ shift_scrolls w' = (shift_scrolls w + 6)%nat
  /\ current_line (console w') = buffer_lines (console w') - 1
  /\ line_blank (console w') (buffer_lines (console w') - 1) (current_bg (console w')).
Proof.
  intros Hnull Hcols. cbv zeta.
  destruct (newlines_past_the_end w0 Hnull Hcols) as (T & L & Blank).
  cbv zeta in T, L, Blank.
  destruct (init_console_buffer_console w0) as (_ & L0 & C0 & _).
  cbv zeta in L0, C0.
  split; [exact L0 | split; [exact C0 | split; [| split; [exact L | exact Blank]]]].
  rewrite (shift_scrolls_replicate 6 _ _ T). apply Nat.add_comm.
Qed.

Lemma newlines_shift_scroll_six_times_witness :
  buffer (console qemu_world) = []
  /\ 0 <= console_cols (console qemu_world) <= 240
  /\ let w := snd (init_console_buffer qemu_world) in
     let w' := putchars (replicate (Z.to_nat (buffer_lines (console w) + 5)) newline) w in
     shift_scrolls w' = (shift_scrolls w + 6)%nat
     /\ current_line (console w') = buffer_lines (console w') - 1.
Proof.
  assert (Hnull : buffer (console qemu_world) = []) by reflexivity.
  assert (Hcols : 0 <= console_cols (console qemu_world) <= 240).
  { change (console_cols (console qemu_world)) with 80. lia. }
  split; [exact Hnull | split; [exact Hcols |]].
  destruct (newlines_shift_scroll_six_times qemu_world Hnull Hcols)
    as (_ & _ & N & L & _).
  exact (conj N L).
Defined.

(** The same run on the emulator's 80-column console: the count of
    shift-scrolls is not 5. *)
Lemma newlines_shift_scroll_five_counterexample :
  let w := snd (init_console_buffer qemu_world) in
  let w' := putchars (replicate (Z.to_nat (buffer_lines (console w) + 5)) newline) w in
  current_line (console w) = 0
  /\ current_col (console w) = 0
  /\ ~ (shift_scrolls w' = (shift_scrolls w + 5)%nat).
Proof.
  cbv zeta.
  assert (Hnull : buffer (console qemu_world) = []) by reflexivity.
  assert (Hcols : 0 <= console_cols (console qemu_world) <= 240).
  { change (console_cols (console qemu_world)) with 80. lia. }
  destruct (newlines_past_the_end qemu_world Hnull Hcols) as (T & _).
  cbv zeta in T.
  destruct (init_console_buffer_console qemu_world) as (_ & L0 & C0 & _).
  cbv zeta in L0, C0.
  split; [exact L0 | split; [exact C0 |]].
  rewrite (shift_scrolls_replicate 6 _ _ T).
  generalize (shift_scrolls (snd (init_console_buffer qemu_world))). intros m. lia.
Qed.

(** ** Manual scroll: the clamp and the window *)

Lemma console_putchar_rows c w :
  console_rows (console (console_putchar c w)) = console_rows (console w).
Proof.
  destruct (console_putchar_shape c w) as (w1 & (_ & _ & _ & R & _) & [-> | ->]).
  - exact R.
  - destruct (putchar_newline_effect w1) as (_ & _ & _ & R' & _). congruence.
Qed.

Lemma putchars_rows cs :
  forall w, console_rows (console (putchars cs w)) = console_rows (console w).
Proof.
  induction cs as [| c cs IH]; intros w; cbn; [reflexivity |].
  rewrite IH. apply console_putchar_rows.
Qed.

Lemma putchars_sync cs :
  forall w,
    display_start (console w) = scroll_position (console w) ->
    display_start (console (putchars cs w)) = scroll_position (console (putchars cs w)).
Proof.
  induction cs as [| c cs IH]; intros w H; cbn; [exact H |].
  apply IH. now apply console_putchar_sync.
Qed.

(** ** [display_start] and [scroll_position] *)

Lemma handle_keyboard_input_home kbd w :
  platform (current_platform w) = PLATFORM_QEMU_VERSATILE ->
  ps2_read_data kbd = 0x47 ->
  console (handle_keyboard_input kbd w)
  = set_display_start 0 (set_scroll_position 0 (console w)).
Proof.
  intros Hq Hk. unfold handle_keyboard_input. rewrite Hq, Hk. cbn.
  now rewrite console_render_console.
Qed.

Lemma handle_keyboard_input_end kbd w :
  platform (current_platform w) = PLATFORM_QEMU_VERSATILE ->
  ps2_read_data kbd = 0x4F ->
  console (handle_keyboard_input kbd w)
  = set_display_start
      (if console_rows (console w) <=? current_line (console w)
       then uint32 (uint32 (current_line (console w) - console_rows (console w)) + 1)
       else 0)
      (set_scroll_position (current_line (console w)) (console w)).
Proof.
  intros Hq Hk. unfold handle_keyboard_input. rewrite Hq, Hk. cbn.
  now rewrite console_render_console.
Qed.

(** C10: [display_start = scroll_position] holds after [init_console_buffer] and
    after the Home key, and is kept by every [console_putchar] and every
    [handle_scroll].  The End key breaks it: with
    [current_line >= console_rows] it sets [scroll_position = current_line]
    but [display_start = current_line - console_rows + 1], so that for
    [console_rows > 1] the scroll position exceeds both [display_start] and
    the upper end [max 0 (current_line - console_rows + 1)] of the range
    [handle_scroll] clamps to. *)
Theorem end_key_breaks_scroll_sync :
  (forall w, let c := console (snd (init_console_buffer w)) in
             display_start c = scroll_position c)
  /\ (forall ch w,
        display_start (console w) = scroll_position (console w) ->
        display_start (console (console_putchar ch w))
        = scroll_position (console (console_putchar ch w)))
  /\ (forall delta w,
        display_start (console w) = scroll_position (console w) ->
        display_start (console (handle_scroll delta w))
        = scroll_position (console (handle_scroll delta w)))
  /\ (forall kbd w,
        platform (current_platform w) = PLATFORM_QEMU_VERSATILE ->
        ps2_read_data kbd = 0x47 ->
        let c' := console (handle_keyboard_input kbd w) in
        display_start c' = scroll_position c' /\ scroll_position c' = 0)
  /\ (forall kbd w,
        platform (current_platform w) = PLATFORM_QEMU_VERSATILE ->
        ps2_read_data kbd = 0x4F ->
        0 <= current_line (console w) < 2 ^ 32 ->
        1 < console_rows (console w) <= current_line (console w) ->
        let c := console w in
        let c' := console (handle_keyboard_input kbd w) in
        scroll_position c' = current_line c
        /\ display_start c' = current_line c - console_rows c + 1
        /\ display_start c' < scroll_position c'
        /\ max_scroll c < scroll_position c'
        /\ current_line c' = current_line c
        /\ console_rows c' = console_rows c).
Proof.
  split; [| split; [| split; [| split]]].
  - intros w. apply (init_console_buffer_console w).
  - intros ch w. apply console_putchar_sync.
  - intros delta w. apply handle_scroll_sync.
  - intros kbd w Hq Hk. cbv zeta. rewrite (handle_keyboard_input_home kbd w Hq Hk).
    split; reflexivity.
  - intros kbd w Hq Hk Hl Hr. cbv zeta. rewrite (handle_keyboard_input_end kbd w Hq Hk).
    cbn [scroll_position display_start current_line console_rows
         set_display_start set_scroll_position].
    destruct (Z.leb_spec (console_rows (console w)) (current_line (console w))); [| lia].
    rewrite (uint32_small (_ - _)) by lia. rewrite uint32_small by lia.
    unfold max_scroll. repeat split; lia.
Qed.

Lemma end_key_breaks_scroll_sync_witness :
  let kbd := {| PL050_STAT := 0x10; PL050_DATA := 0x4F |} in
  let w := upd_console (set_current_line 40) qemu_world in
  let c' := console (handle_keyboard_input kbd w) in
  scroll_position c' = 40 /\ display_start c' = 12 /\ display_start c' < scroll_position c'.
Proof.
  cbv zeta.
  destruct end_key_breaks_scroll_sync as (_ & _ & _ & _ & H).
  specialize (H {| PL050_STAT := 0x10; PL050_DATA := 0x4F |}
                (upd_console (set_current_line 40) qemu_world)).
  cbv zeta in H.
  destruct H as (S & D & Lt & _).
  - reflexivity.
  - reflexivity.
  - change (current_line (console (upd_console (set_current_line 40) qemu_world))) with 40.
    lia.
  - change (current_line (console (upd_console (set_current_line 40) qemu_world))) with 40.
    change (console_rows (console (upd_console (set_current_line 40) qemu_world))) with 29.
    lia.
  - split; [exact S | split; [exact D | exact Lt]].
Defined.

(** ** Framebuffer setup *)

Lemma platform_eqb_eq a b : platform_eqb a b = true <-> a = b.
Proof. destruct a, b; cbn; split; intros H; try reflexivity; discriminate. Qed.

Lemma platform_eqb_neq a b : platform_eqb a b = false <-> a <> b.
Proof. destruct a, b; cbn; split; intros H; try congruence; try discriminate. Qed.

(** The firmware path of [setup_framebuffer] when the reply reports success. *)
Lemma console_upd_console f w : console (upd_console f w) = f (console w).
Proof. reflexivity. Qed.

Lemma setup_framebuffer_mailbox_eq fw req_width req_height w :
  platform (current_platform w) <> PLATFORM_QEMU_VERSATILE ->
  mailbox_base (current_platform w) <> 0 ->
  let reply := fw (fb_request req_width req_height) in
  Req.code reply = 0x80000000 ->
  setup_framebuffer fw req_width req_height w
  = (0,
     upd_console
       (fun c => if console_rows c <? MIN_CONSOLE_ROWS
                 then set_console_rows MIN_CONSOLE_ROWS c else c)
       (upd_console
          (fun c => if console_cols c <? MIN_CONSOLE_COLS
                    then set_console_cols MIN_CONSOLE_COLS c else c)
          (upd_console
             (fun c => set_console_rows
                         (Z.div (uint32 (height c - STATUS_BAR_HEIGHT)) FONT_HEIGHT) c)
             (upd_console (fun c => set_console_cols (Z.div (width c) FONT_WIDTH) c)
                (upd_console (set_pitch (Z.div (Req.pitch reply) 4))
                   (upd_console (set_height (Req.set_height reply))
                      (upd_console (set_width (Req.set_width reply))
                         (upd_console
                            (set_framebuffer
                               (gpu_to_arm_address (platform (current_platform w))
                                  (Req.fb_address reply))) w)))))))).
Proof.
  intros Hq Hm reply Hcode.
  unfold setup_framebuffer, mailbox_available.
  apply platform_eqb_neq in Hq. rewrite Hq.
  apply Z.eqb_neq in Hm. rewrite Hm. cbn [negb andb].
  fold reply. rewrite Hcode. rewrite Z.eqb_refl. cbn [negb].
  reflexivity.
Qed.

Lemma setup_framebuffer_mailbox fw req_width req_height w :
  platform (current_platform w) <> PLATFORM_QEMU_VERSATILE ->
  mailbox_base (current_platform w) <> 0 ->
  let reply := fw (fb_request req_width req_height) in
  Req.code reply = 0x80000000 ->
  let r := setup_framebuffer fw req_width req_height w in
  fst r = 0
  /\ framebuffer (console (snd r))
     = gpu_to_arm_address (platform (current_platform w)) (Req.fb_address reply)
  /\ width (console (snd r)) = Req.set_width reply
  /\ height (console (snd r)) = Req.set_height reply
  /\ pitch (console (snd r)) = Req.pitch reply / 4
  /\ console_cols (console (snd r))
     = Z.max MIN_CONSOLE_COLS (Req.set_width reply / FONT_WIDTH)
  /\ console_rows (console (snd r))
     = Z.max MIN_CONSOLE_ROWS (uint32 (Req.set_height reply - STATUS_BAR_HEIGHT) / FONT_HEIGHT).
Proof.
  intros Hq Hm reply Hcode. cbv zeta.
  rewrite (setup_framebuffer_mailbox_eq fw req_width req_height w Hq Hm Hcode).
  fold reply. cbn [fst snd].
  set (w8 := upd_console (fun c => set_console_rows _ c) _).
  assert (H8 : framebuffer (console w8)
               = gpu_to_arm_address (platform (current_platform w)) (Req.fb_address reply)
               /\ width (console w8) = Req.set_width reply
               /\ height (console w8) = Req.set_height reply
               /\ pitch (console w8) = Req.pitch reply / 4
               /\ console_cols (console w8) = Req.set_width reply / FONT_WIDTH
               /\ console_rows (console w8)
                  = uint32 (Req.set_height reply - STATUS_BAR_HEIGHT) / FONT_HEIGHT).
  { repeat split. }
  destruct H8 as (F & W & H & P & C & R). clearbody w8.
  rewrite !console_upd_console.
  rewrite <- C, <- R, <- F, <- W, <- H, <- P.
  destruct (Z.ltb_spec (console_cols (console w8)) MIN_CONSOLE_COLS) as [Hc | Hc];
    cbn [console_rows set_console_cols];
    destruct (Z.ltb_spec (console_rows (console w8)) MIN_CONSOLE_ROWS) as [Hr | Hr];
    cbn [framebuffer width height pitch console_cols console_rows
         set_console_cols set_console_rows];
    repeat split; lia.
Qed.

(** The emulator path of [setup_framebuffer]. *)
Lemma setup_framebuffer_qemu fw req_width req_height w :
  platform (current_platform w) = PLATFORM_QEMU_VERSATILE ->
  let r := setup_framebuffer fw req_width req_height w in
  fst r = 0
  /\ framebuffer (console (snd r)) = 0x200000
  /\ width (console (snd r)) = req_width
  /\ height (console (snd r)) = req_height
  /\ console_cols (console (snd r)) = req_width / FONT_WIDTH
  /\ console_rows (console (snd r)) = uint32 (req_height - STATUS_BAR_HEIGHT) / FONT_HEIGHT.
Proof.
  intros Hq. cbv zeta. unfold setup_framebuffer. rewrite Hq. cbn [platform_eqb].
  repeat split.
Qed.

(** [setup_framebuffer] fails exactly when the platform is not the emulator
    and either no mailbox exists or the reply does not report success. *)
Lemma setup_framebuffer_status fw req_width req_height w :
  fst (setup_framebuffer fw req_width req_height w)
  = if platform_eqb (platform (current_platform w)) PLATFORM_QEMU_VERSATILE then 0
    else if negb (mailbox_available w) then -1
    else if Req.code (fw (fb_request req_width req_height)) =? 0x80000000 then 0 else -1.
Proof.
  unfold setup_framebuffer.
  destruct (platform_eqb _ _); [reflexivity |].
  destruct (negb (mailbox_available w)); [reflexivity |].
  destruct (Req.code _ =? _); reflexivity.
Qed.

Lemma setup_framebuffer_failure fw req_width req_height w :
  fst (setup_framebuffer fw req_width req_height w) <> 0 ->
  snd (setup_framebuffer fw req_width req_height w) = w.
Proof.
  unfold setup_framebuffer.
  destruct (platform_eqb _ _); [cbn; congruence |].
  destruct (negb (mailbox_available w)); [reflexivity |].
  destruct (Req.code _ =? _); cbn; [congruence | reflexivity].
Qed.

(** C2: for every 32-bit frame buffer address the firmware returns with a
    successful reply, [setup_framebuffer] on the BCM2711 subtracts 0xC0000000
    exactly when the address is at or above 0xC0000000 (0xC0012340 becomes
    0x00012340, a lower address is kept), and on the BCM2835, BCM2836, BCM2837
    and BCM2837B0 clears the top two bits, [addr & 0x3FFFFFFF] (0x40012340
    becomes 0x00012340). *)
Theorem setup_framebuffer_address_translation
        (fw : firmware) (req_width req_height : Z) (w : world) :
  let p := platform (current_platform w) in
  let addr := Req.fb_address (fw (fb_request req_width req_height)) in
  let fb := framebuffer (console (snd (setup_framebuffer fw req_width req_height w))) in
  mailbox_base (current_platform w) <> 0 ->
  Req.code (fw (fb_request req_width req_height)) = 0x80000000 ->
  0 <= addr < 2 ^ 32 ->
  (p = PLATFORM_PI_BCM2711 ->
     (0xC0000000 <= addr -> fb = addr - 0xC0000000)
     /\ (addr < 0xC0000000 -> fb = addr)
     /\ (addr = 0xC0012340 -> fb = 0x00012340))
  /\ (p = PLATFORM_PI_BCM2835 \/ p = PLATFORM_PI_BCM2836
      \/ p = PLATFORM_PI_BCM2837 \/ p = PLATFORM_PI_BCM2837B0 ->
     fb = Z.land addr 0x3FFFFFFF
     /\ fb = addr mod 2 ^ 30
     /\ (addr = 0x40012340 -> fb = 0x00012340)).
Proof.
  intros p addr fb Hm Hcode Haddr.
  assert (Hfb : p <> PLATFORM_QEMU_VERSATILE -> fb = gpu_to_arm_address p addr).
  { intros Hq.
    destruct (setup_framebuffer_mailbox fw req_width req_height w Hq Hm Hcode)
      as (_ & F & _).
    exact F. }
  split.
  - intros Hp. rewrite Hfb by (rewrite Hp; discriminate).
    rewrite Hp. cbn [gpu_to_arm_address].
    repeat split.
    + intros Hhigh. destruct (Z.leb_spec 0xC0000000 addr); [| lia].
      apply uint32_small. lia.
    + intros Hlow. destruct (Z.leb_spec 0xC0000000 addr); [lia | reflexivity].
    + intros ->. reflexivity.
  - intros Hp.
    assert (Hland : gpu_to_arm_address p addr = Z.land addr 0x3FFFFFFF).
    { destruct Hp as [-> | [-> | [-> | ->]]]; reflexivity. }
    rewrite Hfb by (destruct Hp as [-> | [-> | [-> | ->]]]; discriminate).
    rewrite Hland.
    repeat split.
    + change 0x3FFFFFFF with (Z.ones 30). apply Z.land_ones. lia.
    + intros ->. reflexivity.
Qed.

Lemma setup_framebuffer_address_translation_witness :
  let fw : firmware :=
    fun request =>
      Req.Build_display_request_t
        (Req.size request) 0x80000000 0 0 0 0 0
        0x48003 8 0x80000008 1920 1080
        0x48004 8 0x80000008 1920 1080
        0x48005 4 0x80000004 32
        0x40001 8 0x80000008 0xC0012340 8294400
        0x40008 4 0x80000004 7680
        0 in
  let w := set_current_platform
             (pi_profile PLATFORM_PI_BCM2711 BCM2711_PERIPHERAL_BASE
                "Raspberry Pi 4/400/CM4 (BCM2711)") boot_world in
  framebuffer (console (snd (setup_framebuffer fw 1920 1080 w))) = 0x00012340.
Proof.
  cbv zeta.
  refine (proj2 (proj2 (proj1
            (setup_framebuffer_address_translation _ 1920 1080 _ _ _ _) _)) _).
  - cbn. discriminate.
  - reflexivity.
  - cbn. lia.
  - reflexivity.
  - reflexivity.
Defined.

(** ** Platform detection: the BCM2836/BCM2837 branch *)

(** C4, as the code has it: once the mailbox probe at the BCM2836/BCM2837
    peripheral base has succeeded (the emulator and BCM2711 probes having
    failed), a failing ARM-timer probe makes [detect_platform] return the
    BCM2836 profile; it is the succeeding probe that makes it assume the more
    common BCM2837. *)
Theorem detect_platform_timer_probe (mem : Z -> Z) (w : world) :
  let kbd := safe_peek32 mem (QEMU_PL050_KBD_BASE + 0x04) in
  fst kbd && negb (Z.land (snd kbd) 0xFF =? 0xFF) = false ->
  fst (safe_peek32 mem (BCM2711_PERIPHERAL_BASE + MAILBOX_OFFSET + 0x18)) = false ->
  fst (safe_peek32 mem (BCM2836_PERIPHERAL_BASE + MAILBOX_OFFSET + 0x18)) = true ->
  let r := detect_platform mem w in
  (fst (safe_peek32 mem (BCM2836_PERIPHERAL_BASE + 0x40000)) = false ->
     fst r = PLATFORM_PI_BCM2836
     /\ current_platform (snd r)
        = pi_profile PLATFORM_PI_BCM2836 BCM2836_PERIPHERAL_BASE "Raspberry Pi 2 (BCM2836)")
  /\ (fst (safe_peek32 mem (BCM2836_PERIPHERAL_BASE + 0x40000)) = true ->
     fst r = PLATFORM_PI_BCM2837
     /\ current_platform (snd r)
        = pi_profile PLATFORM_PI_BCM2837 BCM2836_PERIPHERAL_BASE
            "Raspberry Pi 2/3/Zero2W (BCM2836/2837)").
Proof.
  cbv zeta. intros Hq H4 H3.
  unfold detect_platform.
  destruct (safe_peek32 mem (QEMU_PL050_KBD_BASE + 0x04)) as [ok v].
  cbn [fst snd] in Hq. rewrite Hq, H4, H3.
  split; intros Ht; rewrite Ht; split; reflexivity.
Qed.

Lemma detect_platform_timer_probe_witness :
  fst (detect_platform pi2_memory boot_world) = PLATFORM_PI_BCM2836.
Proof.
  refine (proj1 (proj1 (detect_platform_timer_probe pi2_memory boot_world _ _ _) _));
    reflexivity.
Defined.

(** On a board where the family's mailbox answers and the ARM-timer probe
    fails, the detector returns the BCM2836 profile, not the BCM2837 one. *)
Lemma detect_platform_timer_probe_counterexample :
  fst (safe_peek32 pi2_memory (BCM2836_PERIPHERAL_BASE + MAILBOX_OFFSET + 0x18)) = true
  /\ fst (safe_peek32 pi2_memory (BCM2836_PERIPHERAL_BASE + 0x40000)) = false
  /\ fst (detect_platform pi2_memory boot_world) = PLATFORM_PI_BCM2836
  /\ fst (detect_platform pi2_memory boot_world) <> PLATFORM_PI_BCM2837.
Proof. repeat split. discriminate. Qed.

(** ** Initialisation *)

Lemma detected_console mem w : console (detected mem w) = console w.
Proof.
  unfold detected, detect_platform.
  destruct (safe_peek32 mem (QEMU_PL050_KBD_BASE + 0x04)) as [ok v].
  destruct (ok && _); [reflexivity |].
  destruct (fst (safe_peek32 mem (BCM2711_PERIPHERAL_BASE + MAILBOX_OFFSET + 0x18)));
    [reflexivity |].
  destruct (fst (safe_peek32 mem (BCM2836_PERIPHERAL_BASE + MAILBOX_OFFSET + 0x18)));
    [| reflexivity].
  destruct (fst (safe_peek32 mem _)); reflexivity.
Qed.

(** Every Raspberry Pi profile the detector produces has a mailbox. *)
Lemma detected_mailbox mem w :
  platform (current_platform (detected mem w)) <> PLATFORM_QEMU_VERSATILE ->
  mailbox_available (detected mem w) = true.
Proof.
  unfold detected, detect_platform.
  destruct (safe_peek32 mem (QEMU_PL050_KBD_BASE + 0x04)) as [ok v].
  destruct (ok && _); [cbn; congruence |].
  destruct (fst (safe_peek32 mem (BCM2711_PERIPHERAL_BASE + MAILBOX_OFFSET + 0x18)));
    [reflexivity |].
  destruct (fst (safe_peek32 mem (BCM2836_PERIPHERAL_BASE + MAILBOX_OFFSET + 0x18)));
    [| reflexivity].
  destruct (fst (safe_peek32 mem _)); reflexivity.
Qed.

Lemma init_console_buffer_status w : fst (init_console_buffer w) = 0.
Proof. reflexivity. Qed.

(** [universal_console_init] returns what [setup_framebuffer] returns, and on
    failure leaves the state as detection left it. *)
Lemma universal_console_init_unfold mem fw w :
  let w1 := detected mem w in
  let geometry := initial_resolution fw w1 in
  let s := setup_framebuffer fw (fst geometry) (snd geometry) w1 in
  let r := universal_console_init mem fw w in
  (fst s = 0 -> fst r = 0)
  /\ (fst s <> 0 -> fst r = -1 /\ snd r = w1).
Proof.
  cbv zeta. unfold universal_console_init, detected.
  destruct (detect_platform mem w) as [p w0].
  set (w1 := set_current_platform _ w0).
  destruct (initial_resolution fw w1) as [rw rh]. cbn [fst snd].
  pose proof (setup_framebuffer_failure fw rw rh w1) as Hfail.
  destruct (setup_framebuffer fw rw rh w1) as [st w2]. cbn [fst snd] in *.
  split.
  - intros ->. cbn [Z.eqb negb].
    pose proof (init_console_buffer_status (init_ps2_devices w2)) as Hst.
    destruct (init_console_buffer (init_ps2_devices w2)) as [st' w3].
    cbn [fst] in Hst. subst st'. reflexivity.
  - intros Hne. apply Z.eqb_neq in Hne as Hb. rewrite Hb. cbn [negb fst snd].
    split; [reflexivity | now apply Hfail].
Qed.

Lemma main_failure mem fw :
  fst (universal_console_init mem fw boot_world) = -1 -> main mem fw = inl (-1).
Proof.
  unfold main.
  destruct (universal_console_init mem fw boot_world) as [st w]. cbn [fst].
  intros ->. reflexivity.
Qed.

(** C3, as the code has it: detection always yields a profile and a failed
    resolution query only selects a fallback geometry, but a failed frame
    buffer negotiation is fatal.  [universal_console_init] returns 0 when the
    detected platform is the emulator or the firmware's reply to the frame
    buffer request carries the code 0x80000000; for any other reply code on a
    Raspberry Pi it returns -1 with the console state untouched (no buffer is
    set up) and [main] exits with -1.  [render_console] does nothing when no
    frame buffer address is configured. *)
Theorem universal_console_init_status (mem : Z -> Z) (fw : firmware) (w : world) :
  let w1 := detected mem w in
  let p := platform (current_platform w1) in
  let geometry := initial_resolution fw w1 in
  let reply := fw (fb_request (fst geometry) (snd geometry)) in
  let r := universal_console_init mem fw w in
  (p = PLATFORM_QEMU_VERSATILE \/ Req.code reply = 0x80000000 -> fst r = 0)
  /\ (p <> PLATFORM_QEMU_VERSATILE -> Req.code reply <> 0x80000000 ->
      fst r = -1
      /\ console (snd r) = console w
      /\ (w = boot_world -> main mem fw = inl (-1)))
  /\ (forall w', framebuffer (console w') = 0 -> render_console w' = w').
Proof.
  cbv zeta.
  destruct (universal_console_init_unfold mem fw w) as [Hok Hfail]. cbv zeta in Hok, Hfail.
  rewrite setup_framebuffer_status in Hok, Hfail.
  split; [| split; [| exact render_console_null]].
  - intros [Hq | Hcode]; apply Hok.
    + rewrite Hq. reflexivity.
    + destruct (platform_eqb _ _) eqn:Hp; [reflexivity |].
      apply platform_eqb_neq in Hp. rewrite (detected_mailbox mem w Hp).
      cbn [negb]. rewrite Hcode. reflexivity.
  - intros Hq Hcode.
    assert (Hst : fst (universal_console_init mem fw w) = -1
                  /\ snd (universal_console_init mem fw w) = detected mem w).
    { apply Hfail.
      pose proof Hq as Hp. apply platform_eqb_neq in Hp. rewrite Hp.
      rewrite (detected_mailbox mem w Hq). cbn [negb].
      apply Z.eqb_neq in Hcode. rewrite Hcode. discriminate. }
    destruct Hst as [Hst Hsnd].
    split; [exact Hst | split].
    + rewrite Hsnd. apply detected_console.
    + intros ->. now apply main_failure.
Qed.

Lemma universal_console_init_status_witness :
  fst (universal_console_init (fun _ => 0) failing_firmware boot_world) = -1
  /\ main (fun _ => 0) failing_firmware = inl (-1).
Proof.
  destruct (universal_console_init_status (fun _ => 0) failing_firmware boot_world)
    as (_ & H & _).
  cbv zeta in H.
  destruct H as (Hst & _ & Hmain).
  - discriminate.
  - discriminate.
  - split; [exact Hst | exact (Hmain eq_refl)].
Defined.

(** A Raspberry Pi 1 whose firmware answers the requests with an error code:
    initialisation gives up with -1, no console buffer exists afterwards, and
    the program exits. *)
Lemma universal_console_init_counterexample :
  let r := universal_console_init (fun _ => 0) failing_firmware boot_world in
  platform (current_platform (snd r)) = PLATFORM_PI_BCM2835
  /\ fst r = -1
  /\ buffer (console (snd r)) = []
  /\ buffer_lines (console (snd r)) = 0
  /\ main (fun _ => 0) failing_firmware = inl (-1).
Proof. cbv zeta. repeat split. Qed.

(** ** Mouse packets *)

Lemma handle_scroll_frame delta w :
  mouse_x (console (handle_scroll delta w)) = mouse_x (console w)
  /\ mouse_y (console (handle_scroll delta w)) = mouse_y (console w)
  /\ packet_index (handle_scroll delta w) = packet_index w.
Proof.
  pose proof (handle_scroll_console delta w) as E. cbv zeta in E.
  split; [| split].
  - destruct (_ =? _) in E; now rewrite E.
  - destruct (_ =? _) in E; now rewrite E.
  - unfold handle_scroll. cbv zeta.
    destruct (negb _); [| reflexivity].
    match goal with
    | |- packet_index (render_console ?t) = _ =>
        destruct (render_console_only_vram t) as (_ & _ & _ & _ & ->)
    end.
    reflexivity.
Qed.

(** The pointer update of [handle_mouse_input], on its own. *)
Lemma pointer_clamp pos delta limit :
  1 <= limit < 2 ^ 31 -> - 2 ^ 30 <= pos <= 2 ^ 30 -> - 256 <= delta <= 256 ->
  let moved := to_int (pos + delta) in
  let low := if moved <? 0 then 0 else moved in
  (if to_int limit <=? low then to_int (uint32 (limit - 1)) else low)
  = clamp 0 (limit - 1) (pos + delta).
Proof.
  intros Hl Hp Hd. cbv zeta. unfold clamp.
  rewrite (to_int_small (pos + delta)) by lia.
  rewrite (to_int_small limit) by lia.
  rewrite (uint32_small (limit - 1)) by lia.
  rewrite (to_int_small (limit - 1)) by lia.
  destruct (Z.ltb_spec (pos + delta) 0);
    match goal with
    | |- (if ?a <=? ?b then _ else _) = _ => destruct (Z.leb_spec a b)
    end; lia.
Qed.

Lemma to_int8_range b : - 128 <= to_int8 b < 128.
Proof.
  unfold to_int8. cbv zeta.
  pose proof (Z.mod_pos_bound b 256 ltac:(lia)).
  destruct (Z.ltb_spec (b mod 256) 128); lia.
Qed.

(** The state [handle_mouse_input] is in after the pointer has moved and been
    clamped, before any scroll. *)
Lemma pointer_moved (w0 : world) (dx dy : Z) :
  let c := console w0 in
  1 <= width c < 2 ^ 31 -> 1 <= height c < 2 ^ 31 ->
  - 2 ^ 30 <= mouse_x c <= 2 ^ 30 -> - 2 ^ 30 <= mouse_y c <= 2 ^ 30 ->
  - 128 <= dx < 128 -> - 128 <= dy < 128 ->
  let w6 :=
    upd_console
      (fun c => if to_int (height c) <=? mouse_y c
                then set_mouse_y (to_int (uint32 (height c - 1))) c else c)
      (upd_console
         (fun c => if to_int (width c) <=? mouse_x c
                   then set_mouse_x (to_int (uint32 (width c - 1))) c else c)
         (upd_console (fun c => if mouse_y c <? 0 then set_mouse_y 0 c else c)
            (upd_console (fun c => if mouse_x c <? 0 then set_mouse_x 0 c else c)
               (upd_console (fun c => set_mouse_y (to_int (mouse_y c - dy)) c)
                  (upd_console (fun c => set_mouse_x (to_int (mouse_x c + dx)) c) w0))))) in
  mouse_x (console w6) = clamp 0 (width c - 1) (mouse_x c + dx)
  /\ mouse_y (console w6) = clamp 0 (height c - 1) (mouse_y c - dy)
  /\ scroll_position (console w6) = scroll_position c
  /\ display_start (console w6) = display_start c
  /\ trace w6 = trace w0
  /\ packet_index w6 = packet_index w0.
Proof.
  cbv zeta. intros Hw Hh Hx Hy Hdx Hdy.
  rewrite !console_upd_console.
  split; [| split; [| split; [| split; [| split; reflexivity]]]];
    destruct (console w0)
      as [fb wd ht pt cols rows buf bl cl cc ds fg bg cv cb mx my mb ma ka tc sp];
    cbn [mouse_x mouse_y width height scroll_position display_start
         set_mouse_x set_mouse_y] in *;
    repeat
      (rewrite ?(to_int_small (mx + dx)), ?(to_int_small (my - dy)),
         ?(to_int_small wd), ?(to_int_small ht),
         ?(uint32_small (wd - 1)), ?(uint32_small (ht - 1)),
         ?(to_int_small (wd - 1)), ?(to_int_small (ht - 1)) by lia;
       match goal with
       | |- context [if ?a <? ?b then _ else _] =>
           lazymatch a with
           | context [if _ then _ else _] => fail
           | _ => destruct (Z.ltb_spec a b)
           end
       | |- context [if ?a <=? ?b then _ else _] =>
           lazymatch b with
           | context [if _ then _ else _] => fail
           | _ => destruct (Z.leb_spec a b)
           end
       end;
       cbn [mouse_x mouse_y width height scroll_position display_start
            set_mouse_x set_mouse_y]);
    unfold clamp; lia.
Qed.

(** C7: when the third byte of a PS/2 mouse packet arrives, the decoder adds
    the signed second byte to the horizontal position, subtracts the signed
    third byte from the vertical position (the Y axis is inverted), clamps the
    two to [0, width - 1] and [0, height - 1], records the first byte as the
    button mask and, when bit 1 of that byte (mask 0x02, the right button) is
    set and the vertical delta is not zero, issues a scroll of 3 lines in the
    direction of the delta's sign.  The packet (0x08, 5, -3) thus yields
    buttons 0x08, moves the pointer 5 to the right and 3 down (when that stays
    on the screen) and issues no scroll. *)
Theorem handle_mouse_input_decodes (mouse : pl050_regs) (w : world) (b0 b1 b_old : Z) :
  let c := console w in
  let b2 := ps2_read_data mouse in
  let dx := to_int8 b1 in
  let dy := to_int8 b2 in
  let w' := handle_mouse_input mouse w in
  let c' := console w' in
  platform (current_platform w) = PLATFORM_QEMU_VERSATILE ->
  packet_index w = 2 ->
  mouse_packet w = [b0; b1; b_old] ->
  b2 <> 0 ->
  1 <= width c < 2 ^ 31 -> 1 <= height c < 2 ^ 31 ->
  - 2 ^ 30 <= mouse_x c <= 2 ^ 30 -> - 2 ^ 30 <= mouse_y c <= 2 ^ 30 ->
  (mouse_x c' = clamp 0 (width c - 1) (mouse_x c + dx)
   /\ mouse_y c' = clamp 0 (height c - 1) (mouse_y c - dy)
   /\ mouse_buttons c' = b0
   /\ packet_index w' = 0)
  /\ (Z.land b0 0x02 <> 0 -> dy <> 0 ->
        trace w' = EvScrollCmd (if 0 <? dy then 3 else -3) :: trace w)
  /\ (Z.land b0 0x02 = 0 ->
        trace w' = trace w
        /\ scroll_position c' = scroll_position c
        /\ display_start c' = display_start c)
  /\ (b0 = 0x08 -> b1 = 5 -> b2 = 253 ->
        0 <= mouse_x c -> mouse_x c + 5 < width c ->
        0 <= mouse_y c -> mouse_y c + 3 < height c ->
        mouse_buttons c' = 0x08
        /\ mouse_x c' = mouse_x c + 5
        /\ mouse_y c' = mouse_y c + 3
        /\ trace w' = trace w).
Proof.
  cbv zeta. intros Hq Hi Hp Hd Hw Hh Hx Hy.
  unfold handle_mouse_input.
  rewrite Hq. cbn [platform_eqb negb].
  apply Z.eqb_neq in Hd as Hd'. rewrite Hd'.
  cbn [packet_index set_mouse_packet set_packet_index mouse_packet].
  rewrite Hi, Hp.
  change (to_int (2 + 1)) with 3. change (3 <=? 3) with true. cbv iota.
  change (<[Z.to_nat 2:=ps2_read_data mouse]> [b0; b1; b_old])
    with [b0; b1; ps2_read_data mouse].
  cbn [lookup list_lookup default from_option id].
  set (w0 := set_packet_index 0 _).
  pose proof (pointer_moved w0 (to_int8 b1) (to_int8 (ps2_read_data mouse))
                Hw Hh Hx Hy (to_int8_range _) (to_int8_range _)) as H6.
  cbv zeta in H6.
  set (w6 := upd_console (fun c => if to_int (height c) <=? mouse_y c then _ else c) _) in *.
  change (console w0) with (console w) in H6.
  change (trace w0) with (trace w) in H6.
  change (packet_index w0) with 0 in H6.
  destruct H6 as (X & Y & S & D & T & I). clearbody w6. clear w0.
  set (dy := to_int8 (ps2_read_data mouse)) in *.
  set (ws := if negb (Z.land b0 2 =? 0) then _ else w6).
  assert (Hs : mouse_x (console ws) = mouse_x (console w6)
               /\ mouse_y (console ws) = mouse_y (console w6)
               /\ packet_index ws = packet_index w6
               /\ (Z.land b0 2 <> 0 -> dy <> 0 ->
                     trace ws = EvScrollCmd (if 0 <? dy then 3 else -3) :: trace w6)
               /\ (Z.land b0 2 = 0 -> ws = w6)).
  { subst ws.
    destruct (Z.eqb_spec (Z.land b0 2) 0) as [Hb | Hb]; cbn [negb].
    - repeat split; congruence.
    - destruct (Z.eqb_spec dy 0) as [Hy0 | Hy0]; cbn [negb].
      + repeat split; congruence.
      + destruct (handle_scroll_frame (if 0 <? dy then 3 else -3) w6) as (A1 & A2 & A3).
        repeat split; try assumption.
        * intros _ _. apply handle_scroll_trace.
        * congruence. }
  destruct Hs as (Xs & Ys & Is & Ts & Ns). clearbody ws.
  rewrite console_upd_console.
  cbn [mouse_x mouse_y mouse_buttons scroll_position display_start set_mouse_buttons
       upd_console packet_index set_console trace].
  split; [| split; [| split]].
  - repeat split; congruence.
  - intros Hb Hy0. rewrite (Ts Hb Hy0). now rewrite T.
  - intros Hb. rewrite (Ns Hb). repeat split; assumption.
  - intros -> -> Hb2 Hx0 Hx1 Hy0 Hy1.
    assert (Hdy : dy = -3) by (subst dy; rewrite Hb2; reflexivity).
    rewrite (Ns eq_refl), X, Y, Hdy, T.
    change (to_int8 5) with 5. unfold clamp.
    repeat split; lia.
Qed.

Lemma handle_mouse_input_decodes_witness :
  let mouse := {| PL050_STAT := 0x10; PL050_DATA := 253 |} in
  let w := set_packet_index 2 (set_mouse_packet [0x08; 5; 0] qemu_world) in
  let c' := console (handle_mouse_input mouse w) in
  mouse_buttons c' = 0x08 /\ mouse_x c' = 5 /\ mouse_y c' = 3.
Proof.
  cbv zeta.
  pose proof (handle_mouse_input_decodes
                {| PL050_STAT := 0x10; PL050_DATA := 253 |}
                (set_packet_index 2 (set_mouse_packet [0x08; 5; 0] qemu_world))
                0x08 5 0) as H.
  cbv zeta in H.
  change (console (set_packet_index 2 (set_mouse_packet [0x08; 5; 0] qemu_world)))
    with (console qemu_world) in H.
  change (width (console qemu_world)) with 640 in H.
  change (height (console qemu_world)) with 480 in H.
  change (mouse_x (console qemu_world)) with 0 in H.
  change (mouse_y (console qemu_world)) with 0 in H.
  destruct H as (_ & _ & _ & H); try reflexivity; try lia; try discriminate.
  destruct H as (B & X & Y & _);
    [reflexivity | reflexivity | reflexivity | lia | lia | lia | lia |].
  exact (conj B (conj X Y)).
Defined.

(** ** The window invariant holds from the moment the console is up *)

Lemma console_puts_follow str :
  forall w, follow_inv (console w) -> follow_inv (console (console_puts str w)).
Proof.
  induction str as [| a rest IH]; intros w H; cbn [console_puts].
  - exact H.
  - destruct (Ascii.eqb a Ascii.zero); [exact H |].
    apply IH. now apply console_putchar_follow.
Qed.

Lemma console_printf_follow fmt args w :
  follow_inv (console w) -> follow_inv (console (console_printf fmt args w)).
Proof. apply console_puts_follow. Qed.

Lemma console_set_color_follow fg bg w :
  follow_inv (console w) -> follow_inv (console (console_set_color fg bg w)).
Proof. intros H. exact H. Qed.

Create HintDb follow discriminated.
#[local] Hint Resolve console_puts_follow console_printf_follow console_set_color_follow
  : follow.

Lemma follow_let (e : world) (k : world -> world) :
  follow_inv (console e) ->
  (forall w, follow_inv (console w) -> follow_inv (console (k w))) ->
  follow_inv (console (let w := e in k w)).
Proof. intros He Hk. exact (Hk e He). Qed.

(** Walks through a sequence of output statements, one [let] at a time. *)
Ltac follow_statements :=
  lazymatch goal with
  | |- follow_inv (console (let w := ?e in @?k w)) =>
      refine (follow_let e k _ _);
      [ follow_statements
      | let w' := fresh "w" in
        let H' := fresh "H" in
        intros w' H'; cbv beta; follow_statements ]
  | |- follow_inv (console (if ?b then _ else _)) => destruct b; follow_statements
  | |- _ => auto with follow
  end.

Lemma print_banner_follow w :
  follow_inv (console w) -> follow_inv (console (print_banner w)).
Proof. intros H. cbv beta delta [print_banner]. follow_statements. Qed.

Lemma initial_resolution_qemu fw w :
  platform (current_platform w) = PLATFORM_QEMU_VERSATILE ->
  initial_resolution fw w = (640, 480).
Proof.
  intros Hq. unfold initial_resolution, detect_display_resolution. now rewrite Hq.
Qed.

Lemma setup_framebuffer_rows fw req_width req_height w :
  fst (setup_framebuffer fw req_width req_height w) = 0 ->
  let rows := console_rows (console (snd (setup_framebuffer fw req_width req_height w))) in
  (platform (current_platform w) = PLATFORM_QEMU_VERSATILE ->
     rows = uint32 (req_height - STATUS_BAR_HEIGHT) / FONT_HEIGHT)
  /\ (platform (current_platform w) <> PLATFORM_QEMU_VERSATILE -> 15 <= rows < 2 ^ 31).
Proof.
  intros Hok. cbv zeta. split.
  - intros Hq. apply (setup_framebuffer_qemu fw req_width req_height w Hq).
  - intros Hq.
    rewrite setup_framebuffer_status in Hok.
    pose proof Hq as Hq'. apply platform_eqb_neq in Hq'. rewrite Hq' in Hok.
    destruct (negb (mailbox_available w)) eqn:Hmb; [discriminate |].
    destruct (Z.eqb_spec (Req.code (fw (fb_request req_width req_height))) 0x80000000)
      as [Hcode | Hcode]; [| discriminate].
    assert (Hm : mailbox_base (current_platform w) <> 0).
    { unfold mailbox_available in Hmb. apply negb_false_iff, andb_true_iff in Hmb.
      destruct Hmb as [Hmb _]. apply negb_true_iff, Z.eqb_neq in Hmb. exact Hmb. }
    destruct (setup_framebuffer_mailbox fw req_width req_height w Hq Hm Hcode)
      as (_ & _ & _ & _ & _ & _ & R).
    rewrite R.
    pose proof (uint32_range (Req.set_height (fw (fb_request req_width req_height))
                              - STATUS_BAR_HEIGHT)) as Hu.
    assert (Hdiv : 0 <= uint32 (Req.set_height (fw (fb_request req_width req_height))
                                - STATUS_BAR_HEIGHT) / FONT_HEIGHT < 2 ^ 31).
    { unfold FONT_HEIGHT. split.
      - apply Z.div_pos; lia.
      - apply Z.div_lt_upper_bound; lia. }
    unfold MIN_CONSOLE_ROWS. lia.
Qed.

Lemma init_ps2_devices_rows w :
  console_rows (console (init_ps2_devices w)) = console_rows (console w).
Proof.
  unfold init_ps2_devices. destruct (negb _); reflexivity.
Qed.

(** Whatever the hardware, once [universal_console_init] has succeeded the
    window follows the cursor, and every later run of [console_putchar] calls
    keeps it so. *)
Lemma universal_console_init_follow mem fw w cs :
  fst (universal_console_init mem fw w) = 0 ->
  follow_inv (console (putchars cs (snd (universal_console_init mem fw w)))).
Proof.
  unfold universal_console_init. fold (detected mem w).
  assert (Hd : detected mem w
               = (let '(p, w0) := detect_platform mem w in
                  set_current_platform (set_platform p (current_platform w0)) w0))
    by reflexivity.
  destruct (detect_platform mem w) as [p w0]. rewrite <- Hd. clear Hd p w0.
  generalize (detected mem w). intros w1.
  pose proof (initial_resolution_qemu fw w1) as Hres.
  destruct (initial_resolution fw w1) as [rw rh].
  pose proof (setup_framebuffer_rows fw rw rh w1) as Hrows.
  destruct (setup_framebuffer fw rw rh w1) as [st w2]. cbn [fst snd] in Hrows.
  destruct (Z.eqb_spec st 0) as [-> | Hne]; cbn [negb].
  - intros _. destruct (Hrows eq_refl) as [Hq Hpi]. clear Hrows.
    assert (Hr : 1 <= console_rows (console (init_ps2_devices w2)) < 2 ^ 31).
    { rewrite init_ps2_devices_rows.
      destruct (platform (current_platform w1)) eqn:Hp;
        try (assert (Hb : 15 <= console_rows (console w2) < 2 ^ 31)
               by (apply Hpi; discriminate); lia).
      rewrite (Hq eq_refl).
      specialize (Hres eq_refl). injection Hres as -> ->.
      change (uint32 (480 - STATUS_BAR_HEIGHT) / FONT_HEIGHT) with 29. lia. }
    pose proof (init_console_buffer_follow (init_ps2_devices w2) Hr) as Hf.
    pose proof (init_console_buffer_status (init_ps2_devices w2)) as Hst.
    destruct (init_console_buffer (init_ps2_devices w2)) as [st' w3].
    cbn [fst snd] in Hf, Hst. subst st'. cbn [Z.eqb negb snd].
    apply putchars_follow, print_banner_follow.
    destruct (clear_screen_only_vram COLOR_BLACK w3) as (-> & _).
    exact Hf.
  - cbn [fst]. intros Hc. discriminate Hc.
Qed.

(** * Further properties of the console *)

(** ** Detection *)

Lemma safe_peek32_present mem address :
  fst (safe_peek32 mem address) = true <-> present (mem address).
Proof.
  unfold safe_peek32, present. cbn [fst].
  rewrite andb_true_iff, !negb_true_iff, !Z.eqb_neq. reflexivity.
Qed.

Lemma safe_peek32_value mem address : snd (safe_peek32 mem address) = uint32 (mem address).
Proof. reflexivity. Qed.

(** One branch of [detect_platform], its profile written out. *)
Ltac detect_case :=
  cbn [fst snd current_platform set_current_platform];
  split; [reflexivity |];
  split; [auto 6 |];
  split; [first [intros H; discriminate H | intros _; repeat split] |];
  split;
    [first [ intros H; now contradiction H
           | intros _; repeat split; intros E; vm_compute in E; discriminate E ] |];
  repeat split.

(** X1: every profile [detect_platform] leaves behind is complete and is one of
    five: the unknown platform and the BCM2837B0 are never reported.  The
    returned discriminant is the stored one; only the emulator has PS/2 and no
    mailbox, every Raspberry Pi has USB and its four sub-blocks at the fixed
    offsets from its peripheral base; nothing but [current_platform] changes
    and the old profile has no influence. *)
Theorem detect_platform_profile (mem : Z -> Z) (w : world) :
  let r := detect_platform mem w in
  let i := current_platform (snd r) in
  platform i = fst r
  /\ (fst r = PLATFORM_QEMU_VERSATILE \/ fst r = PLATFORM_PI_BCM2711
      \/ fst r = PLATFORM_PI_BCM2836 \/ fst r = PLATFORM_PI_BCM2837
      \/ fst r = PLATFORM_PI_BCM2835)
  /\ (fst r = PLATFORM_QEMU_VERSATILE ->
        i = qemu_profile /\ has_ps2 i = true /\ has_usb i = false /\ mailbox_base i = 0)
  /\ (fst r <> PLATFORM_QEMU_VERSATILE ->
        has_ps2 i = false /\ has_usb i = true
        /\ mailbox_base i = peripheral_base i + MAILBOX_OFFSET
        /\ gpio_base i = peripheral_base i + GPIO_OFFSET
        /\ uart_base i = peripheral_base i + UART_OFFSET
        /\ usb_base i = peripheral_base i + USB_OFFSET
        /\ mailbox_base i <> 0)
  /\ console (snd r) = console w
  /\ vram (snd r) = vram w
  /\ trace (snd r) = trace w
  /\ (forall w2, current_platform (snd (detect_platform mem w2)) = i).
Proof.
  cbv zeta. unfold detect_platform.
  destruct (safe_peek32 mem (QEMU_PL050_KBD_BASE + 0x04)) as [ok v].
  destruct (ok && _); [detect_case |].
  destruct (fst (safe_peek32 mem (BCM2711_PERIPHERAL_BASE + MAILBOX_OFFSET + 0x18)));
    [detect_case |].
  destruct (fst (safe_peek32 mem (BCM2836_PERIPHERAL_BASE + MAILBOX_OFFSET + 0x18)));
    [| detect_case].
  destruct (fst (safe_peek32 mem _)); detect_case.
Qed.

Ltac decision_case :=
  cbn [fst];
  split; [| split; [| split; [| split]]];
  (split; intros E; [try congruence | try tauto]); tauto.

(** X2: which memory words decide the outcome, and in which order: the PL050
    keyboard status word at 0x10007004 first, then the mailbox status words at
    0xFE00B898 and 0x3F00B898, the latter refined by the ARM timer word at
    0x3F040000; the BCM2835 is what remains when none of the three answers. *)
Theorem detect_platform_decision (mem : Z -> Z) (w : world) :
  let p := fst (detect_platform mem w) in
  let emulator := present (mem 0x10007004) /\ Z.land (uint32 (mem 0x10007004)) 0xFF <> 0xFF in
  (p = PLATFORM_QEMU_VERSATILE <-> emulator)
  /\ (p = PLATFORM_PI_BCM2711 <-> ~ emulator /\ present (mem 0xFE00B898))
  /\ (p = PLATFORM_PI_BCM2837 <->
        ~ emulator /\ ~ present (mem 0xFE00B898)
        /\ present (mem 0x3F00B898) /\ present (mem 0x3F040000))
  /\ (p = PLATFORM_PI_BCM2836 <->
        ~ emulator /\ ~ present (mem 0xFE00B898)
        /\ present (mem 0x3F00B898) /\ ~ present (mem 0x3F040000))
  /\ (p = PLATFORM_PI_BCM2835 <->
        ~ emulator /\ ~ present (mem 0xFE00B898) /\ ~ present (mem 0x3F00B898)).
Proof.
  cbv zeta. unfold detect_platform.
  change (QEMU_PL050_KBD_BASE + 0x04) with 0x10007004.
  change (BCM2711_PERIPHERAL_BASE + MAILBOX_OFFSET + 0x18) with 0xFE00B898.
  change (BCM2836_PERIPHERAL_BASE + MAILBOX_OFFSET + 0x18) with 0x3F00B898.
  change (BCM2836_PERIPHERAL_BASE + 0x40000) with 0x3F040000.
  pose proof (safe_peek32_present mem 0x10007004) as Hk.
  pose proof (safe_peek32_value mem 0x10007004) as Hv.
  pose proof (safe_peek32_present mem 0xFE00B898) as H4.
  pose proof (safe_peek32_present mem 0x3F00B898) as H3.
  pose proof (safe_peek32_present mem 0x3F040000) as Ht.
  destruct (safe_peek32 mem 0x10007004) as [ok v]. cbn [fst snd] in Hk, Hv. subst v.
  assert (He : ok && negb (Z.land (uint32 (mem 0x10007004)) 0xFF =? 0xFF) = true
               <-> present (mem 0x10007004)
                   /\ Z.land (uint32 (mem 0x10007004)) 0xFF <> 0xFF).
  { rewrite andb_true_iff, negb_true_iff, Z.eqb_neq, Hk. reflexivity. }
  destruct (ok && _) eqn:Hb.
  { assert (Hem : present (mem 0x10007004)
                  /\ Z.land (uint32 (mem 0x10007004)) 0xFF <> 0xFF) by now apply He.
    decision_case. }
  assert (Hne : ~ (present (mem 0x10007004)
                   /\ Z.land (uint32 (mem 0x10007004)) 0xFF <> 0xFF)).
  { intros H. apply He in H. discriminate. }
  clear He Hk.
  destruct (fst (safe_peek32 mem 0xFE00B898)).
  { assert (present (mem 0xFE00B898)) by now apply H4.
    decision_case. }
  assert (~ present (mem 0xFE00B898)) by (intros H; apply H4 in H; discriminate).
  destruct (fst (safe_peek32 mem 0x3F00B898)).
  { assert (present (mem 0x3F00B898)) by now apply H3.
    destruct (fst (safe_peek32 mem 0x3F040000)).
    - assert (present (mem 0x3F040000)) by now apply Ht.
      decision_case.
    - assert (~ present (mem 0x3F040000)) by (intros H'; apply Ht in H'; discriminate).
      decision_case. }
  assert (~ present (mem 0x3F00B898)) by (intros H'; apply H3 in H'; discriminate).
  decision_case.
Qed.

Lemma detect_platform_profile_witness :
  fst (detect_platform pi2_memory boot_world) = PLATFORM_PI_BCM2836
  /\ mailbox_base (current_platform (snd (detect_platform pi2_memory boot_world)))
     = peripheral_base (current_platform (snd (detect_platform pi2_memory boot_world)))
       + MAILBOX_OFFSET.
Proof.
  destruct (detect_platform_profile pi2_memory boot_world) as (_ & _ & _ & H & _).
  split; [reflexivity |].
  apply H. discriminate.
Defined.

Lemma detect_platform_decision_witness :
  fst (detect_platform pi2_memory boot_world) = PLATFORM_PI_BCM2836.
Proof.
  destruct (detect_platform_decision pi2_memory boot_world) as (_ & _ & _ & H & _).
  apply H.
  split; [intros [[_ B] _]; now apply B |].
  split; [intros [_ B]; now apply B |].
  split; [split; intros E; vm_compute in E; discriminate E |].
  intros [_ B]. now apply B.
Defined.

(** ** Display resolution *)

Lemma fallback_resolution_positive p :
  0 < fst (fallback_resolution p) /\ 0 < snd (fallback_resolution p).
Proof. destruct p; cbn; lia. Qed.

Lemma detect_display_resolution_positive fw w :
  0 < fst (snd (detect_display_resolution fw w))
  /\ 0 < snd (snd (detect_display_resolution fw w)).
Proof.
  unfold detect_display_resolution.
  destruct (platform_eqb _ _); [cbn; lia |].
  destruct (negb (mailbox_available w)); [cbn; lia |].
  destruct (Z.eqb_spec (Req.code (fw resolution_request)) 0x80000000) as [Hc | Hc];
    destruct (Z.ltb_spec 0 (Req.physical_width (fw resolution_request))) as [Hw | Hw];
    destruct (Z.ltb_spec 0 (Req.physical_height (fw resolution_request))) as [Hh | Hh];
    cbn [andb fst snd]; try apply fallback_resolution_positive.
  split; assumption.
Qed.

(** X3: [detect_display_resolution] never leaves the caller without a geometry:
    the status is 0 or -1 and the width and height are positive either way.
    Status 0 means the emulator's fixed 640x480 or, on a platform with a
    mailbox, a reply with code 0x80000000 and a non-zero size, whose size is
    then returned as it is; on any other reply the geometry is the platform's
    entry of the fallback table. *)
Theorem detect_display_resolution_total (fw : firmware) (w : world) :
  let r := detect_display_resolution fw w in
  let p := platform (current_platform w) in
  let reply := fw resolution_request in
  (fst r = 0 \/ fst r = -1)
  /\ 0 < fst (snd r) /\ 0 < snd (snd r)
  /\ (p = PLATFORM_QEMU_VERSATILE -> r = (0, (640, 480)))
  /\ (p <> PLATFORM_QEMU_VERSATILE -> mailbox_base (current_platform w) = 0 ->
        r = (-1, (640, 480)))
  /\ (p <> PLATFORM_QEMU_VERSATILE -> mailbox_base (current_platform w) <> 0 ->
        (Req.code reply = 0x80000000 /\ 0 < Req.physical_width reply
         /\ 0 < Req.physical_height reply ->
           r = (0, (Req.physical_width reply, Req.physical_height reply)))
        /\ (~ (Req.code reply = 0x80000000 /\ 0 < Req.physical_width reply
               /\ 0 < Req.physical_height reply) ->
           r = (-1, fallback_resolution p))).
Proof.
  cbv zeta. unfold detect_display_resolution, mailbox_available.
  destruct (platform_eqb _ _) eqn:Hq.
  { apply platform_eqb_eq in Hq.
    cbn [fst snd]. repeat split; auto; try lia; intros; congruence. }
  apply platform_eqb_neq in Hq. cbn [andb negb].
  destruct (Z.eqb_spec (mailbox_base (current_platform w)) 0) as [Hm | Hm]; cbn [negb andb].
  { cbn [fst snd]. repeat split; auto; try lia; intros; congruence. }
  destruct (Z.eqb_spec (Req.code (fw resolution_request)) 0x80000000) as [Hc | Hc];
    destruct (Z.ltb_spec 0 (Req.physical_width (fw resolution_request))) as [Hw | Hw];
    destruct (Z.ltb_spec 0 (Req.physical_height (fw resolution_request))) as [Hh | Hh];
    cbn [andb fst snd];
    (split; [auto |]);
    (split; [try assumption; destruct (platform (current_platform w)); cbn; lia |]);
    (split; [try assumption; destruct (platform (current_platform w)); cbn; lia |]);
    (split; [intros; congruence |]);
    (split; [intros; congruence |]);
    intros _ _; split; intros H; try reflexivity; try tauto; try lia;
    exfalso; apply H; auto.
Qed.

Lemma detect_display_resolution_total_witness :
  detect_display_resolution failing_firmware
    (set_current_platform
       (pi_profile PLATFORM_PI_BCM2836 BCM2836_PERIPHERAL_BASE "Raspberry Pi 2 (BCM2836)")
       boot_world)
  = (-1, (1280, 1024)).
Proof.
  destruct (detect_display_resolution_total failing_firmware
              (set_current_platform
                 (pi_profile PLATFORM_PI_BCM2836 BCM2836_PERIPHERAL_BASE
                    "Raspberry Pi 2 (BCM2836)") boot_world))
    as (_ & _ & _ & _ & _ & H).
  destruct H as [_ H]; [discriminate | discriminate |].
  apply H. intros (E & _). discriminate E.
Defined.

(** X4: the fallback switch of [universal_console_init] is redundant after
    [detect_platform]: every profile the detector produces either is the
    emulator or has a mailbox, so the geometry passed on to
    [setup_framebuffer] is the one [detect_display_resolution] left, and it is
    never zero. *)
Theorem initial_resolution_after_detection (mem : Z -> Z) (fw : firmware) (w : world) :
  let w1 := detected mem w in
  initial_resolution fw w1 = snd (detect_display_resolution fw w1)
  /\ 0 < fst (initial_resolution fw w1)
  /\ 0 < snd (initial_resolution fw w1).
Proof.
  cbv zeta.
  assert (E : initial_resolution fw (detected mem w)
              = snd (detect_display_resolution fw (detected mem w))).
  { unfold initial_resolution.
    pose proof (detected_mailbox mem w) as Hm.
    unfold detect_display_resolution in *.
    destruct (platform_eqb _ _) eqn:Hq; [reflexivity |].
    apply platform_eqb_neq in Hq. rewrite (Hm Hq). cbn [negb].
    destruct (_ && _); [reflexivity |].
    cbn [Z.eqb negb snd fallback_resolution].
    destruct (platform (current_platform (detected mem w))); try reflexivity.
    now contradiction Hq. }
  rewrite E.
  destruct (detect_display_resolution_positive fw (detected mem w)) as [W H].
  auto.
Qed.

(** ** Framebuffer setup: the failure path *)

(** X5: [setup_framebuffer] returns 0 or -1.  It fails exactly when the platform is
    not the emulator and either has no mailbox or gets a reply whose code is
    not 0x80000000, and a failed call changes nothing at all: no field of the
    console is written before the reply has been checked. *)
Theorem setup_framebuffer_fails_cleanly
        (fw : firmware) (req_width req_height : Z) (w : world) :
  let r := setup_framebuffer fw req_width req_height w in
  (fst r = 0 \/ fst r = -1)
  /\ (fst r = -1 <->
        platform (current_platform w) <> PLATFORM_QEMU_VERSATILE
        /\ (mailbox_base (current_platform w) = 0
            \/ Req.code (fw (fb_request req_width req_height)) <> 0x80000000))
  /\ (fst r = -1 -> snd r = w)
  /\ current_platform (snd r) = current_platform w
  /\ buffer (console (snd r)) = buffer (console w)
  /\ trace (snd r) = trace w.
Proof.
  cbv zeta.
  pose proof (setup_framebuffer_status fw req_width req_height w) as S.
  pose proof (setup_framebuffer_failure fw req_width req_height w) as F.
  assert (Hframe : current_platform (snd (setup_framebuffer fw req_width req_height w))
                   = current_platform w
                   /\ buffer (console (snd (setup_framebuffer fw req_width req_height w)))
                      = buffer (console w)
                   /\ trace (snd (setup_framebuffer fw req_width req_height w)) = trace w).
  { unfold setup_framebuffer.
    destruct (platform_eqb _ _); [repeat split |].
    destruct (negb (mailbox_available w)); [repeat split |].
    destruct (negb _); [repeat split |].
    cbn [snd]. split; [reflexivity | split; [| reflexivity]].
    rewrite !console_upd_console.
    repeat match goal with
           | |- context [if ?b then _ else _] => destruct b
           end; reflexivity. }
  unfold mailbox_available in S.
  destruct (platform_eqb _ _) eqn:Hq.
  - apply platform_eqb_eq in Hq. rewrite S.
    split; [auto |]. split; [| split; [discriminate | exact Hframe]].
    split; [discriminate | intros [H _]; contradiction].
  - apply platform_eqb_neq in Hq. cbn [andb negb] in S.
    destruct (Z.eqb_spec (mailbox_base (current_platform w)) 0) as [Hm | Hm];
      cbn [negb] in S.
    + rewrite S in *. split; [auto |]. split; [| split; [intros _; apply F; discriminate |
                                                          exact Hframe]].
      split; [auto | reflexivity].
    + destruct (Z.eqb_spec (Req.code (fw (fb_request req_width req_height))) 0x80000000)
        as [Hc | Hc]; rewrite S in *.
      * split; [auto |]. split; [| split; [discriminate | exact Hframe]].
        split; [discriminate | intros [_ [H | H]]; contradiction].
      * split; [auto |]. split; [| split; [intros _; apply F; discriminate | exact Hframe]].
        split; [auto | reflexivity].
Qed.

Lemma setup_framebuffer_fails_cleanly_witness :
  let w := set_current_platform
             (pi_profile PLATFORM_PI_BCM2835 BCM2835_PERIPHERAL_BASE
                "Raspberry Pi 1/Zero (BCM2835)") boot_world in
  snd (setup_framebuffer failing_firmware 1024 768 w) = w.
Proof.
  cbv zeta.
  refine (proj1 (proj2 (proj2 (setup_framebuffer_fails_cleanly failing_firmware 1024 768 _))) _).
  reflexivity.
Defined.

(** ** The cell grid *)

Lemma cell_at_insert_same (cells : list console_cell_t) z x :
  0 <= z < Z.of_nat (length cells) -> cell_at (<[Z.to_nat z := x]> cells) z = x.
Proof.
  intros H. unfold cell_at. rewrite list_lookup_insert_eq by lia. reflexivity.
Qed.

Lemma cell_at_insert_other (cells : list console_cell_t) z z' x :
  0 <= z -> 0 <= z' -> z <> z' -> cell_at (<[Z.to_nat z := x]> cells) z' = cell_at cells z'.
Proof.
  intros H H' Hne. unfold cell_at. rewrite list_lookup_insert_ne by lia. reflexivity.
Qed.

Lemma cell_at_alter_same (cells : list console_cell_t) f z :
  0 <= z < Z.of_nat (length cells) ->
  cell_at (alter f (Z.to_nat z) cells) z = f (cell_at cells z).
Proof.
  intros H. unfold cell_at.
  destruct (lookup_lt_is_Some_2 cells (Z.to_nat z) ltac:(lia)) as [x Hx].
  rewrite list_lookup_alter_eq, Hx. reflexivity.
Qed.

Lemma cell_at_alter_other (cells : list console_cell_t) f z z' :
  0 <= z -> 0 <= z' -> z <> z' -> cell_at (alter f (Z.to_nat z) cells) z' = cell_at cells z'.
Proof.
  intros H H' Hne. unfold cell_at. rewrite list_lookup_alter_ne by lia. reflexivity.
Qed.

(** Inside the grid [get_cell] is the row-major index. *)
Lemma get_cell_in_grid c line col :
  grid_ok c -> 0 <= line < buffer_lines c -> 0 <= col < console_cols c ->
  get_cell c line col = Some (line * console_cols c + col)
  /\ 0 <= line * console_cols c + col < buffer_lines c * console_cols c.
Proof.
  intros (Hb & Hc & Hlen & Hw) Hl Hk.
  assert (Hle : (line + 1) * console_cols c <= buffer_lines c * console_cols c)
    by (apply Z.mul_le_mono_nonneg_r; lia).
  assert (Hpos : 0 <= line * console_cols c) by (apply Z.mul_nonneg_nonneg; lia).
  split; [| lia].
  unfold get_cell.
  destruct (Z.leb_spec (console_cols c) col); [lia |].
  destruct (Z.leb_spec (buffer_lines c) line); [lia |].
  cbn [orb]. rewrite uint32_small by lia. reflexivity.
Qed.

Lemma get_cell_some c line col idx :
  grid_ok c -> 0 <= line -> 0 <= col -> get_cell c line col = Some idx ->
  line < buffer_lines c /\ col < console_cols c
  /\ idx = line * console_cols c + col
  /\ 0 <= idx < buffer_lines c * console_cols c.
Proof.
  intros Hgrid Hl Hk H.
  assert (Hin : line < buffer_lines c /\ col < console_cols c).
  { unfold get_cell in H.
    destruct (Z.leb_spec (console_cols c) col); [discriminate |].
    destruct (Z.leb_spec (buffer_lines c) line); [discriminate |]. lia. }
  destruct (get_cell_in_grid c line col Hgrid) as [E R]; try lia.
  rewrite E in H. injection H as <-. repeat split; lia.
Qed.

Lemma get_cell_injective c line col line' col' idx :
  grid_ok c -> 0 <= line -> 0 <= col -> 0 <= line' -> 0 <= col' ->
  get_cell c line col = Some idx -> get_cell c line' col' = Some idx ->
  line = line' /\ col = col'.
Proof.
  intros Hgrid Hl Hk Hl' Hk' H H'.
  destruct (get_cell_some c line col idx Hgrid Hl Hk H) as (A1 & A2 & A3 & A4).
  destruct (get_cell_some c line' col' idx Hgrid Hl' Hk' H') as (B1 & B2 & B3 & B4).
  assert (Hcols : 0 < console_cols c) by lia.
  assert (Hq : line = line').
  { assert (Hd : (line * console_cols c + col) / console_cols c
                 = (line' * console_cols c + col') / console_cols c) by congruence.
    rewrite !(Z.div_add_l _ (console_cols c)) in Hd by lia.
    rewrite !Z.div_small in Hd by lia. lia. }
  subst line'. split; [reflexivity | lia].
Qed.

(** X6: [get_cell] refuses exactly the coordinates outside the grid, points
    inside the array behind [buffer] for all others, and never gives two
    cells of the grid the same slot. *)
Theorem get_cell_bounds (c : universal_console_t) :
  grid_ok c ->
  (forall line col,
      get_cell c line col = None <-> console_cols c <= col \/ buffer_lines c <= line)
  /\ (forall line col idx,
        0 <= line -> 0 <= col -> get_cell c line col = Some idx ->
        idx = line * console_cols c + col
        /\ 0 <= idx < Z.of_nat (length (buffer c)))
  /\ (forall line col line' col' idx,
        0 <= line -> 0 <= col -> 0 <= line' -> 0 <= col' ->
        get_cell c line col = Some idx -> get_cell c line' col' = Some idx ->
        line = line' /\ col = col').
Proof.
  intros Hgrid.
  split; [| split].
  - intros line col. unfold get_cell.
    destruct (Z.leb_spec (console_cols c) col) as [Hk | Hk];
      destruct (Z.leb_spec (buffer_lines c) line) as [Hl | Hl];
      cbn [orb]; split; intros H; try reflexivity; try discriminate; lia.
  - intros line col idx Hl Hk H.
    destruct (get_cell_some c line col idx Hgrid Hl Hk H) as (_ & _ & E & R).
    destruct Hgrid as (_ & _ & Hlen & _). split; [exact E | lia].
  - intros line col line' col' idx. now apply get_cell_injective.
Qed.

Lemma get_cell_bounds_witness :
  let c := set_buffer (replicate 12 zero_cell)
             (set_buffer_lines 3 (set_console_cols 4 (console boot_world))) in
  get_cell c 2 3 = Some 11 /\ (get_cell c 3 0 = None <-> 4 <= 0 \/ 3 <= 3).
Proof.
  cbv zeta.
  assert (Hgrid : grid_ok (set_buffer (replicate 12 zero_cell)
                             (set_buffer_lines 3 (set_console_cols 4 (console boot_world))))).
  { unfold grid_ok. cbn. lia. }
  destruct (get_cell_bounds _ Hgrid) as (N & _ & _).
  split; [reflexivity | apply N].
Defined.

(** A loop that stores one value at the slots [f j] leaves that value in each
    of them and every other slot as it was. *)
Lemma for_loop_store (x : console_cell_t) (f : Z -> Z) n (cells : list console_cell_t) :
  (forall j, 0 <= j < Z.of_nat n -> 0 <= f j < Z.of_nat (length cells)) ->
  let cells' := for_loop n 0 (fun j cells => <[Z.to_nat (f j) := x]> cells) cells in
  length cells' = length cells
  /\ (forall j, 0 <= j < Z.of_nat n -> cell_at cells' (f j) = x)
  /\ (forall i, 0 <= i -> (forall j, 0 <= j < Z.of_nat n -> f j <> i) ->
        cell_at cells' i = cell_at cells i).
Proof.
  intros Hf. cbv zeta.
  pose (P := fun (k : Z) (t : list console_cell_t) =>
               length t = length cells
               /\ (forall j, 0 <= j < k -> cell_at t (f j) = x)
               /\ (forall i, 0 <= i -> (forall j, 0 <= j < k -> f j <> i) ->
                     cell_at t i = cell_at cells i)).
  assert (H : P (0 + Z.of_nat n)
                (for_loop n 0 (fun j cells => <[Z.to_nat (f j) := x]> cells) cells)).
  { apply for_loop_invariant.
    - split; [reflexivity | split; [intros; lia | reflexivity]].
    - intros k t Hk (Hl & Hin & Hout).
      split; [now rewrite length_insert | split].
      + intros j Hj.
        pose proof (Hf k ltac:(lia)) as Fk. pose proof (Hf j ltac:(lia)) as Fj.
        destruct (Z.eq_dec (f k) (f j)) as [E | E].
        * rewrite <- E. apply cell_at_insert_same. rewrite Hl. exact Fk.
        * rewrite cell_at_insert_other by lia. apply Hin.
          assert (j <> k) by (intros ->; now apply E). lia.
      + intros i Hi Hne.
        pose proof (Hf k ltac:(lia)) as Fk. pose proof (Hne k ltac:(lia)) as Nk.
        rewrite cell_at_insert_other by lia.
        apply Hout; [exact Hi |]. intros j Hj. apply Hne. lia. }
  destruct H as (Hl & Hin & Hout).
  split; [exact Hl | split].
  - intros j Hj. apply Hin. lia.
  - intros i Hi Hne. apply Hout; [exact Hi |]. intros j Hj. apply Hne. lia.
Qed.

(** ** Initialising the buffer *)

Lemma init_console_buffer_buffer w0 :
  buffer (console (snd (init_console_buffer w0)))
  = for_loop
      (Z.to_nat (Z.min (uint32 (MAX_BUFFER_LINES * console_cols (console w0)))
                   STATIC_BUFFER_CELLS)) 0
      (fun i cells => <[Z.to_nat i := blank_cell COLOR_WHITE COLOR_BLACK]> cells)
      (static_buffer (console w0)).
Proof. reflexivity. Qed.

Lemma static_buffer_null c :
  buffer c = [] -> static_buffer c = replicate (Z.to_nat STATIC_BUFFER_CELLS) zero_cell.
Proof. intros H. unfold static_buffer. now rewrite H. Qed.

(** X7: on first use [init_console_buffer] takes the 720000-cell static array and
    blanks the grid: every cell of every one of the 3000 lines is a space,
    white on black, with no attributes, the cursor is at the top left and the
    window at the top.  The cells of the array behind the grid are not
    touched.  The grid fits the array exactly when the console has at most
    240 columns. *)
Theorem init_console_buffer_blank (w0 : world) :
  buffer (console w0) = [] ->
  0 <= console_cols (console w0) < 2 ^ 31 ->
  let c := console (snd (init_console_buffer w0)) in
  length (buffer c) = Z.to_nat STATIC_BUFFER_CELLS
  /\ (grid_ok c <-> console_cols c <= 240)
  /\ (console_cols c <= 240 ->
      (forall line col,
          0 <= line < buffer_lines c -> 0 <= col < console_cols c ->
          read_cell c line col = Some (blank_cell COLOR_WHITE COLOR_BLACK))
      /\ (forall i,
            buffer_lines c * console_cols c <= i < STATIC_BUFFER_CELLS ->
            cell_at (buffer c) i = zero_cell))
  /\ current_line c = 0 /\ current_col c = 0
  /\ display_start c = 0 /\ scroll_position c = 0.
Proof.
  intros Hnull Hcols. cbv zeta.
  destruct (init_console_buffer_console w0) as (B & L & C & D & P & _ & _ & _ & K).
  cbv zeta in B, L, C, D, P, K.
  rewrite B, K, L, C, D, P.
  pose proof (init_console_buffer_buffer w0) as E.
  rewrite (static_buffer_null _ Hnull) in E.
  set (n := Z.to_nat (Z.min (uint32 (MAX_BUFFER_LINES * console_cols (console w0)))
                        STATIC_BUFFER_CELLS)) in E.
  assert (Hn : Z.of_nat n <= STATIC_BUFFER_CELLS) by (subst n; unfold STATIC_BUFFER_CELLS, MAX_BUFFER_LINES; lia).
  destruct (for_loop_store (blank_cell COLOR_WHITE COLOR_BLACK) (fun j => j) n
              (replicate (Z.to_nat STATIC_BUFFER_CELLS) zero_cell))
    as (Hlen & Hin & Hout).
  { intros j Hj. rewrite length_replicate. lia. }
  cbv zeta beta in Hlen, Hin, Hout. rewrite <- E in Hlen, Hin, Hout.
  rewrite length_replicate in Hlen.
  assert (Hgrid : grid_ok (console (snd (init_console_buffer w0)))
                  <-> console_cols (console w0) <= 240).
  { unfold grid_ok. rewrite B, K, Hlen.
    unfold MAX_BUFFER_LINES, STATIC_BUFFER_CELLS, MAX_BUFFER_LINES. split; intros H; lia. }
  split; [exact Hlen | split; [exact Hgrid | split; [| repeat split]]].
  intros Hfit.
  assert (Hsize : Z.of_nat n = MAX_BUFFER_LINES * console_cols (console w0)).
  { subst n. rewrite uint32_small by (unfold MAX_BUFFER_LINES; lia).
    unfold MAX_BUFFER_LINES, STATIC_BUFFER_CELLS, MAX_BUFFER_LINES. lia. }
  split.
  - intros line col Hl Hk. unfold read_cell.
    destruct (get_cell_in_grid (console (snd (init_console_buffer w0))) line col)
      as [G R]; rewrite ?B, ?K; try assumption; [now apply Hgrid |].
    rewrite G. f_equal. apply Hin. rewrite B, K in R. lia.
  - intros i Hi. rewrite Hout; [| unfold MAX_BUFFER_LINES in *; lia | intros j Hj; lia].
    unfold cell_at. rewrite lookup_replicate_2 by lia. reflexivity.
Qed.

Lemma init_console_buffer_blank_witness :
  read_cell (console (snd (init_console_buffer qemu_world))) 2999 79
  = Some (blank_cell COLOR_WHITE COLOR_BLACK).
Proof.
  assert (Hnull : buffer (console qemu_world) = []) by reflexivity.
  assert (Hcols : 0 <= console_cols (console qemu_world) < 2 ^ 31)
    by (change (console_cols (console qemu_world)) with 80; lia).
  destruct (init_console_buffer_blank qemu_world Hnull Hcols) as (_ & _ & H & _).
  cbv zeta in H.
  destruct (init_console_buffer_console qemu_world) as (B & _ & _ & _ & _ & _ & _ & _ & K).
  cbv zeta in B, K.
  change (console_cols (console qemu_world)) with 80 in K.
  destruct H as [H _]; [rewrite K; lia |].
  apply H; rewrite ?B, ?K; unfold MAX_BUFFER_LINES; lia.
Defined.

(** ** What the shift-scroll moves *)

(** The copy loops of [scroll_buffer_up]: slot [i] receives what slot
    [i + console_cols] held, for every slot above the last line. *)
Lemma scroll_copy (cols bl : Z) (old : list console_cell_t) :
  1 <= bl -> 0 <= cols -> bl * cols <= Z.of_nat (length old) -> bl * cols < 2 ^ 32 ->
  let cells' :=
    for_loop (Z.to_nat (bl - 1)) 0
      (fun line cells =>
         for_loop (Z.to_nat cols) 0
           (fun col cells =>
              let src_idx := uint32 (uint32 (line + 1) * cols + col) in
              let dst_idx := uint32 (line * cols + col) in
              <[Z.to_nat dst_idx := cell_at cells src_idx]> cells)
           cells)
      old in
  length cells' = length old
  /\ forall i, 0 <= i < bl * cols ->
       cell_at cells' i
       = if i <? (bl - 1) * cols then cell_at old (i + cols) else cell_at old i.
Proof.
  intros Hbl Hcols Hlen Hw. cbv zeta.
  pose (Inv := fun (k : Z) (t : list console_cell_t) =>
                 length t = length old
                 /\ forall i, 0 <= i < bl * cols ->
                      cell_at t i = if i <? k then cell_at old (i + cols) else cell_at old i).
  assert (Houter :
            (fun (j : Z) t => Inv (j * cols) t) (0 + Z.of_nat (Z.to_nat (bl - 1)))
              (for_loop (Z.to_nat (bl - 1)) 0
                 (fun line cells =>
                    for_loop (Z.to_nat cols) 0
                      (fun col cells =>
                         <[Z.to_nat (uint32 (line * cols + col)) :=
                             cell_at cells (uint32 (uint32 (line + 1) * cols + col))]> cells)
                      cells)
                 old)).
  { apply for_loop_invariant.
    - split; [reflexivity |]. intros i Hi.
      destruct (Z.ltb_spec i (0 * cols)); [lia | reflexivity].
    - intros j t Hj Ht. cbv beta.
      assert (Hj2 : (j + 2) * cols <= bl * cols) by (apply Z.mul_le_mono_nonneg_r; lia).
      assert (Hj0 : 0 <= j * cols) by (apply Z.mul_nonneg_nonneg; lia).
      assert (Hinner :
                (fun (k : Z) u => Inv (j * cols + k) u) (0 + Z.of_nat (Z.to_nat cols))
                  (for_loop (Z.to_nat cols) 0
                     (fun col cells =>
                        <[Z.to_nat (uint32 (j * cols + col)) :=
                            cell_at cells (uint32 (uint32 (j + 1) * cols + col))]> cells)
                     t)).
      { apply for_loop_invariant.
        - cbv beta. now rewrite Z.add_0_r.
        - intros k u Hk [Hl Hu]. cbv beta.
          rewrite (uint32_small (j + 1)) by lia.
          rewrite (uint32_small (j * cols + k)) by lia.
          rewrite (uint32_small ((j + 1) * cols + k)) by lia.
          split; [now rewrite length_insert |].
          intros i Hi.
          destruct (Z.eq_dec i (j * cols + k)) as [-> | Hne].
          + rewrite cell_at_insert_same by lia.
            rewrite Hu by lia.
            destruct (Z.ltb_spec ((j + 1) * cols + k) (j * cols + k)); [lia |].
            destruct (Z.ltb_spec (j * cols + k) (j * cols + (k + 1))); [| lia].
            f_equal. lia.
          + rewrite cell_at_insert_other by lia.
            rewrite Hu by lia.
            destruct (Z.ltb_spec i (j * cols + k));
              destruct (Z.ltb_spec i (j * cols + (k + 1))); try reflexivity; lia. }
      cbv beta in Hinner.
      replace (j * cols + (0 + Z.of_nat (Z.to_nat cols))) with ((j + 1) * cols) in Hinner by lia.
      exact Hinner. }
  cbv beta in Houter.
  replace ((0 + Z.of_nat (Z.to_nat (bl - 1))) * cols) with ((bl - 1) * cols) in Houter
    by (rewrite Z2Nat.id by lia; lia).
  exact Houter.
Qed.

Lemma scroll_buffer_up_cells (w : world) :
  grid_ok (console w) ->
  let c := console w in
  let c' := console (scroll_buffer_up w) in
  (forall line col,
      0 <= line < buffer_lines c - 1 -> 0 <= col < console_cols c ->
      read_cell c' line col = read_cell c (line + 1) col)
  /\ (forall col,
        0 <= col < console_cols c ->
        read_cell c' (buffer_lines c - 1) col
        = Some (blank_cell (current_fg c) (current_bg c)))
  /\ length (buffer c') = length (buffer c).
Proof.
  intros Hgrid. cbv zeta.
  pose proof Hgrid as (Hb & Hc & Hlen & Hw).
  assert (E : buffer (console (scroll_buffer_up w))
              = for_loop (Z.to_nat (console_cols (console w))) 0
                  (fun col cells =>
                     <[Z.to_nat
                         ((fun j =>
                             uint32 (uint32 (uint32 (buffer_lines (console w) - 1)
                                             * console_cols (console w)) + j)) col) :=
                         blank_cell (current_fg (console w)) (current_bg (console w))]> cells)
                  (for_loop (Z.to_nat (uint32 (buffer_lines (console w) - 1))) 0
                     (fun line cells =>
                        for_loop (Z.to_nat (console_cols (console w))) 0
                          (fun col cells =>
                             <[Z.to_nat (uint32 (line * console_cols (console w) + col)) :=
                                 cell_at cells
                                   (uint32 (uint32 (line + 1) * console_cols (console w)
                                            + col))]> cells)
                          cells)
                     (buffer (console w))))
    by reflexivity.
  assert (Hc' : console (scroll_buffer_up w)
                = set_buffer (buffer (console (scroll_buffer_up w))) (console w))
    by reflexivity.
  set (bl := buffer_lines (console w)) in *.
  set (cols := console_cols (console w)) in *.
  assert (Hlast0 : 0 <= (bl - 1) * cols) by (apply Z.mul_nonneg_nonneg; lia).
  assert (Hmul : bl * cols = (bl - 1) * cols + cols) by ring.
  rewrite (uint32_small (bl - 1)) in E by lia.
  destruct (scroll_copy cols bl (buffer (console w))) as [Clen Ccopy]; try lia.
  cbv zeta in Clen, Ccopy.
  set (copied := for_loop (Z.to_nat (bl - 1)) 0 _ (buffer (console w))) in *.
  set (f := fun j => uint32 (uint32 ((bl - 1) * cols) + j)) in *.
  assert (Hf : forall j, 0 <= j < cols -> f j = (bl - 1) * cols + j).
  { intros j Hj. unfold f. rewrite (uint32_small ((bl - 1) * cols)) by lia.
    apply uint32_small. lia. }
  destruct (for_loop_store
              (blank_cell (current_fg (console w)) (current_bg (console w)))
              f (Z.to_nat cols) copied) as (Slen & Sin & Sout).
  { intros j Hj. rewrite Hf by lia. lia. }
  cbv zeta in Slen, Sin, Sout.
  change (buffer (console (scroll_buffer_up w))
          = for_loop (Z.to_nat cols) 0
              (fun j cells =>
                 <[Z.to_nat (f j) :=
                     blank_cell (current_fg (console w)) (current_bg (console w))]> cells)
              copied) in E.
  rewrite <- E in Slen, Sin, Sout.
  assert (Hgrid' : grid_ok (console (scroll_buffer_up w))).
  { apply (grid_ok_ext (console w)); try (rewrite Hc'; reflexivity); [| exact Hgrid].
    congruence. }
  assert (Hcols' : console_cols (console (scroll_buffer_up w)) = cols) by now rewrite Hc'.
  assert (Hbl' : buffer_lines (console (scroll_buffer_up w)) = bl) by now rewrite Hc'.
  split; [| split; [| congruence]].
  - intros line col Hl Hk. unfold read_cell.
    destruct (get_cell_in_grid (console (scroll_buffer_up w)) line col Hgrid')
      as [G R]; rewrite ?Hcols', ?Hbl'; try lia.
    destruct (get_cell_in_grid (console w) (line + 1) col Hgrid) as [G1 R1];
      fold bl cols; try lia.
    rewrite G, G1. f_equal. rewrite Hcols'. fold cols.
    assert (Hline : (line + 2) * cols <= bl * cols)
      by (apply Z.mul_le_mono_nonneg_r; lia).
    assert (Hline0 : 0 <= line * cols) by (apply Z.mul_nonneg_nonneg; lia).
    rewrite Sout; [| lia | intros j Hj; rewrite Hf by lia; lia].
    rewrite Ccopy by lia.
    destruct (Z.ltb_spec (line * cols + col) ((bl - 1) * cols)); [f_equal; lia | lia].
  - intros col Hk. unfold read_cell.
    destruct (get_cell_in_grid (console (scroll_buffer_up w)) (bl - 1) col Hgrid')
      as [G R]; rewrite ?Hcols', ?Hbl'; try lia.
    rewrite G, Hcols'. f_equal.
    rewrite <- (Hf col) by lia. apply Sin. lia.
Qed.

(** X8: a shift-scroll moves every line one position toward line 0 and clears the
    last line to a space in the current colours; the line that was at the top
    is lost.  Nothing else in the console changes. *)
Theorem scroll_buffer_up_shifts (w : world) :
  grid_ok (console w) ->
  let c := console w in
  let c' := console (scroll_buffer_up w) in
  (forall line col,
      0 <= line < buffer_lines c - 1 -> 0 <= col < console_cols c ->
      read_cell c' line col = read_cell c (line + 1) col)
  /\ (forall col,
        0 <= col < console_cols c ->
        read_cell c' (buffer_lines c - 1) col
        = Some (blank_cell (current_fg c) (current_bg c)))
  /\ length (buffer c') = length (buffer c)
  /\ c' = set_buffer (buffer c') c
  /\ current_platform (scroll_buffer_up w) = current_platform w
  /\ vram (scroll_buffer_up w) = vram w
  /\ trace (scroll_buffer_up w) = EvShiftScroll :: trace w.
Proof.
  intros Hgrid. cbv zeta.
  destruct (scroll_buffer_up_cells w Hgrid) as (Hshift & Hlast & Hlen).
  split; [exact Hshift | split; [exact Hlast | split; [exact Hlen |]]].
  repeat split.
Qed.

Lemma scroll_buffer_up_shifts_witness :
  let w := upd_console
             (fun c => set_buffer
                         [blank_cell 1 0; blank_cell 2 0; blank_cell 3 0;
                          blank_cell 4 0; blank_cell 5 0; blank_cell 6 0]
                         (set_buffer_lines 3 (set_console_cols 2 c))) boot_world in
  read_cell (console (scroll_buffer_up w)) 0 1 = read_cell (console w) 1 1
  /\ read_cell (console (scroll_buffer_up w)) 2 0 = Some (blank_cell 0 0).
Proof.
  cbv zeta.
  match goal with
  | |- read_cell (console (scroll_buffer_up ?w0)) 0 1 = _ /\ _ =>
      assert (Hgrid : grid_ok (console w0)) by (unfold grid_ok; cbn; lia);
      destruct (scroll_buffer_up_shifts w0 Hgrid) as (H1 & H2 & _)
  end.
  split; [apply H1 | apply (H2 0)]; cbn; lia.
Defined.

(** ** Tab stops *)

Lemma land_clear_low3 x : 0 <= x < 2 ^ 32 -> Z.land x (uint32 (Z.lnot 7)) = 8 * (x / 8).
Proof.
  intros Hx.
  change (uint32 (Z.lnot 7)) with (Z.shiftl (Z.ones 29) 3).
  replace (8 * (x / 8)) with (Z.shiftl (Z.shiftr x 3) 3)
    by (rewrite Z.shiftl_mul_pow2, Z.shiftr_div_pow2 by lia; change (2 ^ 3) with 8; lia).
  apply Z.bits_inj'. intros n Hn.
  rewrite Z.land_spec.
  destruct (Z.ltb_spec n 3) as [Hlow | Hhigh].
  - rewrite !Z.shiftl_spec_low by lia. apply andb_false_r.
  - rewrite !Z.shiftl_spec by lia. rewrite Z.shiftr_spec by lia.
    replace (n - 3 + 3) with n by lia.
    destruct (Z.ltb_spec n 32) as [Hin | Hout].
    + rewrite Z.ones_spec_low by lia. apply andb_true_r.
    + rewrite Z.ones_spec_high by lia. rewrite andb_false_r.
      symmetry. apply Z.bits_above_log2; [lia |].
      destruct (Z.eq_dec x 0) as [-> | Hx0]; [cbn; lia |].
      apply Z.log2_lt_pow2; [lia |].
      apply Z.lt_le_trans with (2 ^ 32); [lia |].
      apply Z.pow_le_mono_r; lia.
Qed.

(** ** Writing characters *)

Lemma printable_not_control ch :
  is_printable ch = true ->
  Ascii.eqb ch "010" = false /\ Ascii.eqb ch "013" = false
  /\ Ascii.eqb ch "009" = false /\ Ascii.eqb ch "008" = false.
Proof.
  unfold is_printable. intros H. apply andb_true_iff in H as [H _].
  apply Z.leb_le in H.
  repeat split; apply Ascii.eqb_neq; intros ->; vm_compute in H; now apply H.
Qed.

Lemma read_cell_ext c c' line col :
  console_cols c' = console_cols c -> buffer_lines c' = buffer_lines c ->
  buffer c' = buffer c -> read_cell c' line col = read_cell c line col.
Proof. unfold read_cell, get_cell. intros -> -> ->. reflexivity. Qed.

Lemma same_layout_grid c c' : same_layout c c' -> grid_ok c -> grid_ok c'.
Proof.
  intros (K & _ & B & _ & _ & _ & _ & _ & Len). now apply grid_ok_ext.
Qed.

(** Changing the cell under the cursor by [f] changes that cell and no
    other. *)
Lemma alter_cursor_cell (f : console_cell_t -> console_cell_t) c idx :
  grid_ok c -> cursor_in_grid c ->
  get_cell c (current_line c) (current_col c) = Some idx ->
  let c' := set_buffer (alter f (Z.to_nat idx) (buffer c)) c in
  read_cell c' (current_line c) (current_col c)
  = Some (f (cell_at (buffer c) idx))
  /\ (forall line col,
        0 <= line -> 0 <= col -> (line, col) <> (current_line c, current_col c) ->
        read_cell c' line col = read_cell c line col)
  /\ length (buffer c') = length (buffer c).
Proof.
  intros Hgrid [Hl Hk] Hget. cbv zeta.
  pose proof Hgrid as (_ & _ & Hfit & _).
  destruct (get_cell_some c (current_line c) (current_col c) idx Hgrid
              ltac:(lia) ltac:(lia) Hget) as (_ & _ & _ & Hidx).
  split; [| split].
  - unfold read_cell.
    change (get_cell (set_buffer _ c) (current_line c) (current_col c))
      with (get_cell c (current_line c) (current_col c)).
    rewrite Hget. cbn [buffer set_buffer]. rewrite cell_at_alter_same by lia. reflexivity.
  - intros line col Hl0 Hk0 Hne. unfold read_cell.
    change (get_cell (set_buffer _ c) line col) with (get_cell c line col).
    destruct (get_cell c line col) as [idx' |] eqn:Hget'; [| reflexivity].
    cbn [buffer set_buffer]. f_equal.
    destruct (get_cell_some c line col idx' Hgrid Hl0 Hk0 Hget') as (_ & _ & _ & Hidx').
    apply cell_at_alter_other; try lia.
    intros ->. apply Hne.
    destruct (get_cell_injective c line col (current_line c) (current_col c) idx' Hgrid
                Hl0 Hk0 ltac:(lia) ltac:(lia) Hget' Hget) as [-> ->].
    reflexivity.
  - cbn [buffer set_buffer]. apply length_alter.
Qed.

(** The printable case of [console_putchar] up to its wrap test. *)
Lemma console_putchar_printable_shape ch w :
  is_printable ch = true ->
  grid_ok (console w) -> cursor_in_grid (console w) ->
  console_cols (console w) < 2 ^ 31 ->
  exists w1,
    console_putchar ch w
    = (if console_cols (console w) <=? current_col (console w) + 1
       then putchar_newline w1 else w1)
    /\ read_cell (console w1) (current_line (console w)) (current_col (console w))
       = Some (written_cell ch (console w))
    /\ (forall line col,
          0 <= line -> 0 <= col ->
          (line, col) <> (current_line (console w), current_col (console w)) ->
          read_cell (console w1) line col = read_cell (console w) line col)
    /\ current_col (console w1) = current_col (console w) + 1
    /\ total_chars (console w1) = uint32 (total_chars (console w) + 1)
    /\ same_layout (console w) (console w1)
    /\ trace w1 = trace w.
Proof.
  intros Hp Hgrid Hcur Hcols.
  destruct (printable_not_control ch Hp) as (N1 & N2 & N3 & N4).
  pose proof Hcur as [Hl Hk].
  destruct (get_cell_in_grid (console w) _ _ Hgrid Hl Hk) as [Hget _].
  destruct (alter_cursor_cell
              (fun cell => set_attributes 0
                             (set_background (current_bg (console w))
                                (set_foreground (current_fg (console w))
                                   (set_character ch cell))))
              (console w) _ Hgrid Hcur Hget) as (Hw & Hframe & Hlen).
  cbv zeta in Hw, Hframe, Hlen.
  set (c1 := set_buffer _ (console w)) in *.
  exists (upd_console (fun con => set_total_chars (uint32 (total_chars con + 1)) con)
            (upd_console (fun con => set_current_col (uint32 (current_col con + 1)) con)
               (set_console c1 w))).
  split; [| split; [| split; [| split; [| split; [| split]]]]].
  - unfold console_putchar. rewrite N1, N2, N3, N4.
    unfold is_printable in Hp. rewrite Hp. rewrite Hget.
    cbn [upd_console console set_console current_col set_total_chars set_current_col
         console_cols set_buffer].
    rewrite (uint32_small (current_col (console w) + 1)) by lia.
    reflexivity.
  - erewrite read_cell_ext; [exact Hw | reflexivity ..].
  - intros line col H0 H1 Hne.
    erewrite read_cell_ext; [apply Hframe; assumption | reflexivity ..].
  - cbn. apply uint32_small. lia.
  - reflexivity.
  - repeat split. exact Hlen.
  - reflexivity.
Qed.

Lemma putchar_newline_total_chars w :
  total_chars (console (putchar_newline w)) = total_chars (console w).
Proof.
  unfold putchar_newline.
  set (w1 := upd_console _ (upd_console (set_current_col 0) w)).
  set (w2 := if buffer_lines (console w1) <=? current_line (console w1) then _ else w1).
  assert (H2 : total_chars (console w2) = total_chars (console w)).
  { subst w2. destruct (_ <=? _); reflexivity. }
  clearbody w2.
  destruct (_ <=? current_line (console w2)); exact H2.
Qed.

(** What the newline step does to the text. *)
Lemma putchar_newline_cells w :
  grid_ok (console w) ->
  0 <= current_line (console w) < buffer_lines (console w) ->
  let c := console w in
  let c' := console (putchar_newline w) in
  (current_line c + 1 < buffer_lines c ->
     current_line c' = current_line c + 1
     /\ buffer c' = buffer c
     /\ trace (putchar_newline w) = trace w)
  /\ (current_line c + 1 = buffer_lines c ->
     current_line c' = current_line c
     /\ trace (putchar_newline w) = EvShiftScroll :: trace w
     /\ (forall line col,
           0 <= line < buffer_lines c - 1 -> 0 <= col < console_cols c ->
           read_cell c' line col = read_cell c (line + 1) col)
     /\ (forall col,
           0 <= col < console_cols c ->
           read_cell c' (buffer_lines c - 1) col
           = Some (blank_cell (current_fg c) (current_bg c))))
  /\ current_col c' = 0
  /\ console_cols c' = console_cols c
  /\ buffer_lines c' = buffer_lines c
  /\ length (buffer c') = length (buffer c).
Proof.
  intros Hgrid Hl. cbv zeta.
  pose proof Hgrid as (Hb & _).
  destruct (putchar_newline_effect w) as (L & C & _ & _ & K & B & F & G).
  cbv zeta in L.
  rewrite (uint32_small (current_line (console w) + 1)) in L by lia.
  rewrite (uint32_small (buffer_lines (console w) - 1)) in L by lia.
  destruct (putchar_newline_unfold w) as [Bu Tr]. cbv zeta in Bu, Tr.
  rewrite (uint32_small (current_line (console w) + 1)) in Bu, Tr by lia.
  set (w1 := upd_console (fun c => set_current_line (uint32 (current_line c + 1)) c)
               (upd_console (set_current_col 0) w)) in *.
  assert (Hg1 : grid_ok (console w1)) by (apply (grid_ok_ext (console w)); auto).
  destruct (Z.leb_spec (buffer_lines (console w)) (current_line (console w) + 1))
    as [Hfull | Hroom].
  - destruct (scroll_buffer_up_cells w1 Hg1) as (Hshift & Hlast & Hlen).
    cbv zeta in Hshift, Hlast, Hlen.
    change (buffer (console (upd_console
              (fun c => set_current_line (uint32 (buffer_lines c - 1)) c)
              (scroll_buffer_up w1)))) with (buffer (console (scroll_buffer_up w1))) in Bu.
    assert (Hread : forall line col,
               read_cell (console (putchar_newline w)) line col
               = read_cell (console (scroll_buffer_up w1)) line col).
    { intros line col. apply read_cell_ext; [rewrite K | rewrite B | exact Bu]; reflexivity. }
    split; [intros; lia |].
    split; [| repeat split; try assumption; rewrite Bu; exact Hlen].
    intros _.
    split; [lia | split; [exact Tr | split]].
    + intros line col H1 H2. rewrite Hread. apply (Hshift line col H1 H2).
    + intros col H1. rewrite Hread. apply (Hlast col H1).
  - split; [| split; [intros; lia | repeat split; try assumption; now rewrite Bu]].
    intros _. split; [exact L | split; [exact Bu | exact Tr]].
Qed.

(** X9: a newline keeps every character where it is while lines remain below the
    cursor.  On the last line it is a shift-scroll instead: the cursor stays,
    what was on line [k + 1] is found on line [k], and the last line is blank
    in the current colours.  Either way the column returns to 0. *)
Theorem console_putchar_newline_text (w : world) :
  grid_ok (console w) ->
  0 <= current_line (console w) < buffer_lines (console w) ->
  let c := console w in
  let w' := console_putchar "010" w in
  let c' := console w' in
  current_col c' = 0
  /\ (current_line c + 1 < buffer_lines c ->
        current_line c' = current_line c + 1
        /\ trace w' = trace w
        /\ forall line col, read_cell c' line col = read_cell c line col)
  /\ (current_line c + 1 = buffer_lines c ->
        current_line c' = current_line c
        /\ trace w' = EvShiftScroll :: trace w
        /\ (forall line col,
              0 <= line < buffer_lines c - 1 -> 0 <= col < console_cols c ->
              read_cell c' line col = read_cell c (line + 1) col)
        /\ (forall col,
              0 <= col < console_cols c ->
              read_cell c' (buffer_lines c - 1) col
              = Some (blank_cell (current_fg c) (current_bg c)))).
Proof.
  intros Hgrid Hl. cbv zeta.
  change (console_putchar "010" w) with (putchar_newline w).
  destruct (putchar_newline_cells w Hgrid Hl) as (Hroom & Hfull & C & K & B & _).
  split; [exact C | split; [| exact Hfull]].
  intros Hr. destruct (Hroom Hr) as (L & Bu & T).
  split; [exact L | split; [exact T |]].
  intros line col. now apply read_cell_ext.
Qed.

Lemma console_putchar_newline_text_witness :
  let w := snd (init_console_buffer qemu_world) in
  current_line (console (console_putchar "010" w)) = current_line (console w) + 1.
Proof.
  cbv zeta.
  assert (Hnull : buffer (console qemu_world) = []) by reflexivity.
  assert (Hcols : 0 <= console_cols (console qemu_world) <= 240)
    by (change (console_cols (console qemu_world)) with 80; lia).
  pose proof (init_console_buffer_grid qemu_world Hnull Hcols) as Hgrid.
  destruct (init_console_buffer_console qemu_world) as (B & L & _).
  cbv zeta in B, L.
  generalize dependent (snd (init_console_buffer qemu_world)). intros w Hgrid B L.
  destruct (console_putchar_newline_text w Hgrid) as (_ & H & _);
    [rewrite L, B; unfold MAX_BUFFER_LINES; lia |].
  apply H. rewrite L, B. unfold MAX_BUFFER_LINES. lia.
Defined.

(** X10: a printable character that does not reach the last column is stored under
    the cursor with the current colours and no attributes; the cursor moves
    one column to the right on the same line, the character count goes up by
    one, and no other cell, the window and the record of calls are left as
    they were. *)
Theorem console_putchar_stores (ch : ascii) (w : world) :
  is_printable ch = true ->
  grid_ok (console w) -> cursor_in_grid (console w) ->
  current_col (console w) + 1 < console_cols (console w) < 2 ^ 31 ->
  let c := console w in
  let w' := console_putchar ch w in
  let c' := console w' in
  read_cell c' (current_line c) (current_col c) = Some (written_cell ch c)
  /\ (forall line col,
        0 <= line -> 0 <= col -> (line, col) <> (current_line c, current_col c) ->
        read_cell c' line col = read_cell c line col)
  /\ current_col c' = current_col c + 1
  /\ current_line c' = current_line c
  /\ total_chars c' = uint32 (total_chars c + 1)
  /\ display_start c' = display_start c
  /\ scroll_position c' = scroll_position c
  /\ trace w' = trace w.
Proof.
  intros Hp Hgrid Hcur Hcol. cbv zeta.
  destruct (console_putchar_printable_shape ch w Hp Hgrid Hcur ltac:(lia))
    as (w1 & E & Hw & Hframe & C & T & Lay & Tr).
  destruct (Z.leb_spec (console_cols (console w)) (current_col (console w) + 1)); [lia |].
  rewrite E.
  destruct Lay as (_ & _ & _ & L & D & P & _).
  repeat split; assumption.
Qed.

Lemma console_putchar_stores_witness :
  let w := snd (init_console_buffer qemu_world) in
  read_cell (console (console_putchar "A" w)) 0 0
  = Some (written_cell "A" (console w)).
Proof.
  cbv zeta.
  assert (Hnull : buffer (console qemu_world) = []) by reflexivity.
  assert (Hcols : 0 <= console_cols (console qemu_world) <= 240)
    by (change (console_cols (console qemu_world)) with 80; lia).
  pose proof (init_console_buffer_grid qemu_world Hnull Hcols) as Hgrid.
  destruct (init_console_buffer_console qemu_world) as (B & L & C & _ & _ & _ & _ & _ & K).
  cbv zeta in B, L, C, K.
  change (console_cols (console qemu_world)) with 80 in K.
  generalize dependent (snd (init_console_buffer qemu_world)). intros w Hgrid B L C K.
  destruct (console_putchar_stores "A" w eq_refl Hgrid) as (H & _).
  - unfold cursor_in_grid. rewrite L, C, B, K. unfold MAX_BUFFER_LINES. lia.
  - rewrite C, K. lia.
  - rewrite L, C in H. exact H.
Defined.

(** X11: a printable character written in the last column wraps: the cursor goes
    to column 0 of the next line and the character stays where it was
    written; on the last buffer line the wrap is a shift-scroll, so the
    character is found one line up (the cursor line is blank again). *)
Theorem console_putchar_wraps (ch : ascii) (w : world) :
  is_printable ch = true ->
  grid_ok (console w) -> cursor_in_grid (console w) ->
  current_col (console w) + 1 = console_cols (console w) ->
  console_cols (console w) < 2 ^ 31 ->
  let c := console w in
  let w' := console_putchar ch w in
  let c' := console w' in
  current_col c' = 0
  /\ total_chars c' = uint32 (total_chars c + 1)
  /\ (current_line c + 1 < buffer_lines c ->
        current_line c' = current_line c + 1
        /\ trace w' = trace w
        /\ read_cell c' (current_line c) (current_col c) = Some (written_cell ch c)
        /\ forall line col,
             0 <= line -> 0 <= col -> (line, col) <> (current_line c, current_col c) ->
             read_cell c' line col = read_cell c line col)
  /\ (current_line c + 1 = buffer_lines c ->
        current_line c' = current_line c
        /\ trace w' = EvShiftScroll :: trace w
        /\ (1 <= current_line c ->
              read_cell c' (current_line c - 1) (current_col c)
              = Some (written_cell ch c))
        /\ (forall line col,
              0 <= line < buffer_lines c - 1 -> 0 <= col < console_cols c ->
              (line + 1, col) <> (current_line c, current_col c) ->
              read_cell c' line col = read_cell c (line + 1) col)
        /\ (forall col,
              0 <= col < console_cols c ->
              read_cell c' (current_line c) col
              = Some (blank_cell (current_fg c) (current_bg c)))).
Proof.
  intros Hp Hgrid Hcur Hlast Hcols. cbv zeta.
  destruct (console_putchar_printable_shape ch w Hp Hgrid Hcur Hcols)
    as (w1 & E & Hw & Hframe & C & T & Lay & Tr).
  destruct (Z.leb_spec (console_cols (console w)) (current_col (console w) + 1)); [| lia].
  rewrite E. clear E.
  pose proof (same_layout_grid _ _ Lay Hgrid) as Hgrid1.
  destruct Lay as (K & _ & B & L & _ & _ & F & G & _).
  destruct Hcur as [Hl Hk].
  destruct (putchar_newline_cells w1 Hgrid1 ltac:(rewrite L, B; exact Hl))
    as (Hroom & Hfull & C' & _ & _ & _).
  cbv zeta in Hroom, Hfull, C'. rewrite L, B, K, F, G in *.
  split; [exact C' |].
  split; [rewrite putchar_newline_total_chars; exact T |].
  split.
  - intros Hr. destruct (Hroom Hr) as (L' & Bu & T').
    assert (Hread : forall line col,
               read_cell (console (putchar_newline w1)) line col
               = read_cell (console w1) line col).
    { intros line col. apply read_cell_ext; [| | exact Bu].
      - destruct (putchar_newline_effect w1) as (_ & _ & _ & _ & K' & _). exact K'.
      - destruct (putchar_newline_effect w1) as (_ & _ & _ & _ & _ & B' & _). exact B'. }
    split; [exact L' |].
    split; [rewrite T'; exact Tr |].
    split; [rewrite Hread; exact Hw |].
    intros line col H1 H2 H3. rewrite Hread. apply Hframe; assumption.
  - intros Hf. destruct (Hfull Hf) as (L' & T' & Hshift & Hblank).
    split; [exact L' |].
    split; [rewrite T', Tr; reflexivity |].
    split; [| split].
    + intros H1. rewrite Hshift by lia.
      replace (current_line (console w) - 1 + 1) with (current_line (console w)) by lia.
      exact Hw.
    + intros line col H1 H2 H3. rewrite Hshift by assumption.
      apply Hframe; try lia. exact H3.
    + intros col H1.
      replace (current_line (console w)) with (buffer_lines (console w) - 1) by lia.
      apply Hblank. exact H1.
Qed.

Lemma console_putchar_wraps_witness :
  let w := upd_console (set_current_col 79) (snd (init_console_buffer qemu_world)) in
  current_col (console (console_putchar "A" w)) = 0.
Proof.
  cbv zeta.
  assert (Hnull : buffer (console qemu_world) = []) by reflexivity.
  assert (Hcols : 0 <= console_cols (console qemu_world) <= 240)
    by (change (console_cols (console qemu_world)) with 80; lia).
  pose proof (init_console_buffer_grid qemu_world Hnull Hcols) as Hgrid.
  destruct (init_console_buffer_console qemu_world) as (B & L & C & _ & _ & _ & _ & _ & K).
  cbv zeta in B, L, C, K.
  change (console_cols (console qemu_world)) with 80 in K.
  generalize dependent (snd (init_console_buffer qemu_world)). intros w0 Hgrid B L C K.
  set (w := upd_console (set_current_col 79) w0).
  assert (B1 : buffer_lines (console w) = MAX_BUFFER_LINES) by exact B.
  assert (L1 : current_line (console w) = 0) by exact L.
  assert (K1 : console_cols (console w) = 80) by exact K.
  assert (C1 : current_col (console w) = 79) by reflexivity.
  assert (Hgrid1 : grid_ok (console w)) by exact Hgrid.
  clearbody w.
  destruct (console_putchar_wraps "A" w eq_refl Hgrid1) as (H & _).
  - unfold cursor_in_grid. rewrite L1, C1, B1, K1. unfold MAX_BUFFER_LINES. lia.
  - rewrite C1, K1. reflexivity.
  - rewrite K1. lia.
  - exact H.
Defined.

(** ** The cursor stays on the grid *)

Lemma putchar_newline_cursor w :
  grid_ok (console w) ->
  0 <= current_line (console w) < buffer_lines (console w) ->
  1 <= console_cols (console w) ->
  grid_ok (console (putchar_newline w))
  /\ cursor_in_grid (console (putchar_newline w))
  /\ console_cols (console (putchar_newline w)) = console_cols (console w).
Proof.
  intros Hgrid Hl Hk.
  destruct (putchar_newline_cells w Hgrid Hl) as (Hroom & Hfull & C & K & B & Len).
  cbv zeta in *.
  split; [now apply (grid_ok_ext (console w)) |].
  split; [| exact K].
  unfold cursor_in_grid. rewrite C, K, B.
  split; [| lia].
  destruct (Z.lt_ge_cases (current_line (console w) + 1) (buffer_lines (console w)))
    as [Hr | Hf].
  - destruct (Hroom Hr) as (L & _). lia.
  - destruct (Hfull ltac:(lia)) as (L & _). lia.
Qed.

Lemma tab_stop col :
  0 <= col < 2 ^ 31 ->
  Z.land (uint32 (col + 8)) (uint32 (Z.lnot 7)) = 8 * (col / 8 + 1).
Proof.
  intros H.
  rewrite (uint32_small (col + 8)) by lia.
  rewrite land_clear_low3 by lia.
  replace (col + 8) with (col + 1 * 8) by lia.
  rewrite Z.div_add by lia. reflexivity.
Qed.

Lemma console_putchar_cursor ch w :
  grid_ok (console w) -> cursor_in_grid (console w) ->
  console_cols (console w) < 2 ^ 31 ->
  grid_ok (console (console_putchar ch w))
  /\ cursor_in_grid (console (console_putchar ch w))
  /\ console_cols (console (console_putchar ch w)) = console_cols (console w).
Proof.
  intros Hgrid Hcur Hcols.
  destruct (is_printable ch) eqn:Hp.
  { destruct (console_putchar_printable_shape ch w Hp Hgrid Hcur Hcols)
      as (w1 & E & _ & _ & C & _ & Lay & _).
    pose proof (same_layout_grid _ _ Lay Hgrid) as Hgrid1.
    destruct Lay as (K & _ & B & L & _).
    destruct Hcur as [Hl Hk].
    rewrite E.
    destruct (Z.leb_spec (console_cols (console w)) (current_col (console w) + 1)).
    - rewrite <- K. apply putchar_newline_cursor; [exact Hgrid1 | | ]; rewrite ?L, ?B, ?K; lia.
    - split; [exact Hgrid1 | split; [| exact K]].
      unfold cursor_in_grid. rewrite L, B, C, K. lia. }
  pose proof Hcur as [Hl Hk].
  unfold console_putchar.
  destruct (Ascii.eqb ch "010").
  { apply putchar_newline_cursor; [exact Hgrid | exact Hl | lia]. }
  destruct (Ascii.eqb ch "013").
  { split; [exact Hgrid | split; [| reflexivity]].
    split; [exact Hl | cbn; lia]. }
  destruct (Ascii.eqb ch "009").
  { cbv zeta.
    set (w1 := upd_console _ w).
    assert (C1 : current_col (console w1) = 8 * (current_col (console w) / 8 + 1)).
    { subst w1. cbn [upd_console console set_console current_col set_current_col].
      apply tab_stop. lia. }
    change (console_cols (console w1)) with (console_cols (console w)).
    destruct (Z.leb_spec (console_cols (console w)) (current_col (console w1))).
    - apply (putchar_newline_cursor w1); [exact Hgrid | exact Hl | ].
      change (console_cols (console w1)) with (console_cols (console w)). lia.
    - split; [exact Hgrid | split; [| reflexivity]].
      split; [exact Hl |].
      change (console_cols (console w1)) with (console_cols (console w)).
      rewrite C1 in *. split; [| lia].
      pose proof (Z.div_pos (current_col (console w)) 8). lia. }
  destruct (Ascii.eqb ch "008").
  { destruct (Z.ltb_spec 0 (current_col (console w))).
    - cbv zeta.
      set (w1 := upd_console _ w).
      assert (C1 : current_col (console w1) = current_col (console w) - 1).
      { subst w1. cbn [upd_console console set_console current_col set_current_col].
        apply uint32_small. lia. }
      assert (Hcur1 : cursor_in_grid (console w1)).
      { split; [exact Hl |]. rewrite C1.
        change (console_cols (console w1)) with (console_cols (console w)). lia. }
      assert (Hgrid1 : grid_ok (console w1)) by exact Hgrid.
      assert (K1 : console_cols (console w1) = console_cols (console w)) by reflexivity.
      clearbody w1.
      destruct (get_cell _ _ _); [| now rewrite <- K1].
      split; [| split; [exact Hcur1 | exact K1]].
      apply (grid_ok_ext (console w1)); try reflexivity; [| exact Hgrid1].
      cbn [upd_console console set_console buffer set_buffer]. apply length_alter.
    - repeat split; try apply Hgrid; try apply Hcur. }
  change ((32 <=? char_code ch) && (char_code ch <=? 126)) with (is_printable ch).
  rewrite Hp. repeat split; try apply Hgrid; try apply Hcur.
Qed.

Lemma putchars_cursor cs :
  forall w,
    grid_ok (console w) -> cursor_in_grid (console w) ->
    console_cols (console w) < 2 ^ 31 ->
    grid_ok (console (putchars cs w))
    /\ cursor_in_grid (console (putchars cs w))
    /\ console_cols (console (putchars cs w)) = console_cols (console w).
Proof.
  induction cs as [| ch cs IH]; intros w Hgrid Hcur Hcols.
  { split; [exact Hgrid | split; [exact Hcur | reflexivity]]. }
  destruct (console_putchar_cursor ch w Hgrid Hcur Hcols) as (Hg & Hc & K).
  change (putchars (ch :: cs) w) with (putchars cs (console_putchar ch w)).
  destruct (IH (console_putchar ch w) Hg Hc ltac:(rewrite K; exact Hcols)) as (Hg' & Hc' & K').
  split; [exact Hg' | split; [exact Hc' | now rewrite K']].
Qed.

(** X12: whatever bytes are written after [init_console_buffer] on a console of 1
    to 240 columns, the cursor stays on the grid: [get_cell] at the cursor is
    never [NULL], and the cell it points at lies inside the cell array. *)
Theorem cursor_stays_in_grid (w0 : world) (cs : list ascii) :
  buffer (console w0) = [] ->
  1 <= console_cols (console w0) <= 240 ->
  let c := console (putchars cs (snd (init_console_buffer w0))) in
  cursor_in_grid c
  /\ exists idx,
       get_cell c (current_line c) (current_col c) = Some idx
       /\ 0 <= idx < Z.of_nat (length (buffer c)).
Proof.
  intros Hnull Hcols. cbv zeta.
  pose proof (init_console_buffer_grid w0 Hnull ltac:(lia)) as Hgrid.
  destruct (init_console_buffer_console w0) as (B & L & C & _ & _ & _ & _ & _ & K).
  cbv zeta in B, L, C, K.
  generalize dependent (snd (init_console_buffer w0)). intros w Hgrid B L C K.
  assert (Hcur : cursor_in_grid (console w)).
  { unfold cursor_in_grid. rewrite B, L, C, K. unfold MAX_BUFFER_LINES. lia. }
  destruct (putchars_cursor cs w Hgrid Hcur ltac:(rewrite K; lia)) as (Hg & Hc & _).
  split; [exact Hc |].
  destruct Hc as [Hl Hk].
  destruct (get_cell_in_grid _ _ _ Hg Hl Hk) as (Hget & Hidx).
  eexists. split; [exact Hget |].
  destruct Hg as (_ & _ & Hfit & _). lia.
Qed.

Lemma cursor_stays_in_grid_witness :
  cursor_in_grid (console (putchars ["a"; "010"; "009"]%char
                             (snd (init_console_buffer qemu_world)))).
Proof.
  assert (Hnull : buffer (console qemu_world) = []) by reflexivity.
  assert (Hcols : 1 <= console_cols (console qemu_world) <= 240)
    by (change (console_cols (console qemu_world)) with 80; lia).
  destruct (cursor_stays_in_grid qemu_world ["a"; "010"; "009"]%char Hnull Hcols) as [H _].
  exact H.
Defined.

(** ** Tab and backspace *)

Lemma putchar_newline_forgets_col x w :
  putchar_newline (upd_console (set_current_col x) w) = putchar_newline w.
Proof. destruct w as [p c v m i t]. destruct c. reflexivity. Qed.

(** X13: a tab moves the cursor to the next multiple of 8 (the mask [& ~7] of the
    code), at most 8 columns to the right, and writes nothing; when that stop
    is not on the line, the tab is a newline. *)
Theorem console_putchar_tab (w : world) :
  0 <= current_col (console w) < 2 ^ 31 ->
  let stop := 8 * (current_col (console w) / 8 + 1) in
  console_putchar "009" w
  = (if stop <? console_cols (console w)
     then upd_console (set_current_col stop) w
     else console_putchar "010" w)
  /\ current_col (console w) < stop <= current_col (console w) + 8.
Proof.
  intros Hk. cbv zeta.
  split.
  - unfold console_putchar.
    change (Ascii.eqb "009" "010") with false.
    change (Ascii.eqb "009" "013") with false.
    change (Ascii.eqb "009" "009") with true.
    change (Ascii.eqb "010" "010") with true.
    cbv iota zeta.
    set (w1 := upd_console _ w).
    assert (E : w1 = upd_console
                       (set_current_col (8 * (current_col (console w) / 8 + 1))) w).
    { subst w1. unfold upd_console. f_equal. f_equal.
      cbn [console]. unfold set_current_col. f_equal. apply tab_stop. exact Hk. }
    rewrite E.
    change (console_cols (console (upd_console (set_current_col _) w)))
      with (console_cols (console w)).
    change (current_col (console (upd_console (set_current_col ?x) w))) with x.
    rewrite Z.leb_antisym.
    destruct (_ <? _); cbn [negb]; [reflexivity |].
    apply putchar_newline_forgets_col.
  - pose proof (Z.mod_pos_bound (current_col (console w)) 8 ltac:(lia)).
    pose proof (Z.div_mod (current_col (console w)) 8 ltac:(lia)).
    lia.
Qed.

Lemma console_putchar_tab_witness :
  let w := upd_console (set_current_col 3) qemu_world in
  console_putchar "009" w = upd_console (set_current_col 8) w.
Proof.
  cbv zeta.
  destruct (console_putchar_tab (upd_console (set_current_col 3) qemu_world)) as [H _].
  - cbn. lia.
  - exact H.
Defined.

(** The cell a backspace leaves: a space in the current colours, with the
    attributes the cell had. *)
Lemma console_putchar_backspace_cells w :
  grid_ok (console w) -> cursor_in_grid (console w) ->
  0 < current_col (console w) ->
  let c := console w in
  let w' := console_putchar "008" w in
  let c' := console w' in
  current_col c' = current_col c - 1
  /\ (exists old,
        read_cell c (current_line c) (current_col c - 1) = Some old
        /\ read_cell c' (current_line c) (current_col c - 1)
           = Some {| character := " "; foreground := current_fg c;
                     background := current_bg c; attributes := attributes old |})
  /\ (forall line col,
        0 <= line -> 0 <= col -> (line, col) <> (current_line c, current_col c - 1) ->
        read_cell c' line col = read_cell c line col)
  /\ total_chars c' = total_chars c
  /\ same_layout c c'
  /\ trace w' = trace w.
Proof.
  intros Hgrid [Hl Hk] Hpos. cbv zeta.
  pose proof Hgrid as (_ & _ & Hfit & Hw).
  assert (Hcols : console_cols (console w) < 2 ^ 32).
  { destruct Hgrid as (Hb & _). nia. }
  unfold console_putchar.
  change (Ascii.eqb "008" "010") with false.
  change (Ascii.eqb "008" "013") with false.
  change (Ascii.eqb "008" "009") with false.
  change (Ascii.eqb "008" "008") with true.
  cbv iota.
  destruct (Z.ltb_spec 0 (current_col (console w))); [| lia].
  cbv zeta.
  set (w1 := upd_console _ w).
  assert (C1 : current_col (console w1) = current_col (console w) - 1).
  { subst w1. cbn [upd_console console set_console current_col set_current_col].
    apply uint32_small. lia. }
  assert (L1 : current_line (console w1) = current_line (console w)) by reflexivity.
  assert (Hgrid1 : grid_ok (console w1)) by exact Hgrid.
  assert (Lay : same_layout (console w) (console w1)) by (repeat split).
  assert (T1 : total_chars (console w1) = total_chars (console w)) by reflexivity.
  assert (Tr1 : trace w1 = trace w) by reflexivity.
  assert (Hread : forall line col,
             read_cell (console w1) line col = read_cell (console w) line col)
    by reflexivity.
  assert (F1 : current_fg (console w1) = current_fg (console w)) by reflexivity.
  assert (G1 : current_bg (console w1) = current_bg (console w)) by reflexivity.
  assert (K1 : console_cols (console w1) = console_cols (console w)) by reflexivity.
  assert (B1 : buffer_lines (console w1) = buffer_lines (console w)) by reflexivity.
  clearbody w1.
  assert (Hcur1 : cursor_in_grid (console w1)).
  { unfold cursor_in_grid. rewrite L1, C1, K1, B1. lia. }
  destruct (get_cell_in_grid (console w1) (current_line (console w1))
              (current_col (console w1)) Hgrid1 (proj1 Hcur1) (proj2 Hcur1))
    as [Hget _].
  rewrite Hget.
  destruct (alter_cursor_cell
              (fun cell => set_background (current_bg (console w1))
                             (set_foreground (current_fg (console w1))
                                (set_character " " cell)))
              (console w1) _ Hgrid1 Hcur1 Hget) as (Hnew & Hframe & Hlen).
  cbv zeta in Hnew, Hframe, Hlen.
  match goal with
  | |- context [upd_console ?f w1] =>
      change (console (upd_console f w1)) with (f (console w1));
      change (trace (upd_console f w1)) with (trace w1)
  end.
  cbv beta.
  rewrite L1, C1, F1, G1 in *.
  split; [exact C1 |].
  split.
  { eexists. split.
    - rewrite <- Hread. unfold read_cell. rewrite Hget. reflexivity.
    - rewrite Hnew. reflexivity. }
  split.
  { intros line col H1 H2 H3. rewrite <- Hread. apply Hframe; assumption. }
  split; [exact T1 |].
  split; [| exact Tr1].
  destruct Lay as (? & ? & ? & ? & ? & ? & ? & ? & ?).
  repeat split; try assumption. rewrite Hlen. assumption.
Qed.

(** X14: backspace never leaves the line: at column 0 it does nothing at all.
    Elsewhere it steps one column back and blanks the cell there with the
    current colours, keeping the cell's attributes; the character count is
    not taken back and no other cell changes. *)
Theorem console_putchar_backspace (w : world) :
  grid_ok (console w) -> cursor_in_grid (console w) ->
  let c := console w in
  let w' := console_putchar "008" w in
  let c' := console w' in
  (current_col c = 0 -> w' = w)
  /\ (0 < current_col c ->
        current_col c' = current_col c - 1
        /\ current_line c' = current_line c
        /\ (exists old,
              read_cell c (current_line c) (current_col c - 1) = Some old
              /\ read_cell c' (current_line c) (current_col c - 1)
                 = Some {| character := " "; foreground := current_fg c;
                           background := current_bg c; attributes := attributes old |})
        /\ (forall line col,
              0 <= line -> 0 <= col ->
              (line, col) <> (current_line c, current_col c - 1) ->
              read_cell c' line col = read_cell c line col)
        /\ total_chars c' = total_chars c
        /\ trace w' = trace w).
Proof.
  intros Hgrid Hcur. cbv zeta.
  split.
  - intros H0. unfold console_putchar.
    change (Ascii.eqb "008" "010") with false.
    change (Ascii.eqb "008" "013") with false.
    change (Ascii.eqb "008" "009") with false.
    change (Ascii.eqb "008" "008") with true.
    cbv iota. rewrite H0. reflexivity.
  - intros Hpos.
    destruct (console_putchar_backspace_cells w Hgrid Hcur Hpos)
      as (C & Hold & Hframe & T & Lay & Tr).
    destruct Lay as (_ & _ & _ & L & _).
    split; [exact C | split; [exact L |]].
    split; [exact Hold | split; [exact Hframe | split; [exact T | exact Tr]]].
Qed.

Lemma console_putchar_backspace_witness :
  let w := snd (init_console_buffer qemu_world) in
  console_putchar "008" w = w.
Proof.
  cbv zeta.
  assert (Hnull : buffer (console qemu_world) = []) by reflexivity.
  assert (Hcols : 0 <= console_cols (console qemu_world) <= 240)
    by (change (console_cols (console qemu_world)) with 80; lia).
  pose proof (init_console_buffer_grid qemu_world Hnull Hcols) as Hgrid.
  destruct (init_console_buffer_console qemu_world) as (B & L & C & _ & _ & _ & _ & _ & K).
  cbv zeta in B, L, C, K.
  change (console_cols (console qemu_world)) with 80 in K.
  generalize dependent (snd (init_console_buffer qemu_world)). intros w Hgrid B L C K.
  destruct (console_putchar_backspace w Hgrid) as (H & _).
  - unfold cursor_in_grid. rewrite L, C, B, K. unfold MAX_BUFFER_LINES. lia.
  - apply H. exact C.
Defined.

(** X15: a printable character followed by a backspace: unless the character was
    written in the last column, the cursor is back where it was and the cell
    is a blank in the current colours, every other cell being as before; the
    character still counts in [total_chars].  A character written in the last
    column has wrapped the cursor to column 0, where backspace does nothing,
    so it cannot be erased. *)
Theorem backspace_after_printable (ch : ascii) (w : world) :
  is_printable ch = true ->
  grid_ok (console w) -> cursor_in_grid (console w) ->
  console_cols (console w) < 2 ^ 31 ->
  let c := console w in
  let w' := console_putchar "008" (console_putchar ch w) in
  let c' := console w' in
  (current_col c + 1 < console_cols c ->
     current_col c' = current_col c
     /\ current_line c' = current_line c
     /\ read_cell c' (current_line c) (current_col c)
        = Some (blank_cell (current_fg c) (current_bg c))
     /\ (forall line col,
           0 <= line -> 0 <= col -> (line, col) <> (current_line c, current_col c) ->
           read_cell c' line col = read_cell c line col)
     /\ total_chars c' = uint32 (total_chars c + 1))
  /\ (current_col c + 1 = console_cols c ->
     w' = console_putchar ch w /\ current_col c' = 0).
Proof.
  intros Hp Hgrid Hcur Hcols. cbv zeta.
  destruct (console_putchar_cursor ch w Hgrid Hcur Hcols) as (Hg' & Hc' & _).
  destruct (console_putchar_printable_shape ch w Hp Hgrid Hcur Hcols)
    as (w1 & E & Hw & Hframe & C & T & Lay & Tr).
  split.
  - intros Hroom.
    destruct (Z.leb_spec (console_cols (console w)) (current_col (console w) + 1)); [lia |].
    rewrite E in *. clear E.
    destruct Lay as (K & _ & B & L & _ & _ & F & G & _).
    destruct Hcur as [Hl Hk].
    destruct (console_putchar_backspace_cells w1 Hg' Hc' ltac:(lia))
      as (C' & (old & Hold & Hnew) & Hframe' & T' & Lay' & _).
    destruct Lay' as (_ & _ & _ & L' & _).
    rewrite L, C, F, G in *.
    replace (current_col (console w) + 1 - 1) with (current_col (console w)) in * by lia.
    split; [exact C' | split; [exact L' |]].
    split; [| split].
    + rewrite Hnew. rewrite Hw in Hold. injection Hold as <-. reflexivity.
    + intros line col H1 H2 H3. rewrite Hframe' by assumption. apply Hframe; assumption.
    + rewrite T'. exact T.
  - intros Hlast.
    destruct (Z.leb_spec (console_cols (console w)) (current_col (console w) + 1)); [| lia].
    assert (C0 : current_col (console (console_putchar ch w)) = 0).
    { rewrite E. destruct (putchar_newline_effect w1) as (_ & C0 & _). exact C0. }
    assert (Hnop : console_putchar "008" (console_putchar ch w) = console_putchar ch w).
    { generalize dependent (console_putchar ch w). intros w2 _ _ _ C0.
      unfold console_putchar.
      change (Ascii.eqb "008" "010") with false.
      change (Ascii.eqb "008" "013") with false.
      change (Ascii.eqb "008" "009") with false.
      change (Ascii.eqb "008" "008") with true.
      cbv iota. rewrite C0. reflexivity. }
    rewrite Hnop. split; [reflexivity | exact C0].
Qed.

Lemma backspace_after_printable_witness :
  let w := snd (init_console_buffer qemu_world) in
  read_cell (console (console_putchar "008" (console_putchar "A" w))) 0 0
  = Some (blank_cell (current_fg (console w)) (current_bg (console w))).
Proof.
  cbv zeta.
  assert (Hnull : buffer (console qemu_world) = []) by reflexivity.
  assert (Hcols : 0 <= console_cols (console qemu_world) <= 240)
    by (change (console_cols (console qemu_world)) with 80; lia).
  pose proof (init_console_buffer_grid qemu_world Hnull Hcols) as Hgrid.
  destruct (init_console_buffer_console qemu_world) as (B & L & C & _ & _ & _ & _ & _ & K).
  cbv zeta in B, L, C, K.
  change (console_cols (console qemu_world)) with 80 in K.
  generalize dependent (snd (init_console_buffer qemu_world)). intros w Hgrid B L C K.
  destruct (backspace_after_printable "A" w eq_refl Hgrid) as (H & _).
  - unfold cursor_in_grid. rewrite L, C, B, K. unfold MAX_BUFFER_LINES. lia.
  - rewrite K. lia.
  - destruct H as (_ & _ & H & _); [rewrite C, K; lia |].
    rewrite L, C in H. exact H.
Defined.

(** ** Counting characters *)

Lemma console_putchar_total_chars ch w :
  total_chars (console (console_putchar ch w))
  = if is_printable ch then uint32 (total_chars (console w) + 1)
    else total_chars (console w).
Proof.
  destruct (is_printable ch) eqn:Hp.
  - destruct (printable_not_control ch Hp) as (N1 & N2 & N3 & N4).
    unfold console_putchar. rewrite N1, N2, N3, N4.
    change ((32 <=? char_code ch) && (char_code ch <=? 126)) with (is_printable ch).
    rewrite Hp. cbv zeta.
    destruct (get_cell _ _ _);
      (destruct (_ <=? _); [rewrite putchar_newline_total_chars |]; reflexivity).
  - unfold console_putchar.
    destruct (Ascii.eqb ch "010"); [apply putchar_newline_total_chars |].
    destruct (Ascii.eqb ch "013"); [reflexivity |].
    destruct (Ascii.eqb ch "009").
    { cbv zeta. destruct (_ <=? _); [rewrite putchar_newline_total_chars |]; reflexivity. }
    destruct (Ascii.eqb ch "008").
    { destruct (0 <? _); [| reflexivity].
      cbv zeta. destruct (get_cell _ _ _); reflexivity. }
    change ((32 <=? char_code ch) && (char_code ch <=? 126)) with (is_printable ch).
    rewrite Hp. reflexivity.
Qed.

Lemma printable_count_cons ch cs :
  printable_count (ch :: cs)
  = (if is_printable ch then 1 else 0) + printable_count cs.
Proof.
  unfold printable_count. cbn [List.filter].
  destruct (is_printable ch); cbn [length]; lia.
Qed.

Lemma printable_count_nonneg cs : 0 <= printable_count cs.
Proof. unfold printable_count. lia. Qed.

Lemma putchars_total_chars cs :
  forall w,
    total_chars (console (putchars cs w))
    = (if (0 <? printable_count cs)
       then uint32 (total_chars (console w) + printable_count cs)
       else total_chars (console w)).
Proof.
  induction cs as [| ch cs IH]; intros w; [reflexivity |].
  change (putchars (ch :: cs) w) with (putchars cs (console_putchar ch w)).
  rewrite IH, console_putchar_total_chars, printable_count_cons.
  pose proof (printable_count_nonneg cs) as Hn.
  destruct (is_printable ch).
  - destruct (Z.ltb_spec 0 (1 + printable_count cs)); [| lia].
    destruct (Z.ltb_spec 0 (printable_count cs)).
    + unfold uint32. rewrite Zplus_mod_idemp_l. f_equal. lia.
    + replace (printable_count cs) with 0 by lia. reflexivity.
  - reflexivity.
Qed.

(** X16: [total_chars] counts the printable characters written, modulo 2^32:
    newlines, tabs, backspaces, carriage returns and ignored bytes do not
    count, and neither scrolling nor backspace ever takes a character back. *)
Theorem total_chars_counts_printable (cs : list ascii) (w : world) :
  0 <= total_chars (console w) < 2 ^ 32 ->
  total_chars (console (putchars cs w))
  = uint32 (total_chars (console w) + printable_count cs).
Proof.
  intros Ht. rewrite putchars_total_chars.
  pose proof (printable_count_nonneg cs) as Hn.
  destruct (Z.ltb_spec 0 (printable_count cs)); [reflexivity |].
  replace (printable_count cs) with 0 by lia.
  rewrite Z.add_0_r. symmetry. apply uint32_small. exact Ht.
Qed.

Lemma total_chars_counts_printable_witness :
  total_chars (console (putchars ["H"; "i"; "008"; "010"; "!"]%char qemu_world))
  = uint32 (total_chars (console qemu_world)
            + printable_count ["H"; "i"; "008"; "010"; "!"]%char).
Proof.
  apply total_chars_counts_printable.
  change (total_chars (console qemu_world)) with 0. lia.
Defined.

(** ** Strings *)

Lemma console_puts_putchars str :
  forall w, console_puts str w = putchars (list_ascii_of_string (c_str str)) w.
Proof.
  induction str as [| a rest IH]; intros w; cbn [console_puts c_str]; [reflexivity |].
  destruct (Ascii.eqb a Ascii.zero); [reflexivity |].
  cbn [list_ascii_of_string]. apply IH.
Qed.

Lemma c_str_idempotent s : c_str (c_str s) = c_str s.
Proof.
  induction s as [| a s IH]; cbn [c_str]; [reflexivity |].
  destruct (Ascii.eqb a Ascii.zero) eqn:E; [reflexivity |].
  cbn [c_str]. rewrite E, IH. reflexivity.
Qed.

Lemma console_puts_app s1 :
  forall s2 w,
    console_puts (c_str s1 ++ s2) w = console_puts s2 (console_puts s1 w).
Proof.
  induction s1 as [| a s1 IH]; intros s2 w; cbn [c_str console_puts]; [reflexivity |].
  destruct (Ascii.eqb a Ascii.zero) eqn:E; [reflexivity |].
  change (console_puts (String a (c_str s1 ++ s2)) w
          = console_puts s2 (console_puts s1 (console_putchar a w))).
  cbn [console_puts]. rewrite E. apply IH.
Qed.

Lemma length_truncate n : forall s, (String.length (truncate n s) <= n)%nat.
Proof.
  induction n as [| n IH]; intros s; [cbn; lia |].
  destruct s as [| a s]; cbn [truncate String.length]; [lia |].
  specialize (IH s). lia.
Qed.

Lemma length_c_str s : (String.length (c_str s) <= String.length s)%nat.
Proof.
  induction s as [| a s IH]; cbn [c_str]; [lia |].
  destruct (Ascii.eqb a Ascii.zero); cbn [String.length]; lia.
Qed.

Lemma c_str_no_nul s : Forall (fun a => a <> Ascii.zero) (list_ascii_of_string (c_str s)).
Proof.
  induction s as [| a s IH]; cbn [c_str]; [constructor |].
  destruct (Ascii.eqb a Ascii.zero) eqn:E; [constructor |].
  cbn [list_ascii_of_string]. constructor; [| exact IH].
  now apply Ascii.eqb_neq.
Qed.

Lemma length_list_ascii_of_string s :
  length (list_ascii_of_string s) = String.length s.
Proof. induction s as [| a s IH]; cbn; [reflexivity | now rewrite IH]. Qed.

(** X17: [console_puts] writes the characters of its argument up to the first NUL,
    one [console_putchar] each and in order; so writing a string in two
    pieces is the same as writing it at once. *)
Theorem console_puts_writes_c_string (str : string) (w : world) :
  console_puts str w = putchars (list_ascii_of_string (c_str str)) w
  /\ console_puts (c_str str) w = console_puts str w
  /\ forall rest, console_puts (c_str str ++ rest) w
                  = console_puts rest (console_puts str w).
Proof.
  split; [apply console_puts_putchars |].
  split; [| intros rest; apply console_puts_app].
  rewrite !console_puts_putchars, c_str_idempotent. reflexivity.
Qed.

(** X18: [console_printf] never writes more than 1023 characters, whatever the
    format and the arguments: the formatted text is cut to the 1024-byte
    buffer before it is passed to [console_puts]. *)
Theorem console_printf_bounded (fmt : string) (args : list fmt_arg) (w : world) :
  exists cs,
    console_printf fmt args w = putchars cs w
    /\ (length cs <= 1023)%nat
    /\ Forall (fun a => a <> Ascii.zero) cs.
Proof.
  exists (list_ascii_of_string (c_str (snprintf 1024 fmt args))).
  split; [apply console_puts_putchars |].
  split; [| apply c_str_no_nul].
  rewrite length_list_ascii_of_string.
  pose proof (length_c_str (snprintf 1024 fmt args)) as H1.
  pose proof (length_truncate (Z.to_nat (1024 - 1)) (format None (c_str fmt) args)) as H2.
  unfold snprintf in H1 at 2.
  change (Z.to_nat (1024 - 1)) with 1023%nat in *.
  unfold snprintf at 1.
  etransitivity; [exact H1 |]. exact H2.
Qed.

(** ** Clearing the console *)

(** X19: [console_clear] blanks every cell of the grid white on black (not in the
    current colours, which it keeps), homes the cursor and the window and
    resets the character count; cells of the array behind the grid are left
    alone. *)
Theorem console_clear_blanks (w : world) :
  grid_ok (console w) ->
  let c := console w in
  let c' := console (console_clear w) in
  (forall line col,
     0 <= line < buffer_lines c -> 0 <= col < console_cols c ->
     read_cell c' line col = Some (blank_cell COLOR_WHITE COLOR_BLACK))
  /\ (forall i, buffer_lines c * console_cols c <= i ->
        cell_at (buffer c') i = cell_at (buffer c) i)
  /\ length (buffer c') = length (buffer c)
  /\ current_line c' = 0 /\ current_col c' = 0
  /\ display_start c' = 0 /\ scroll_position c' = 0
  /\ total_chars c' = 0
  /\ current_fg c' = current_fg c /\ current_bg c' = current_bg c
  /\ trace (console_clear w) = trace w.
Proof.
  intros Hgrid. cbv zeta.
  pose proof Hgrid as (Hb & Hk & Hfit & Hw).
  assert (Hsize : 0 <= buffer_lines (console w) * console_cols (console w))
    by (apply Z.mul_nonneg_nonneg; lia).
  unfold console_clear. cbv zeta.
  rewrite console_render_console, trace_render_console.
  rewrite (uint32_small (buffer_lines (console w) * console_cols (console w))) by lia.
  destruct (for_loop_store (blank_cell COLOR_WHITE COLOR_BLACK) (fun j => j)
              (Z.to_nat (buffer_lines (console w) * console_cols (console w)))
              (buffer (console w))) as (Hlen & Hin & Hout).
  { intros j Hj. lia. }
  cbv zeta in Hlen, Hin, Hout.
  set (cells := for_loop _ 0 _ (buffer (console w))) in *.
  split; [| split; [| split; [exact Hlen | repeat split]]].
  - intros line col Hl Hc.
    destruct (get_cell_in_grid (console w) line col Hgrid Hl Hc) as [Hget Hidx].
    unfold read_cell.
    match goal with
    | |- match get_cell ?c' line col with _ => _ end = _ =>
        change (get_cell c' line col) with (get_cell (console w) line col);
        change (buffer c') with cells
    end.
    rewrite Hget. f_equal. apply Hin. lia.
  - intros i Hi.
    match goal with
    | |- cell_at (buffer ?c') i = _ => change (buffer c') with cells
    end.
    apply Hout; [lia |]. intros j Hj. lia.
Qed.

Lemma console_clear_blanks_witness :
  let w := putchars ["A"]%char (snd (init_console_buffer qemu_world)) in
  read_cell (console (console_clear w)) 0 0 = Some (blank_cell COLOR_WHITE COLOR_BLACK).
Proof.
  cbv zeta.
  assert (Hnull : buffer (console qemu_world) = []) by reflexivity.
  assert (Hcols : 0 <= console_cols (console qemu_world) <= 240)
    by (change (console_cols (console qemu_world)) with 80; lia).
  pose proof (init_console_buffer_grid qemu_world Hnull Hcols) as Hgrid.
  destruct (init_console_buffer_console qemu_world) as (B & L & C & _ & _ & _ & _ & _ & K).
  cbv zeta in B, L, C, K.
  change (console_cols (console qemu_world)) with 80 in K.
  generalize dependent (snd (init_console_buffer qemu_world)). intros w0 Hgrid B L C K.
  assert (Hcur : cursor_in_grid (console w0)).
  { unfold cursor_in_grid. rewrite B, L, C, K. unfold MAX_BUFFER_LINES. lia. }
  destruct (putchars_cursor ["A"]%char w0 Hgrid Hcur ltac:(rewrite K; lia)) as (Hg & Hc & K').
  generalize dependent (putchars ["A"]%char w0). intros w Hg Hc K'.
  destruct (console_clear_blanks w Hg) as (H & _).
  destruct Hg as (Hb & _).
  apply H; [| rewrite K', K]; lia.
Defined.

(** ** Input never touches the text *)

Lemma same_text_refl c : same_text c c.
Proof. repeat split. Qed.

Lemma same_text_trans c1 c2 c3 : same_text c1 c2 -> same_text c2 c3 -> same_text c1 c3.
Proof.
  unfold same_text.
  intros (A1 & A2 & A3 & A4 & A5 & A6 & A7 & A8 & A9 & A10 & A11 & A12 & A13)
         (B1 & B2 & B3 & B4 & B5 & B6 & B7 & B8 & B9 & B10 & B11 & B12 & B13).
  repeat split; congruence.
Qed.

Lemma same_text_step (f : universal_console_t -> universal_console_t) w0 w :
  (forall c, same_text c (f c)) ->
  same_text (console w0) (console w) ->
  same_text (console w0) (console (upd_console f w)).
Proof.
  intros Hf H. rewrite console_upd_console.
  eapply same_text_trans; [exact H | apply Hf].
Qed.

Lemma same_text_render w0 w :
  same_text (console w0) (console w) ->
  same_text (console w0) (console (render_console w)).
Proof. now rewrite console_render_console. Qed.

Lemma same_text_scroll delta w0 w :
  same_text (console w0) (console w) ->
  same_text (console w0) (console (handle_scroll delta w)).
Proof.
  intros H.
  pose proof (handle_scroll_console delta w) as E. cbv zeta in E.
  destruct (_ =? _) in E; rewrite E; [exact H |].
  eapply same_text_trans; [exact H | repeat split].
Qed.

Ltac text_step :=
  first
    [ apply same_text_render
    | apply same_text_scroll
    | apply same_text_step;
      [ let c := fresh "c" in
        intros c; cbv beta;
        repeat match goal with
               | |- context [if ?b then _ else _] => destruct b
               end;
        repeat split
      | ] ].

Lemma handle_keyboard_input_text kbd w :
  same_text (console w) (console (handle_keyboard_input kbd w)).
Proof.
  unfold handle_keyboard_input. cbv zeta.
  repeat match goal with
         | |- context [if ?b then _ else _] => destruct b
         end;
    repeat text_step; apply same_text_refl.
Qed.

Lemma handle_mouse_input_text mouse w :
  same_text (console w) (console (handle_mouse_input mouse w)).
Proof.
  unfold handle_mouse_input. cbv zeta.
  destruct (negb _); [apply same_text_refl |].
  destruct (_ =? 0); [apply same_text_refl |].
  destruct (3 <=? _); [| apply same_text_refl].
  text_step.
  destruct (negb _); [destruct (negb _) |]; repeat text_step; apply same_text_refl.
Qed.

Lemma console_update_text kbd mouse w :
  same_text (console w) (console (console_update kbd mouse w)).
Proof.
  unfold console_update. cbv zeta.
  text_step. text_step.
  eapply same_text_trans; [apply handle_keyboard_input_text | apply handle_mouse_input_text].
Qed.

Lemma console_updates_text snapshots :
  forall w, same_text (console w) (console (console_updates snapshots w)).
Proof.
  induction snapshots as [| regs snapshots IH]; intros w; [apply same_text_refl |].
  change (console_updates (regs :: snapshots) w)
    with (console_updates snapshots (console_update (fst regs) (snd regs) w)).
  eapply same_text_trans; [apply console_update_text | apply IH].
Qed.

(** X20: the main loop never changes what has been written: whatever the keyboard
    and the mouse deliver, over any number of [console_update] rounds, the
    cells, the cursor, the colours, the character count and the geometry stay
    as they were.  Input moves the window and the pointer only. *)
Theorem console_update_keeps_text
        (snapshots : list (pl050_regs * pl050_regs)) (w : world) :
  let w' := console_updates snapshots w in
  same_text (console w) (console w')
  /\ forall line col, read_cell (console w') line col = read_cell (console w) line col.
Proof.
  cbv zeta.
  pose proof (console_updates_text snapshots w) as H.
  split; [exact H |].
  destruct H as (Bu & _ & _ & _ & _ & _ & B & K & _).
  intros line col. apply read_cell_ext; assumption.
Qed.

(** ** The window stays in range *)

Lemma putchar_newline_window w :
  window_inv (console w) -> window_inv (console (putchar_newline w)).
Proof.
  intros (Hb & Hl & Hr & Hd & Hs).
  destruct (putchar_newline_effect w) as (L & _ & W & R & _ & B & _).
  cbv zeta in L, W.
  unfold max_scroll in Hd.
  rewrite (uint32_small (current_line (console w) + 1)) in L, W by lia.
  rewrite (uint32_small (buffer_lines (console w) - 1)) in L, W by lia.
  rewrite (uint32_small (display_start (console w) + console_rows (console w))) in W by lia.
  unfold window_inv, max_scroll. rewrite R, B.
  set (line2 := if buffer_lines (console w) <=? current_line (console w) + 1
                then buffer_lines (console w) - 1
                else current_line (console w) + 1) in *.
  assert (H2 : current_line (console w) <= line2 < buffer_lines (console w)).
  { subst line2. destruct (Z.leb_spec (buffer_lines (console w))
                             (current_line (console w) + 1)); lia. }
  clearbody line2. rewrite L.
  destruct (Z.leb_spec (display_start (console w) + console_rows (console w)) line2)
    as [Hfar | Hnear]; destruct W as [D P].
  - rewrite (uint32_small (line2 - console_rows (console w))) in D by lia.
    rewrite uint32_small in D by lia.
    rewrite P, D. lia.
  - rewrite P, D. lia.
Qed.

Lemma console_putchar_window ch w :
  window_inv (console w) -> window_inv (console (console_putchar ch w)).
Proof.
  intros H.
  destruct (console_putchar_shape ch w) as (w1 & (L & D & P & R & B) & [-> | ->]).
  - unfold window_inv, max_scroll in *. rewrite L, D, P, R, B. exact H.
  - apply putchar_newline_window.
    unfold window_inv, max_scroll in *. rewrite L, D, P, R, B. exact H.
Qed.

Lemma handle_scroll_window delta w :
  - 2 ^ 30 <= delta <= 2 ^ 30 ->
  window_inv (console w) -> window_inv (console (handle_scroll delta w)).
Proof.
  intros Hdelta (Hb & Hl & Hr & Hd & Hs).
  destruct (same_text_scroll delta w w (same_text_refl _))
    as (_ & L & _ & _ & _ & _ & B & _ & R & _).
  destruct (handle_scroll_position delta w) as (P & D1 & D2);
    try (unfold fits_int; lia).
  cbv zeta in P, D1, D2.
  unfold window_inv, max_scroll, clamp in *. rewrite L, B, R.
  destruct (Z.eq_dec (scroll_position (console (handle_scroll delta w)))
              (scroll_position (console w))) as [E | E].
  - rewrite (D2 E), E. lia.
  - rewrite (D1 E), P. lia.
Qed.

Lemma handle_keyboard_input_window kbd w :
  window_inv (console w) -> window_inv (console (handle_keyboard_input kbd w)).
Proof.
  intros H. pose proof H as (Hb & Hl & Hr & Hd & Hs).
  unfold handle_keyboard_input.
  destruct (negb _); [exact H |].
  cbv zeta.
  destruct (_ =? 0); [exact H |].
  destruct (_ =? 0x48); [apply handle_scroll_window; [lia | exact H] |].
  destruct (_ =? 0x50); [apply handle_scroll_window; [lia | exact H] |].
  destruct (_ =? 0x49).
  { apply handle_scroll_window; [| exact H].
    rewrite (to_int_small (console_rows (console w))) by lia.
    rewrite to_int_small by lia. lia. }
  destruct (_ =? 0x51).
  { apply handle_scroll_window; [| exact H].
    rewrite to_int_small by lia. lia. }
  destruct (_ =? 0x47).
  { rewrite console_render_console. rewrite !console_upd_console.
    unfold window_inv, max_scroll in *.
    cbn [buffer_lines current_line console_rows display_start scroll_position
         set_display_start set_scroll_position]. lia. }
  destruct (_ =? 0x4F); [| exact H].
  rewrite console_render_console. rewrite !console_upd_console.
  unfold window_inv, max_scroll in *.
  cbn [buffer_lines current_line console_rows display_start scroll_position
       set_display_start set_scroll_position].
  destruct (Z.leb_spec (console_rows (console w)) (current_line (console w))).
  - rewrite (uint32_small (current_line (console w) - console_rows (console w))) by lia.
    rewrite uint32_small by lia. lia.
  - lia.
Qed.

Lemma window_inv_ext c c' :
  same_text c c' ->
  display_start c' = display_start c -> scroll_position c' = scroll_position c ->
  window_inv c -> window_inv c'.
Proof.
  intros (_ & L & _ & _ & _ & _ & B & _ & R & _) D P.
  unfold window_inv, max_scroll. rewrite L, B, R, D, P. auto.
Qed.

Lemma handle_mouse_input_window mouse w :
  window_inv (console w) -> window_inv (console (handle_mouse_input mouse w)).
Proof.
  intros H.
  unfold handle_mouse_input. cbv zeta.
  destruct (negb _); [exact H |].
  destruct (_ =? 0); [exact H |].
  destruct (3 <=? _); [| exact H].
  match goal with
  | |- window_inv (console (upd_console ?f ?ws)) =>
      apply (window_inv_ext (console ws));
      [apply same_text_step; [intros c; repeat split | apply same_text_refl]
      | reflexivity | reflexivity |]
  end.
  match goal with
  | |- window_inv (console (if ?b then (if ?b' then handle_scroll ?d ?w6 else _) else _)) =>
      assert (H6 : window_inv (console w6));
      [| destruct b; [destruct b'; [apply handle_scroll_window;
                                    [destruct (0 <? _); lia | exact H6] | exact H6]
                     | exact H6]]
  end.
  repeat match goal with
         | |- window_inv (console (upd_console ?f ?w5)) =>
             apply (window_inv_ext (console w5));
             [apply same_text_step;
              [intros c; cbv beta; try destruct (_ <? _); try destruct (_ <=? _);
               repeat split
              | apply same_text_refl]
             | rewrite console_upd_console; try destruct (_ <? _); try destruct (_ <=? _);
               reflexivity
             | rewrite console_upd_console; try destruct (_ <? _); try destruct (_ <=? _);
               reflexivity |]
         end.
  exact H.
Qed.

Lemma console_update_window kbd mouse w :
  window_inv (console w) -> window_inv (console (console_update kbd mouse w)).
Proof.
  intros H. unfold console_update. cbv zeta.
  rewrite console_render_console.
  match goal with
  | |- window_inv (console (upd_console ?f ?w2)) =>
      apply (window_inv_ext (console w2));
      [apply same_text_step; [intros c; repeat split | apply same_text_refl]
      | reflexivity | reflexivity |]
  end.
  apply handle_mouse_input_window, handle_keyboard_input_window, H.
Qed.

Lemma console_clear_window w :
  window_inv (console w) -> window_inv (console (console_clear w)).
Proof.
  intros (Hb & Hl & Hr & Hd & Hs).
  unfold console_clear. cbv zeta.
  rewrite console_render_console, !console_upd_console.
  unfold window_inv, max_scroll.
  cbn [buffer_lines current_line console_rows display_start scroll_position
       set_display_start set_scroll_position set_total_chars set_current_col
       set_current_line set_buffer].
  lia.
Qed.

Lemma session_window steps :
  forall w, window_inv (console w) -> window_inv (console (session steps w)).
Proof.
  induction steps as [| s steps IH]; intros w H; [exact H |].
  change (session (s :: steps) w) with (session steps (session_do w s)).
  apply IH. destruct s as [ch | | kbd mouse]; cbn [session_do].
  - now apply console_putchar_window.
  - now apply console_clear_window.
  - now apply console_update_window.
Qed.

Lemma session_do_geometry s w :
  buffer_lines (console (session_do w s)) = buffer_lines (console w)
  /\ console_rows (console (session_do w s)) = console_rows (console w).
Proof.
  destruct s as [ch | | kbd mouse]; cbn [session_do].
  - destruct (console_putchar_shape ch w) as (w1 & (_ & _ & _ & R & B) & [-> | ->]).
    + split; assumption.
    + destruct (putchar_newline_effect w1) as (_ & _ & _ & R' & _ & B' & _).
      split; congruence.
  - unfold console_clear. cbv zeta. rewrite console_render_console. split; reflexivity.
  - destruct (console_update_text kbd mouse w) as (_ & _ & _ & _ & _ & _ & B & _ & R & _).
    split; assumption.
Qed.

Lemma session_geometry steps :
  forall w,
    buffer_lines (console (session steps w)) = buffer_lines (console w)
    /\ console_rows (console (session steps w)) = console_rows (console w).
Proof.
  induction steps as [| s steps IH]; intros w; [split; reflexivity |].
  change (session (s :: steps) w) with (session steps (session_do w s)).
  destruct (IH (session_do w s)) as [B R].
  destruct (session_do_geometry s w) as [B' R'].
  split; congruence.
Qed.

(** X21: however output, clearing and input are interleaved after
    [init_console_buffer], the renderer's first line [display_start] stays in
    the manual scroll range [0 .. max(0, current_line - console_rows + 1)] and
    the cursor line stays in the buffer; [scroll_position] never passes the
    cursor line (it can pass the scroll range, as after the End key). *)
Theorem window_stays_in_range (w0 : world) (steps : list session_step) :
  1 <= console_rows (console w0) < 2 ^ 30 ->
  let c := console (session steps (snd (init_console_buffer w0))) in
  0 <= display_start c <= max_scroll c
  /\ 0 <= scroll_position c <= current_line c
  /\ 0 <= current_line c < buffer_lines c
  /\ buffer_lines c = MAX_BUFFER_LINES
  /\ console_rows c = console_rows (console w0).
Proof.
  intros Hr. cbv zeta.
  destruct (init_console_buffer_console w0) as (B & L & _ & D & P & _ & _ & R & _).
  cbv zeta in B, L, D, P, R.
  generalize dependent (snd (init_console_buffer w0)). intros w B L D P R.
  assert (H : window_inv (console w)).
  { unfold window_inv, max_scroll. rewrite B, L, D, P, R. unfold MAX_BUFFER_LINES. lia. }
  pose proof (session_window steps w H) as (Hb & Hl & Hr' & Hd & Hs).
  destruct (session_geometry steps w) as [B' R'].
  split; [exact Hd | split; [exact Hs | split; [exact Hl | split; congruence]]].
Qed.

Lemma window_stays_in_range_witness :
  let c := console (session [StepPutchar "010"; StepClear]
                      (snd (init_console_buffer qemu_world))) in
  0 <= display_start c <= max_scroll c.
Proof.
  cbv zeta.
  destruct (window_stays_in_range qemu_world [StepPutchar "010"; StepClear]) as [H _].
  - change (console_rows (console qemu_world)) with 29. lia.
  - exact H.
Defined.

(** ** Manual scrolling in the states the console reaches *)

Lemma putchar_newline_ready w :
  window_inv (console w) -> scroll_ready (console w) ->
  scroll_ready (console (putchar_newline w)).
Proof.
  intros (Hb & Hl & Hr & Hd & Hs) Hready.
  destruct (putchar_newline_effect w) as (L & _ & W & R & _ & B & _).
  cbv zeta in L, W.
  unfold max_scroll in Hd.
  rewrite (uint32_small (current_line (console w) + 1)) in L, W by lia.
  rewrite (uint32_small (buffer_lines (console w) - 1)) in L, W by lia.
  rewrite (uint32_small (display_start (console w) + console_rows (console w))) in W by lia.
  unfold scroll_ready, max_scroll in *. rewrite R.
  set (line2 := if buffer_lines (console w) <=? current_line (console w) + 1
                then buffer_lines (console w) - 1
                else current_line (console w) + 1) in *.
  assert (H2 : current_line (console w) <= line2 < buffer_lines (console w)).
  { subst line2. destruct (Z.leb_spec (buffer_lines (console w))
                             (current_line (console w) + 1)); lia. }
  clearbody line2. rewrite L.
  destruct (Z.leb_spec (display_start (console w) + console_rows (console w)) line2)
    as [Hfar | Hnear]; destruct W as [D P].
  - left. exact (eq_sym P).
  - rewrite P, D. lia.
Qed.

Lemma console_putchar_ready ch w :
  window_inv (console w) -> scroll_ready (console w) ->
  scroll_ready (console (console_putchar ch w)).
Proof.
  intros Hw Hready.
  destruct (console_putchar_shape ch w) as (w1 & (L & D & P & R & B) & [-> | ->]).
  - unfold scroll_ready, max_scroll in *. rewrite L, D, P, R. exact Hready.
  - apply putchar_newline_ready.
    + unfold window_inv, max_scroll in *. rewrite L, D, P, R, B. exact Hw.
    + unfold scroll_ready, max_scroll in *. rewrite L, D, P, R. exact Hready.
Qed.

(** From a state that is ready, [handle_scroll] always leaves the window in
    step. *)
Lemma handle_scroll_in_step delta w :
  fits_int delta -> fits_int (scroll_position (console w) + delta) ->
  window_inv (console w) -> scroll_ready (console w) ->
  scroll_position (console (handle_scroll delta w))
  = clamp 0 (max_scroll (console w)) (scroll_position (console w) + delta)
  /\ display_start (console (handle_scroll delta w))
     = scroll_position (console (handle_scroll delta w)).
Proof.
  intros Fd Fs (Hb & Hl & Hr & Hd & Hs) Hready.
  destruct (handle_scroll_position delta w) as (P & D1 & D2);
    try (unfold fits_int in *; lia).
  cbv zeta in P, D1, D2.
  split; [exact P |].
  destruct (Z.eq_dec (scroll_position (console (handle_scroll delta w)))
              (scroll_position (console w))) as [E | E]; [| exact (D1 E)].
  rewrite (D2 E), E.
  destruct Hready as [Hsync | [_ Habove]]; [exact Hsync |].
  rewrite P in E. unfold clamp in E. lia.
Qed.

Lemma handle_scroll_ready delta w :
  - 2 ^ 30 <= delta <= 2 ^ 30 ->
  window_inv (console w) -> scroll_ready (console w) ->
  scroll_ready (console (handle_scroll delta w)).
Proof.
  intros Hdelta Hw Hready. left.
  pose proof Hw as (Hb & Hl & Hr & Hd & Hs).
  apply handle_scroll_in_step; try assumption; unfold fits_int; lia.
Qed.

Lemma handle_keyboard_input_ready kbd w :
  window_inv (console w) -> scroll_ready (console w) ->
  scroll_ready (console (handle_keyboard_input kbd w)).
Proof.
  intros H Hready. pose proof H as (Hb & Hl & Hr & Hd & Hs).
  unfold handle_keyboard_input.
  destruct (negb _); [exact Hready |].
  cbv zeta.
  destruct (_ =? 0); [exact Hready |].
  destruct (_ =? 0x48); [apply handle_scroll_ready; [lia | exact H | exact Hready] |].
  destruct (_ =? 0x50); [apply handle_scroll_ready; [lia | exact H | exact Hready] |].
  destruct (_ =? 0x49).
  { apply handle_scroll_ready; [| exact H | exact Hready].
    rewrite (to_int_small (console_rows (console w))) by lia.
    rewrite to_int_small by lia. lia. }
  destruct (_ =? 0x51).
  { apply handle_scroll_ready; [| exact H | exact Hready].
    rewrite to_int_small by lia. lia. }
  destruct (_ =? 0x47).
  { rewrite console_render_console. rewrite !console_upd_console. left. reflexivity. }
  destruct (_ =? 0x4F); [| exact Hready].
  rewrite console_render_console. rewrite !console_upd_console.
  unfold scroll_ready, max_scroll.
  cbn [current_line console_rows display_start scroll_position
       set_display_start set_scroll_position].
  destruct (Z.leb_spec (console_rows (console w)) (current_line (console w))).
  - rewrite (uint32_small (current_line (console w) - console_rows (console w))) by lia.
    rewrite uint32_small by lia. lia.
  - lia.
Qed.

Lemma scroll_ready_ext c c' :
  same_text c c' ->
  display_start c' = display_start c -> scroll_position c' = scroll_position c ->
  scroll_ready c -> scroll_ready c'.
Proof.
  intros (_ & L & _ & _ & _ & _ & _ & _ & R & _) D P.
  unfold scroll_ready, max_scroll. rewrite L, R, D, P. auto.
Qed.

Lemma handle_mouse_input_ready mouse w :
  window_inv (console w) -> scroll_ready (console w) ->
  scroll_ready (console (handle_mouse_input mouse w)).
Proof.
  intros H Hready.
  unfold handle_mouse_input. cbv zeta.
  destruct (negb _); [exact Hready |].
  destruct (_ =? 0); [exact Hready |].
  destruct (3 <=? _); [| exact Hready].
  match goal with
  | |- scroll_ready (console (upd_console ?f ?ws)) =>
      apply (scroll_ready_ext (console ws));
      [apply same_text_step; [intros c; repeat split | apply same_text_refl]
      | reflexivity | reflexivity |]
  end.
  match goal with
  | |- scroll_ready (console (if ?b then (if ?b' then handle_scroll ?d ?w6 else _) else _)) =>
      assert (H6 : window_inv (console w6) /\ scroll_ready (console w6));
      [| destruct H6 as [H6 H6'];
         destruct b; [destruct b'; [apply handle_scroll_ready;
                                    [destruct (0 <? _); lia | exact H6 | exact H6']
                                   | exact H6']
                     | exact H6']]
  end.
  split.
  - repeat match goal with
           | |- window_inv (console (upd_console ?f ?w5)) =>
               apply (window_inv_ext (console w5));
               [apply same_text_step;
                [intros c; cbv beta; try destruct (_ <? _); try destruct (_ <=? _);
                 repeat split
                | apply same_text_refl]
               | rewrite console_upd_console; try destruct (_ <? _); try destruct (_ <=? _);
                 reflexivity
               | rewrite console_upd_console; try destruct (_ <? _); try destruct (_ <=? _);
                 reflexivity |]
           end.
    exact H.
  - repeat match goal with
           | |- scroll_ready (console (upd_console ?f ?w5)) =>
               apply (scroll_ready_ext (console w5));
               [apply same_text_step;
                [intros c; cbv beta; try destruct (_ <? _); try destruct (_ <=? _);
                 repeat split
                | apply same_text_refl]
               | rewrite console_upd_console; try destruct (_ <? _); try destruct (_ <=? _);
                 reflexivity
               | rewrite console_upd_console; try destruct (_ <? _); try destruct (_ <=? _);
                 reflexivity |]
           end.
    exact Hready.
Qed.

Lemma console_update_ready kbd mouse w :
  window_inv (console w) -> scroll_ready (console w) ->
  scroll_ready (console (console_update kbd mouse w)).
Proof.
  intros H Hready. unfold console_update. cbv zeta.
  rewrite console_render_console.
  match goal with
  | |- scroll_ready (console (upd_console ?f ?w2)) =>
      apply (scroll_ready_ext (console w2));
      [apply same_text_step; [intros c; repeat split | apply same_text_refl]
      | reflexivity | reflexivity |]
  end.
  apply handle_mouse_input_ready.
  - apply handle_keyboard_input_window, H.
  - apply handle_keyboard_input_ready; assumption.
Qed.

Lemma console_clear_ready w : scroll_ready (console (console_clear w)).
Proof.
  unfold console_clear. cbv zeta.
  rewrite console_render_console, !console_upd_console. left. reflexivity.
Qed.

Lemma session_ready steps :
  forall w,
    window_inv (console w) -> scroll_ready (console w) ->
    window_inv (console (session steps w)) /\ scroll_ready (console (session steps w)).
Proof.
  induction steps as [| s steps IH]; intros w H Hready; [split; assumption |].
  change (session (s :: steps) w) with (session steps (session_do w s)).
  apply IH; destruct s as [ch | | kbd mouse]; cbn [session_do].
  - now apply console_putchar_window.
  - now apply console_clear_window.
  - now apply console_update_window.
  - now apply console_putchar_ready.
  - apply console_clear_ready.
  - now apply console_update_ready.
Qed.

Lemma init_console_buffer_ready w0 :
  1 <= console_rows (console w0) < 2 ^ 30 ->
  window_inv (console (snd (init_console_buffer w0)))
  /\ scroll_ready (console (snd (init_console_buffer w0))).
Proof.
  intros Hr.
  destruct (init_console_buffer_console w0) as (B & L & _ & D & P & _ & _ & R & _).
  cbv zeta in B, L, D, P, R.
  split.
  - unfold window_inv, max_scroll. rewrite B, L, D, P, R. unfold MAX_BUFFER_LINES. lia.
  - left. congruence.
Qed.

(** C5, as the code has it: in every state the console reaches after
    [init_console_buffer], however output, clearing and input have been
    interleaved, [handle_scroll delta] leaves [scroll_position] equal to
    [scroll_position + delta] clamped to the interval from 0 to
    [max 0 (current_line - console_rows + 1)], and [display_start] equal to
    [scroll_position].  A step of 1000 reaches an end of the range only from
    at most 1000 lines away: [handle_scroll (-1000)] yields 0 when
    [scroll_position <= 1000], and [handle_scroll 1000] yields the maximum
    when the maximum is at most [scroll_position + 1000].  The console has
    between 1 and 2^30 rows, as after every successful [setup_framebuffer]. *)
Theorem handle_scroll_clamps (w0 : world) (steps : list session_step) (delta : Z) :
  1 <= console_rows (console w0) < 2 ^ 30 ->
  let w := session steps (snd (init_console_buffer w0)) in
  let c := console w in
  let c' := console (handle_scroll delta w) in
  fits_int delta ->
  fits_int (scroll_position c + delta) ->
  scroll_position c' = clamp 0 (max_scroll c) (scroll_position c + delta)
  /\ display_start c' = scroll_position c'
  /\ (delta = -1000 -> scroll_position c <= 1000 -> scroll_position c' = 0)
  /\ (delta = 1000 -> max_scroll c <= scroll_position c + 1000 ->
        scroll_position c' = max_scroll c).
Proof.
  intros Hr. cbv zeta.
  destruct (init_console_buffer_ready w0 Hr) as [Hw0 Hr0].
  destruct (session_ready steps _ Hw0 Hr0) as [Hw Hready].
  generalize dependent (session steps (snd (init_console_buffer w0))).
  intros w Hw Hready Fd Fs.
  destruct (handle_scroll_in_step delta w Fd Fs Hw Hready) as [P D].
  destruct Hw as (_ & _ & _ & _ & Hs).
  split; [exact P | split; [exact D | split]].
  - intros -> Hsmall. rewrite P. unfold clamp, max_scroll. lia.
  - intros -> Hsmall. rewrite P. unfold clamp, max_scroll in *. lia.
Qed.

Lemma handle_scroll_clamps_witness :
  let w := session [StepPutchar "010"; StepUpdate {| PL050_STAT := 0x10; PL050_DATA := 0x4F |}
                      {| PL050_STAT := 0; PL050_DATA := 0 |}]
             (snd (init_console_buffer qemu_world)) in
  display_start (console (handle_scroll (-1000) w))
  = scroll_position (console (handle_scroll (-1000) w)).
Proof.
  cbv zeta.
  assert (Hr : 1 <= console_rows (console qemu_world) < 2 ^ 30)
    by (change (console_rows (console qemu_world)) with 29; lia).
  pose proof (handle_scroll_clamps qemu_world
                [StepPutchar "010"; StepUpdate {| PL050_STAT := 0x10; PL050_DATA := 0x4F |}
                   {| PL050_STAT := 0; PL050_DATA := 0 |}] (-1000) Hr) as H.
  cbv zeta in H.
  destruct (init_console_buffer_ready qemu_world Hr) as [Hw0 Hr0].
  destruct (session_ready
              [StepPutchar "010"; StepUpdate {| PL050_STAT := 0x10; PL050_DATA := 0x4F |}
                 {| PL050_STAT := 0; PL050_DATA := 0 |}] _ Hw0 Hr0) as [Hw _].
  generalize dependent (session
              [StepPutchar "010"; StepUpdate {| PL050_STAT := 0x10; PL050_DATA := 0x4F |}
                 {| PL050_STAT := 0; PL050_DATA := 0 |}]
              (snd (init_console_buffer qemu_world))).
  intros w H (Hb & Hl & _ & _ & Hs).
  destruct H as (_ & D & _); [unfold fits_int; lia | unfold fits_int; lia | exact D].
Defined.

(** A state at which the property as first stated fails.  After 2999 newlines
    on the emulator's console the window starts at line 2971, and
    [handle_scroll (-1000)] stops at line 1971, not at 0. *)
Lemma handle_scroll_counterexample :
  let w := session (map StepPutchar (replicate (Z.to_nat 2999) newline))
             (snd (init_console_buffer qemu_world)) in
  scroll_position (console w) = 2971
  /\ scroll_position (console (handle_scroll (-1000) w)) = 1971
  /\ scroll_position (console (handle_scroll (-1000) w)) <> 0.
Proof.
  cbv zeta.
  assert (Hses : forall cs w, session (map StepPutchar cs) w = putchars cs w).
  { induction cs as [| ch cs IH]; intros w; [reflexivity |]. apply IH. }
  rewrite Hses.
  assert (Hrows : console_rows (console qemu_world) = 29) by reflexivity.
  destruct (init_console_buffer_console qemu_world)
    as (B & L & _ & D & P & _ & _ & R & _).
  cbv zeta in B, L, D, P, R. rewrite Hrows in R.
  pose proof (init_console_buffer_follow qemu_world) as Hf.
  rewrite Hrows in Hf. specialize (Hf ltac:(lia)).
  generalize dependent (snd (init_console_buffer qemu_world)). intros w0 B L D P R Hf.
  assert (Hsync : display_start (console w0) = scroll_position (console w0)) by congruence.
  assert (Hn : Z.of_nat (Z.to_nat 2999) = 2999) by apply Z2Nat.id, Z.leb_le, eq_refl.
  generalize dependent (Z.to_nat 2999). intros n Hn.
  destruct (newlines_quiet n w0) as (L' & _);
    try (rewrite ?L, ?B; unfold MAX_BUFFER_LINES; lia).
  cbv zeta in L'. rewrite L, Hn in L'.
  pose proof (putchars_follow (replicate n newline) w0 Hf) as (_ & _ & _ & A).
  pose proof (putchars_sync (replicate n newline) w0 Hsync) as Y.
  pose proof (putchars_rows (replicate n newline) w0) as R'.
  rewrite R in R'. unfold auto_follow in A. rewrite R', L' in A.
  generalize dependent (putchars (replicate n newline) w0).
  intros w L' A Y R'.
  assert (Hd : display_start (console w) = 2971).
  { destruct (Z.leb_spec (29 - 1) (0 + 2999)); lia. }
  assert (Hs : scroll_position (console w) = 2971) by congruence.
  split; [exact Hs |].
  destruct (handle_scroll_position (-1000) w) as (S & _);
    unfold fits_int; try (rewrite ?Hs, ?L', ?R'; lia).
  cbv zeta in S.
  assert (S' : scroll_position (console (handle_scroll (-1000) w)) = 1971).
  { rewrite S. unfold clamp, max_scroll. rewrite Hs, L', R'. lia. }
  split; [exact S' | rewrite S'; lia].
Qed.

(** ** The pointer stays on the screen *)

Lemma handle_scroll_mouse_packet delta w :
  mouse_packet (handle_scroll delta w) = mouse_packet w.
Proof.
  unfold handle_scroll. cbv zeta.
  destruct (negb _); [| reflexivity].
  match goal with
  | |- mouse_packet (render_console ?t) = _ =>
      destruct (render_console_only_vram t) as (_ & _ & _ & -> & _)
  end.
  reflexivity.
Qed.

Lemma handle_mouse_input_pointer mouse w :
  1 <= width (console w) <= 2 ^ 30 -> 1 <= height (console w) <= 2 ^ 30 ->
  pointer_inv w -> pointer_inv (handle_mouse_input mouse w).
Proof.
  intros Hw Hh Hinv. pose proof Hinv as (Hx & Hy & Hi & Hlen).
  unfold handle_mouse_input.
  destruct (negb _); [exact Hinv |].
  cbv zeta.
  destruct (_ =? 0); [exact Hinv |].
  cbn [packet_index set_mouse_packet set_packet_index mouse_packet].
  rewrite (to_int_small (packet_index w + 1)) by lia.
  destruct (Z.leb_spec 3 (packet_index w + 1)) as [Hfull | Hmore].
  - set (packet := <[Z.to_nat (packet_index w) := ps2_read_data mouse]> (mouse_packet w)).
    assert (Hlen' : length packet = 3%nat) by (subst packet; now rewrite length_insert).
    set (w0 := set_packet_index 0 _).
    assert (P0 : mouse_packet w0 = packet) by reflexivity.
    assert (Hw0 : 1 <= width (console w0) < 2 ^ 31) by (change (console w0) with (console w); lia).
    assert (Hh0 : 1 <= height (console w0) < 2 ^ 31) by (change (console w0) with (console w); lia).
    assert (Hx0 : - 2 ^ 30 <= mouse_x (console w0) <= 2 ^ 30)
      by (change (console w0) with (console w); lia).
    assert (Hy0 : - 2 ^ 30 <= mouse_y (console w0) <= 2 ^ 30)
      by (change (console w0) with (console w); lia).
    pose proof (pointer_moved w0 (to_int8 (default 0 (packet !! 1%nat)))
                  (to_int8 (default 0 (packet !! 2%nat)))
                  Hw0 Hh0 Hx0 Hy0 (to_int8_range _) (to_int8_range _)) as H6.
    cbv zeta in H6.
    change (mouse_packet w0) with packet.
    set (w6 := upd_console (fun c => if to_int (height c) <=? mouse_y c then _ else c) _) in *.
    assert (T6 : same_text (console w0) (console w6)).
    { subst w6. repeat text_step. apply same_text_refl. }
    assert (P6 : mouse_packet w6 = packet) by reflexivity.
    change (console w0) with (console w) in H6, T6.
    change (packet_index w0) with 0 in H6.
    destruct H6 as (X & Y & _ & _ & _ & I).
    destruct T6 as (_ & _ & _ & _ & _ & _ & _ & _ & _ & _ & W6 & H6 & _).
    clearbody w6. clear w0 P0 Hw0 Hh0 Hx0 Hy0.
    set (ws := if negb (Z.land _ 2 =? 0) then _ else w6).
    assert (Hs : mouse_x (console ws) = mouse_x (console w6)
                 /\ mouse_y (console ws) = mouse_y (console w6)
                 /\ packet_index ws = packet_index w6
                 /\ mouse_packet ws = mouse_packet w6
                 /\ width (console ws) = width (console w6)
                 /\ height (console ws) = height (console w6)).
    { subst ws.
      destruct (negb _); [| repeat split].
      destruct (negb _); [| repeat split].
      match goal with
      | |- context [handle_scroll ?d w6] =>
          destruct (handle_scroll_frame d w6) as (A1 & A2 & A3);
          pose proof (handle_scroll_mouse_packet d w6) as A4;
          destruct (same_text_scroll d w6 w6 (same_text_refl _))
            as (_ & _ & _ & _ & _ & _ & _ & _ & _ & _ & A5 & A6 & _)
      end.
      repeat split; assumption. }
    destruct Hs as (Xs & Ys & Is & Ps & Ws & Hs). clearbody ws.
    unfold pointer_inv. rewrite console_upd_console.
    cbn [mouse_x mouse_y width height set_mouse_buttons upd_console packet_index
         mouse_packet set_console].
    rewrite Xs, Ys, Is, Ps, Ws, Hs, X, Y, I, P6, W6, H6.
    unfold clamp. repeat split; try lia.
  - unfold pointer_inv.
    cbn [console mouse_packet packet_index set_packet_index set_mouse_packet].
    rewrite length_insert. repeat split; try lia; apply Hx || apply Hy.
Qed.

Lemma handle_mouse_input_size mouse w :
  width (console (handle_mouse_input mouse w)) = width (console w)
  /\ height (console (handle_mouse_input mouse w)) = height (console w).
Proof.
  destruct (handle_mouse_input_text mouse w)
    as (_ & _ & _ & _ & _ & _ & _ & _ & _ & _ & W & H & _).
  split; assumption.
Qed.

Lemma mouse_inputs_pointer snapshots :
  forall w,
    1 <= width (console w) <= 2 ^ 30 -> 1 <= height (console w) <= 2 ^ 30 ->
    pointer_inv w -> pointer_inv (mouse_inputs snapshots w).
Proof.
  induction snapshots as [| regs snapshots IH]; intros w Hw Hh H; [exact H |].
  change (mouse_inputs (regs :: snapshots) w)
    with (mouse_inputs snapshots (handle_mouse_input regs w)).
  destruct (handle_mouse_input_size regs w) as [W Hg].
  apply IH; [rewrite W; exact Hw | rewrite Hg; exact Hh |].
  now apply handle_mouse_input_pointer.
Qed.

(** X22: whatever bytes the mouse delivers, in whatever number, the pointer stays
    on the screen, [0 <= mouse_x < width] and [0 <= mouse_y < height], and
    the packet decoder's index stays inside its three-byte packet. *)
Theorem pointer_stays_on_screen (snapshots : list pl050_regs) (w : world) :
  1 <= width (console w) <= 2 ^ 30 -> 1 <= height (console w) <= 2 ^ 30 ->
  pointer_inv w ->
  let w' := mouse_inputs snapshots w in
  0 <= mouse_x (console w') < width (console w)
  /\ 0 <= mouse_y (console w') < height (console w)
  /\ 0 <= packet_index w' < 3
  /\ length (mouse_packet w') = 3%nat.
Proof.
  intros Hw Hh H. cbv zeta.
  pose proof (mouse_inputs_pointer snapshots w Hw Hh H) as (X & Y & I & L).
  assert (S : width (console (mouse_inputs snapshots w)) = width (console w)
              /\ height (console (mouse_inputs snapshots w)) = height (console w)).
  { clear. revert w.
    induction snapshots as [| regs snapshots IH]; intros w; [split; reflexivity |].
    change (mouse_inputs (regs :: snapshots) w)
      with (mouse_inputs snapshots (handle_mouse_input regs w)).
    destruct (IH (handle_mouse_input regs w)) as [A B].
    destruct (handle_mouse_input_size regs w) as [A' B'].
    split; congruence. }
  destruct S as [Sw Sh]. rewrite Sw in X. rewrite Sh in Y.
  split; [exact X | split; [exact Y | split; [exact I | exact L]]].
Qed.

Lemma pointer_stays_on_screen_witness :
  let w' := mouse_inputs [{| PL050_STAT := 0x10; PL050_DATA := 0x08 |};
                          {| PL050_STAT := 0x10; PL050_DATA := 200 |};
                          {| PL050_STAT := 0x10; PL050_DATA := 100 |}] qemu_world in
  0 <= mouse_x (console w') < width (console qemu_world).
Proof.
  cbv zeta.
  destruct (pointer_stays_on_screen
              [{| PL050_STAT := 0x10; PL050_DATA := 0x08 |};
               {| PL050_STAT := 0x10; PL050_DATA := 200 |};
               {| PL050_STAT := 0x10; PL050_DATA := 100 |}] qemu_world) as [H _].
  - change (width (console qemu_world)) with 640. lia.
  - change (height (console qemu_world)) with 480. lia.
  - unfold pointer_inv.
    change (width (console qemu_world)) with 640.
    change (height (console qemu_world)) with 480.
    change (mouse_x (console qemu_world)) with 0.
    change (mouse_y (console qemu_world)) with 0.
    change (packet_index qemu_world) with 0.
    change (mouse_packet qemu_world) with [0; 0; 0].
    cbn [length]. lia.
  - exact H.
Defined.

(** ** Scrolling after the End key *)

(** X23: after the End key on a buffer longer than the screen, [scroll_position]
    sits on the cursor line, above the scroll range.  The next scroll command
    of any size therefore always counts as a change: it clamps the position
    into the range and brings [display_start] back in step.  Seen from the
    window, arrow-up after End does not move the view, and page-up moves it
    by a single line. *)
Theorem scroll_after_end (kbd : pl050_regs) (delta : Z) (w : world) :
  platform (current_platform w) = PLATFORM_QEMU_VERSATILE ->
  ps2_read_data kbd = 0x4F ->
  2 <= console_rows (console w) <= current_line (console w) ->
  current_line (console w) < 2 ^ 30 ->
  - 2 ^ 30 <= delta <= 2 ^ 30 ->
  let c := console w in
  let c1 := console (handle_keyboard_input kbd w) in
  let c2 := console (handle_scroll delta (handle_keyboard_input kbd w)) in
  display_start c1 = current_line c - console_rows c + 1
  /\ scroll_position c2 = clamp 0 (current_line c - console_rows c + 1) (current_line c + delta)
  /\ display_start c2 = scroll_position c2
  /\ (delta = -1 -> display_start c2 = display_start c1)
  /\ (delta = - console_rows c -> display_start c2 = display_start c1 - 1).
Proof.
  intros Hq He Hr Hl Hd. cbv zeta.
  pose proof (handle_keyboard_input_end kbd w Hq He) as E.
  destruct (Z.leb_spec (console_rows (console w)) (current_line (console w))); [| lia].
  rewrite (uint32_small (current_line (console w) - console_rows (console w))) in E by lia.
  rewrite uint32_small in E by lia.
  set (w1 := handle_keyboard_input kbd w) in *.
  assert (L1 : current_line (console w1) = current_line (console w)) by now rewrite E.
  assert (R1 : console_rows (console w1) = console_rows (console w)) by now rewrite E.
  assert (P1 : scroll_position (console w1) = current_line (console w)) by now rewrite E.
  assert (D1 : display_start (console w1)
               = current_line (console w) - console_rows (console w) + 1) by now rewrite E.
  clearbody w1. clear E.
  destruct (handle_scroll_position delta w1) as (P & Dne & _);
    try (unfold fits_int; rewrite ?P1, ?L1, ?R1; lia).
  cbv zeta in P, Dne. unfold max_scroll in P. rewrite L1, R1, P1 in *.
  replace (Z.max 0 (current_line (console w) - console_rows (console w) + 1))
    with (current_line (console w) - console_rows (console w) + 1) in P by lia.
  assert (Hne : scroll_position (console (handle_scroll delta w1))
                <> current_line (console w)) by (rewrite P; unfold clamp; lia).
  specialize (Dne Hne).
  split; [exact D1 | split; [exact P | split; [exact Dne |]]].
  rewrite Dne, P, D1. unfold clamp. split; intros ->; lia.
Qed.

Lemma scroll_after_end_witness :
  let w := upd_console (set_current_line 100) qemu_world in
  let kbd := {| PL050_STAT := 0x10; PL050_DATA := 0x4F |} in
  display_start (console (handle_scroll (-1) (handle_keyboard_input kbd w)))
  = display_start (console (handle_keyboard_input kbd w)).
Proof.
  cbv zeta.
  set (w := upd_console (set_current_line 100) qemu_world).
  assert (Hq : platform (current_platform w) = PLATFORM_QEMU_VERSATILE) by reflexivity.
  assert (L : current_line (console w) = 100) by reflexivity.
  assert (R : console_rows (console w) = 29) by reflexivity.
  clearbody w.
  destruct (scroll_after_end {| PL050_STAT := 0x10; PL050_DATA := 0x4F |} (-1) w Hq)
    as (_ & _ & _ & H & _).
  - reflexivity.
  - rewrite L, R. lia.
  - rewrite L. lia.
  - lia.
  - apply H. reflexivity.
Defined.

(** ** The limit of the static cell array *)

(** X24: [get_cell] checks the position against the grid, not against the array:
    on a console wider than 240 columns (a display wider than 1927 pixels)
    the grid is larger than [static_buffer], and for the cells at its end
    [get_cell] returns an address past the end of the array. *)
Theorem get_cell_past_static_buffer (w0 : world) (line col : Z) :
  buffer (console w0) = [] ->
  240 < console_cols (console w0) < 2 ^ 20 ->
  let c := console (snd (init_console_buffer w0)) in
  0 <= line < buffer_lines c -> 0 <= col < console_cols c ->
  STATIC_BUFFER_CELLS <= line * console_cols c + col ->
  Z.of_nat (length (buffer c)) = STATIC_BUFFER_CELLS
  /\ exists idx, get_cell c line col = Some idx
                 /\ Z.of_nat (length (buffer c)) <= idx.
Proof.
  intros Hnull Hcols. cbv zeta.
  assert (Hlen : length (buffer (console (snd (init_console_buffer w0))))
                 = Z.to_nat STATIC_BUFFER_CELLS).
  { rewrite init_console_buffer_buffer, for_loop_insert_length.
    rewrite (static_buffer_null _ Hnull). apply length_replicate. }
  destruct (init_console_buffer_console w0) as (B & _ & _ & _ & _ & _ & _ & _ & K).
  cbv zeta in B, K.
  generalize dependent (snd (init_console_buffer w0)). intros w Hlen B K.
  rewrite B, K, Hlen. unfold MAX_BUFFER_LINES, STATIC_BUFFER_CELLS, MAX_BUFFER_LINES.
  intros Hl Hc Hpast.
  split; [lia |].
  unfold get_cell. rewrite B, K. unfold MAX_BUFFER_LINES.
  destruct (Z.leb_spec (console_cols (console w0)) col); [lia |].
  destruct (Z.leb_spec 3000 line); [lia |].
  cbn [orb]. eexists. split; [reflexivity |].
  rewrite uint32_small by nia. lia.
Qed.

Lemma get_cell_past_static_buffer_witness :
  let w0 := upd_console (set_console_cols 480) boot_world in
  exists idx, get_cell (console (snd (init_console_buffer w0))) 2999 479 = Some idx
              /\ STATIC_BUFFER_CELLS <= idx.
Proof.
  cbv zeta.
  set (w0 := upd_console (set_console_cols 480) boot_world).
  assert (Hnull : buffer (console w0) = []) by reflexivity.
  assert (K0 : console_cols (console w0) = 480) by reflexivity.
  clearbody w0.
  destruct (init_console_buffer_console w0) as (B & _ & _ & _ & _ & _ & _ & _ & K).
  cbv zeta in B, K.
  destruct (get_cell_past_static_buffer w0 2999 479 Hnull) as (Hlen & idx & Hget & Hidx).
  - rewrite K0. lia.
  - rewrite B. unfold MAX_BUFFER_LINES. lia.
  - rewrite K, K0. lia.
  - rewrite K, K0. unfold STATIC_BUFFER_CELLS, MAX_BUFFER_LINES. lia.
  - exists idx. split; [exact Hget | lia].
Defined.

(** ** What the pixel loops paint *)

Lemma painted_refl color v : painted color v v.
Proof. intros a. now right. Qed.

Lemma painted_trans color v1 v2 v3 :
  painted color v1 v2 -> painted color v2 v3 -> painted color v1 v3.
Proof.
  intros H12 H23 a.
  destruct (H23 a) as [H | H]; [now left |].
  rewrite H. apply H12.
Qed.

Lemma painted_insert color v a : painted color v (<[a := color]> v).
Proof.
  intros b. destruct (Z.eq_dec a b) as [-> | Hne].
  - left. apply lookup_insert_eq.
  - right. now apply lookup_insert_ne.
Qed.

Lemma painted_keeps color v v' a :
  painted color v v' -> v !! a = Some color -> v' !! a = Some color.
Proof. intros H Ha. destruct (H a) as [E | E]; [exact E | now rewrite E]. Qed.

Lemma for_loop_ext {S : Type} (body body' : Z -> S -> S) :
  forall n i s,
    (forall j t, i <= j < i + Z.of_nat n -> body j t = body' j t) ->
    for_loop n i body s = for_loop n i body' s.
Proof.
  induction n as [| n IH]; intros i s H; [reflexivity |].
  cbn [for_loop]. rewrite (H i s) by lia.
  apply IH. intros j t Hj. apply H. lia.
Qed.

(** A loop that stores one colour at the addresses [g i]: those words hold
    the colour afterwards and every other word is as before. *)
Lemma paint_loop color (g : Z -> Z) n i0 w :
  let w' := for_loop n i0 (fun i w => set_vram (<[g i := color]> (vram w)) w) w in
  painted color (vram w) (vram w')
  /\ (forall i, i0 <= i < i0 + Z.of_nat n -> vram w' !! g i = Some color)
  /\ (forall a, (forall i, i0 <= i < i0 + Z.of_nat n -> a <> g i) ->
        vram w' !! a = vram w !! a).
Proof.
  cbv zeta.
  apply (for_loop_invariant
           (fun j t => painted color (vram w) (vram t)
                       /\ (forall i, i0 <= i < j -> vram t !! g i = Some color)
                       /\ (forall a, (forall i, i0 <= i < j -> a <> g i) ->
                              vram t !! a = vram w !! a))).
  - split; [apply painted_refl | split; [intros; lia | reflexivity]].
  - intros j t Hj (Hp & Hdone & Hframe). split; [| split].
    + eapply painted_trans; [exact Hp | apply painted_insert].
    + intros i Hi. cbn [vram set_vram].
      destruct (Z.eq_dec i j) as [-> | Hne]; [apply lookup_insert_eq |].
      apply (painted_keeps color (vram t)); [apply painted_insert | apply Hdone; lia].
    + intros a Ha. cbn [vram set_vram].
      rewrite lookup_insert_ne by (intros E; apply (Ha j); [lia | now symmetry]).
      apply Hframe. intros i Hi. apply Ha. lia.
Qed.

(** A loop of such loops. *)
Lemma paint_rows color (addr : Z -> Z -> Z) (cols : Z) (body : Z -> world -> world) n y0 w :
  (forall y t,
     painted color (vram t) (vram (body y t))
     /\ (forall x, 0 <= x < cols -> vram (body y t) !! addr y x = Some color)
     /\ (forall a, (forall x, 0 <= x < cols -> a <> addr y x) ->
           vram (body y t) !! a = vram t !! a)) ->
  let w' := for_loop n y0 body w in
  painted color (vram w) (vram w')
  /\ (forall y x, y0 <= y < y0 + Z.of_nat n -> 0 <= x < cols ->
        vram w' !! addr y x = Some color)
  /\ (forall a, (forall y x, y0 <= y < y0 + Z.of_nat n -> 0 <= x < cols -> a <> addr y x) ->
        vram w' !! a = vram w !! a).
Proof.
  intros Hbody. cbv zeta.
  apply (for_loop_invariant
           (fun j t => painted color (vram w) (vram t)
                       /\ (forall y x, y0 <= y < j -> 0 <= x < cols ->
                             vram t !! addr y x = Some color)
                       /\ (forall a, (forall y x, y0 <= y < j -> 0 <= x < cols ->
                                        a <> addr y x) ->
                              vram t !! a = vram w !! a))).
  - split; [apply painted_refl | split; [intros; lia | reflexivity]].
  - intros j t Hj (Hp & Hdone & Hframe).
    destruct (Hbody j t) as (Hq & Hrow & Hrest). split; [| split].
    + eapply painted_trans; [exact Hp | exact Hq].
    + intros y x Hy Hx.
      destruct (Z.eq_dec y j) as [-> | Hne]; [now apply Hrow |].
      apply (painted_keeps color (vram t)); [exact Hq | apply Hdone; lia].
    + intros a Ha.
      rewrite Hrest by (intros x Hx; apply Ha; lia).
      apply Hframe. intros y x Hy Hx. apply Ha; lia.
Qed.

Lemma fill_rows_paints y0 y1 color w :
  y0 <= y1 ->
  let c := console w in
  let w' := fill_rows y0 y1 color w in
  (forall y x, y0 <= y < y1 -> 0 <= x < width c ->
     vram w' !! pixel_address c (uint32 (y * pitch c) + x) = Some color)
  /\ (forall a,
        (forall y x, y0 <= y < y1 -> 0 <= x < width c ->
           a <> pixel_address c (uint32 (y * pitch c) + x)) ->
        vram w' !! a = vram w !! a).
Proof.
  intros Hy. cbv zeta. unfold fill_rows. cbv zeta.
  destruct (paint_rows color
              (fun y x => pixel_address (console w) (uint32 (y * pitch (console w)) + x))
              (width (console w))
              (fun y w0 =>
                 for_loop (Z.to_nat (width (console w))) 0
                   (fun x w1 =>
                      set_vram (<[pixel_address (console w)
                                    (uint32 (y * pitch (console w)) + x) := color]>
                                  (vram w1)) w1) w0)
              (Z.to_nat (y1 - y0)) y0 w) as (_ & Hrows & Hframe).
  - intros y t.
    destruct (paint_loop color
                (fun x => pixel_address (console w) (uint32 (y * pitch (console w)) + x))
                (Z.to_nat (width (console w))) 0 t) as (Hq & Hrow & Hrest).
    split; [exact Hq | split].
    + intros x Hx. apply Hrow. lia.
    + intros a Ha. apply Hrest. intros x Hx. apply Ha. lia.
  - split.
    + intros y x Hy' Hx. apply Hrows; lia.
    + intros a Ha. apply Hframe. intros y x Hy' Hx. apply Ha; lia.
Qed.

(** X25: [clear_screen] stores the colour in every pixel of the [width] by
    [height] rectangle, rows [pitch] words apart, and changes nothing else:
    every word of pixel memory that is not the word of such a pixel keeps its
    value, and the whole console state is as before. *)
Theorem clear_screen_fills (color : Z) (w : world) :
  framebuffer (console w) <> 0 ->
  let c := console w in
  let w' := clear_screen color w in
  (forall x y, 0 <= x < width c -> 0 <= y < height c ->
     vram w' !! pixel_address c (uint32 (y * pitch c) + x) = Some color)
  /\ (forall a,
        (forall x y, 0 <= x < width c -> 0 <= y < height c ->
           a <> pixel_address c (uint32 (y * pitch c) + x)) ->
        vram w' !! a = vram w !! a)
  /\ only_vram w w'.
Proof.
  intros Hfb. cbv zeta.
  split; [| split; [| apply clear_screen_only_vram]].
  - intros x y Hx Hy. unfold clear_screen.
    destruct (Z.eqb_spec (framebuffer (console w)) 0); [contradiction |].
    destruct (fill_rows_paints 0 (height (console w)) color w ltac:(lia)) as [H _].
    apply H; lia.
  - intros a Ha. unfold clear_screen.
    destruct (Z.eqb_spec (framebuffer (console w)) 0); [reflexivity |].
    destruct (Z.le_gt_cases 0 (height (console w))) as [Hh | Hh].
    + destruct (fill_rows_paints 0 (height (console w)) color w Hh) as [_ H].
      apply H. intros y x Hy Hx. apply Ha; lia.
    + unfold fill_rows. cbv zeta.
      replace (Z.to_nat (height (console w) - 0)) with 0%nat by lia.
      reflexivity.
Qed.

Lemma clear_screen_fills_witness :
  vram (clear_screen COLOR_BLACK qemu_world)
    !! pixel_address (console qemu_world) (uint32 (1 * pitch (console qemu_world)) + 2)
  = Some COLOR_BLACK.
Proof.
  assert (Hfb : framebuffer (console qemu_world) <> 0).
  { change (framebuffer (console qemu_world)) with 0x200000. lia. }
  destruct (clear_screen_fills COLOR_BLACK qemu_world Hfb) as (H & _).
  apply H.
  - change (width (console qemu_world)) with 640. lia.
  - change (height (console qemu_world)) with 480. lia.
Defined.

Lemma char_code_range c : 0 <= char_code c < 256.
Proof.
  unfold char_code. pose proof (N_ascii_bounded c). lia.
Qed.

Lemma font_row_placeholder c row :
  0 <= row < 16 ->
  default 0 (qemu_vga_font_8x16 !! Z.to_nat (get_font_char (char_code c) + row)) = 0xFF.
Proof.
  intros Hrow. pose proof (char_code_range c).
  unfold qemu_vga_font_8x16, get_font_char.
  rewrite lookup_replicate_2 by lia. reflexivity.
Qed.

Lemma font_bit_set col :
  0 <= col < 8 -> negb (Z.land 0xFF (Z.shiftr 0x80 col) =? 0) = true.
Proof.
  intros H.
  assert (E : col = 0 \/ col = 1 \/ col = 2 \/ col = 3
              \/ col = 4 \/ col = 5 \/ col = 6 \/ col = 7) by lia.
  destruct E as [-> | [-> | [-> | [-> | [-> | [-> | [-> | ->]]]]]]]; reflexivity.
Qed.

(** X26: with the font table of [qemu_vga_font.h], whose every byte is 0xFF,
    [draw_char_at] paints the whole 8 by 16 block of a character in the
    foreground colour, whichever character it is (a space included): the
    background colour is never stored.  Every word of pixel memory outside
    the block keeps its value. *)
Theorem draw_char_at_solid_block (x y : Z) (ch : ascii) (fg bg : Z) (w : world) :
  framebuffer (console w) <> 0 ->
  uint32 (x + FONT_WIDTH) <= width (console w) ->
  uint32 (y + FONT_HEIGHT) <= height (console w) ->
  let c := console w in
  let w' := draw_char_at x y ch fg bg w in
  (forall row col, 0 <= row < FONT_HEIGHT -> 0 <= col < FONT_WIDTH ->
     vram w' !! pixel_address c (uint32 (uint32 (y + row) * pitch c + x) + col) = Some fg)
  /\ (forall a,
        (forall row col, 0 <= row < FONT_HEIGHT -> 0 <= col < FONT_WIDTH ->
           a <> pixel_address c (uint32 (uint32 (y + row) * pitch c + x) + col)) ->
        vram w' !! a = vram w !! a)
  /\ w' = draw_char_at x y " " fg fg w.
Proof.
  intros Hfb Hx Hy. cbv zeta.
  assert (Hshape : forall ch' bg',
             draw_char_at x y ch' fg bg' w
             = for_loop (Z.to_nat FONT_HEIGHT) 0
                 (fun row w0 =>
                    for_loop (Z.to_nat FONT_WIDTH) 0
                      (fun col w1 =>
                         set_vram
                           (<[pixel_address (console w)
                                (uint32 (uint32 (y + row) * pitch (console w) + x) + col)
                              := fg]> (vram w1)) w1) w0) w).
  { intros ch' bg'. unfold draw_char_at. cbv zeta.
    destruct (Z.eqb_spec (framebuffer (console w)) 0); [contradiction |].
    destruct (Z.ltb_spec (width (console w)) (uint32 (x + FONT_WIDTH))); [lia |].
    destruct (Z.ltb_spec (height (console w)) (uint32 (y + FONT_HEIGHT))); [lia |].
    cbn [orb].
    apply for_loop_ext. intros row t Hrow.
    apply for_loop_ext. intros col u Hcol.
    change (Z.of_nat (Z.to_nat FONT_HEIGHT)) with 16 in Hrow.
    change (Z.of_nat (Z.to_nat FONT_WIDTH)) with 8 in Hcol.
    rewrite font_row_placeholder by lia.
    rewrite font_bit_set by lia. reflexivity. }
  rewrite !Hshape.
  destruct (paint_rows fg
              (fun row col =>
                 pixel_address (console w)
                   (uint32 (uint32 (y + row) * pitch (console w) + x) + col))
              FONT_WIDTH
              (fun row w0 =>
                 for_loop (Z.to_nat FONT_WIDTH) 0
                   (fun col w1 =>
                      set_vram
                        (<[pixel_address (console w)
                             (uint32 (uint32 (y + row) * pitch (console w) + x) + col)
                           := fg]> (vram w1)) w1) w0)
              (Z.to_nat FONT_HEIGHT) 0 w) as (_ & Hrows & Hframe).
  - intros row t.
    destruct (paint_loop fg
                (fun col => pixel_address (console w)
                              (uint32 (uint32 (y + row) * pitch (console w) + x) + col))
                (Z.to_nat FONT_WIDTH) 0 t) as (Hq & Hrow & Hrest).
    split; [exact Hq | split].
    + intros col Hcol. apply Hrow.
      change (Z.of_nat (Z.to_nat FONT_WIDTH)) with FONT_WIDTH. lia.
    + intros a Ha. apply Hrest. intros col Hcol. apply Ha.
      change (Z.of_nat (Z.to_nat FONT_WIDTH)) with FONT_WIDTH in Hcol. lia.
  - split; [| split; [| reflexivity]].
    + intros row col Hrow Hcol. apply Hrows; [| exact Hcol].
      change (Z.of_nat (Z.to_nat FONT_HEIGHT)) with FONT_HEIGHT. lia.
    + intros a Ha. apply Hframe. intros row col Hrow Hcol. apply Ha; [| exact Hcol].
      change (Z.of_nat (Z.to_nat FONT_HEIGHT)) with FONT_HEIGHT in Hrow. lia.
Qed.

Lemma draw_char_at_solid_block_witness :
  draw_char_at 0 0 "A" COLOR_WHITE COLOR_BLACK qemu_world
  = draw_char_at 0 0 " " COLOR_WHITE COLOR_WHITE qemu_world.
Proof.
  assert (Hfb : framebuffer (console qemu_world) <> 0).
  { change (framebuffer (console qemu_world)) with 0x200000. lia. }
  destruct (draw_char_at_solid_block 0 0 "A" COLOR_WHITE COLOR_BLACK qemu_world Hfb)
    as (_ & _ & H).
  - change (width (console qemu_world)) with 640.
    rewrite uint32_small; unfold FONT_WIDTH; lia.
  - change (height (console qemu_world)) with 480.
    rewrite uint32_small; unfold FONT_HEIGHT; lia.
  - exact H.
Defined.

(** ** From boot to the loop of [main] *)

Lemma inr_eq {A B : Type} (a b : B) : @inr A B a = inr b -> a = b.
Proof. intros H. injection H as ->. reflexivity. Qed.

Section Output.

Variable I : universal_console_t -> Prop.
Hypothesis I_putchar :
  forall ch w, I (console w) -> I (console (console_putchar ch w)).
Hypothesis I_color :
  forall fg bg w, I (console w) -> I (console (console_set_color fg bg w)).

Lemma output_puts str :
  forall w, I (console w) -> I (console (console_puts str w)).
Proof.
  induction str as [| a rest IH]; intros w H; cbn [console_puts]; [exact H |].
  destruct (Ascii.eqb a Ascii.zero); [exact H |].
  apply IH, I_putchar, H.
Qed.

Lemma output_printf fmt args w :
  I (console w) -> I (console (console_printf fmt args w)).
Proof. apply output_puts. Qed.

Lemma output_let (e : world) (k : world -> world) :
  I (console e) ->
  (forall w, I (console w) -> I (console (k w))) ->
  I (console (let w := e in k w)).
Proof. intros He Hk. exact (Hk e He). Qed.

Ltac output_statements :=
  lazymatch goal with
  | |- I (console (let w := ?e in @?k w)) =>
      refine (output_let e k _ _);
      [ output_statements
      | let w' := fresh "w" in
        let H' := fresh "H" in
        intros w' H'; cbv beta; output_statements ]
  | |- I (console (if ?b then _ else _)) => destruct b; output_statements
  | |- I (console (for_loop _ _ _ _)) =>
      apply (for_loop_preserves (fun w => I (console w)));
      [ output_statements
      | let j := fresh "j" in
        let t := fresh "t" in
        let H' := fresh "H" in
        intros j t H'; cbv beta; output_statements ]
  | |- I (console (console_puts _ _)) => apply output_puts; output_statements
  | |- I (console (console_printf _ _ _)) => apply output_printf; output_statements
  | |- I (console (console_set_color _ _ _)) => apply I_color; output_statements
  | |- _ => assumption
  end.

Lemma output_print_banner w : I (console w) -> I (console (print_banner w)).
Proof. intros H. cbv beta delta [print_banner]. output_statements. Qed.

Lemma output_main mem fw w :
  main mem fw = inr w ->
  I (console (snd (universal_console_init mem fw boot_world))) ->
  I (console w).
Proof.
  cbv beta delta [main].
  destruct (universal_console_init mem fw boot_world) as [st w0]. cbn [snd].
  destruct (negb (st =? 0)); [discriminate |].
  intros E H. apply inr_eq in E. subst w. output_statements.
Qed.

End Output.

Lemma text_inv_putchar ch w :
  text_inv (console w) -> text_inv (console (console_putchar ch w)).
Proof.
  intros (Hg & Hc & Hk).
  destruct (console_putchar_cursor ch w Hg Hc Hk) as (Hg' & Hc' & K).
  split; [exact Hg' | split; [exact Hc' | now rewrite K]].
Qed.

Lemma text_inv_same_text c c' : same_text c c' -> text_inv c -> text_inv c'.
Proof.
  intros (Bu & L & C & _ & _ & _ & B & K & _) (Hg & Hc & Hk).
  unfold text_inv, cursor_in_grid in *. rewrite L, C, B, K.
  split; [| split; assumption].
  apply (grid_ok_ext c); congruence.
Qed.

Lemma setup_framebuffer_buffer fw req_width req_height w :
  buffer (console (snd (setup_framebuffer fw req_width req_height w)))
  = buffer (console w).
Proof.
  unfold setup_framebuffer.
  destruct (platform_eqb _ _); [reflexivity |].
  destruct (negb (mailbox_available w)); [reflexivity |].
  cbv zeta. destruct (negb (_ =? _)); [reflexivity |].
  cbn [snd]. rewrite !console_upd_console.
  repeat match goal with
         | |- context [if ?b then _ else _] => destruct b
         end; reflexivity.
Qed.

(** The geometry a successful [setup_framebuffer] leaves. *)
Lemma setup_framebuffer_geometry fw req_width req_height w :
  fst (setup_framebuffer fw req_width req_height w) = 0 ->
  let c := console (snd (setup_framebuffer fw req_width req_height w)) in
  (platform (current_platform w) = PLATFORM_QEMU_VERSATILE ->
     console_rows c = uint32 (req_height - STATUS_BAR_HEIGHT) / FONT_HEIGHT
     /\ console_cols c = req_width / FONT_WIDTH)
  /\ (platform (current_platform w) <> PLATFORM_QEMU_VERSATILE ->
     15 <= console_rows c < 2 ^ 30 /\ 40 <= console_cols c).
Proof.
  intros Hok. cbv zeta. split.
  - intros Hq.
    destruct (setup_framebuffer_qemu fw req_width req_height w Hq)
      as (_ & _ & _ & _ & K & R).
    split; assumption.
  - intros Hq.
    rewrite setup_framebuffer_status in Hok.
    pose proof Hq as Hq'. apply platform_eqb_neq in Hq'. rewrite Hq' in Hok.
    destruct (negb (mailbox_available w)) eqn:Hmb; [discriminate |].
    destruct (Z.eqb_spec (Req.code (fw (fb_request req_width req_height))) 0x80000000)
      as [Hcode | Hcode]; [| discriminate].
    assert (Hm : mailbox_base (current_platform w) <> 0).
    { unfold mailbox_available in Hmb. apply negb_false_iff, andb_true_iff in Hmb.
      destruct Hmb as [Hmb _]. apply negb_true_iff, Z.eqb_neq in Hmb. exact Hmb. }
    destruct (setup_framebuffer_mailbox fw req_width req_height w Hq Hm Hcode)
      as (_ & _ & _ & _ & _ & K & R).
    rewrite K, R.
    pose proof (uint32_range (Req.set_height (fw (fb_request req_width req_height))
                              - STATUS_BAR_HEIGHT)) as Hu.
    assert (Hdiv : 0 <= uint32 (Req.set_height (fw (fb_request req_width req_height))
                                - STATUS_BAR_HEIGHT) / FONT_HEIGHT < 2 ^ 28).
    { unfold FONT_HEIGHT. split.
      - apply Z.div_pos; lia.
      - apply Z.div_lt_upper_bound; lia. }
    unfold MIN_CONSOLE_ROWS, MIN_CONSOLE_COLS. lia.
Qed.

Lemma init_ps2_devices_console w :
  same_text (console w) (console (init_ps2_devices w)).
Proof.
  unfold init_ps2_devices. destruct (negb _); [apply same_text_refl |].
  cbv zeta. repeat split.
Qed.

(** The success path of [universal_console_init]. *)
Lemma universal_console_init_success mem fw w :
  let w1 := detected mem w in
  let geometry := initial_resolution fw w1 in
  let s := setup_framebuffer fw (fst geometry) (snd geometry) w1 in
  fst s = 0 ->
  universal_console_init mem fw w
  = (0, print_banner
          (clear_screen COLOR_BLACK
             (snd (init_console_buffer (init_ps2_devices (snd s)))))).
Proof.
  cbv zeta. unfold universal_console_init, detected.
  destruct (detect_platform mem w) as [p w0].
  set (w1 := set_current_platform _ w0).
  destruct (initial_resolution fw w1) as [rw rh]. cbn [fst snd].
  destruct (setup_framebuffer fw rw rh w1) as [st w2]. cbn [fst snd].
  intros ->. cbn [Z.eqb negb].
  pose proof (init_console_buffer_status (init_ps2_devices w2)) as Hst.
  destruct (init_console_buffer (init_ps2_devices w2)) as [st' w3].
  cbn [fst snd] in *. subst st'. reflexivity.
Qed.

Lemma main_success mem fw :
  fst (universal_console_init mem fw boot_world) = 0 -> exists w, main mem fw = inr w.
Proof.
  cbv beta delta [main].
  destruct (universal_console_init mem fw boot_world) as [st w0]. cbn [fst].
  intros ->. cbn [Z.eqb negb]. eexists. reflexivity.
Qed.

Lemma detected_platform_qemu_geometry mem fw :
  platform (current_platform (detected mem boot_world)) = PLATFORM_QEMU_VERSATILE ->
  initial_resolution fw (detected mem boot_world) = (640, 480).
Proof. apply initial_resolution_qemu. Qed.

(** The console on which the banner is printed. *)
Lemma negotiated_console mem fw :
  fst (negotiated mem fw) = 0 ->
  console_cols (console (snd (negotiated mem fw))) <= 240 ->
  let w3 := snd (init_console_buffer (init_ps2_devices (snd (negotiated mem fw)))) in
  text_inv (console w3) /\ window_inv (console w3)
  /\ console_cols (console w3) = console_cols (console (snd (negotiated mem fw)))
  /\ console_rows (console w3) = console_rows (console (snd (negotiated mem fw))).
Proof.
  unfold negotiated. cbv zeta.
  pose proof (detected_platform_qemu_geometry mem fw) as Hres.
  pose proof (detected_console mem boot_world) as Hcon.
  generalize dependent (detected mem boot_world). intros w1 Hres Hcon.
  destruct (initial_resolution fw w1) as [rw rh]. cbn [fst snd].
  intros Hok Hcols.
  pose proof (setup_framebuffer_geometry fw rw rh w1 Hok) as [Hq Hpi].
  pose proof (setup_framebuffer_buffer fw rw rh w1) as Hbuf.
  rewrite Hcon in Hbuf. change (buffer (console boot_world)) with (@nil console_cell_t) in Hbuf.
  cbv zeta in Hq, Hpi.
  generalize dependent (snd (setup_framebuffer fw rw rh w1)). intros w2 Hcols Hq Hpi Hbuf.
  assert (Hgeo : 1 <= console_rows (console w2) < 2 ^ 30 /\ 1 <= console_cols (console w2)).
  { destruct (platform (current_platform w1)) eqn:Hp;
      try (destruct Hpi as [Hr Hk]; [discriminate | lia]).
    destruct (Hq eq_refl) as [Hr Hk].
    specialize (Hres eq_refl). injection Hres as -> ->.
    rewrite Hr, Hk.
    change (uint32 (480 - STATUS_BAR_HEIGHT) / FONT_HEIGHT) with 29.
    change (640 / FONT_WIDTH) with 80. lia. }
  clear Hq Hpi Hres Hcon Hok.
  destruct (init_ps2_devices_console w2)
    as (Bu & _ & _ & _ & _ & _ & _ & K & R & _).
  assert (Hbuf' : buffer (console (init_ps2_devices w2)) = []) by (rewrite Bu; exact Hbuf).
  assert (Hcols' : 0 <= console_cols (console (init_ps2_devices w2)) <= 240)
    by (rewrite K; lia).
  pose proof (init_console_buffer_grid (init_ps2_devices w2) Hbuf' Hcols') as Hgrid.
  destruct (init_console_buffer_console (init_ps2_devices w2))
    as (B & L & C & D & P & _ & _ & R' & K').
  cbv zeta in B, L, C, D, P, R', K'.
  rewrite R in R'. rewrite K in K'.
  generalize dependent (snd (init_console_buffer (init_ps2_devices w2))).
  intros w3 Hgrid B L C D P R' K'.
  split; [| split; [| split; assumption]].
  - split; [exact Hgrid |].
    unfold cursor_in_grid. rewrite B, L, C, K'. unfold MAX_BUFFER_LINES. lia.
  - unfold window_inv, max_scroll. rewrite B, L, D, P, R'. unfold MAX_BUFFER_LINES. lia.
Qed.

Lemma clear_screen_console color w : console (clear_screen color w) = console w.
Proof. apply clear_screen_only_vram. Qed.

Lemma console_updates_window snapshots :
  forall w, window_inv (console w) -> window_inv (console (console_updates snapshots w)).
Proof.
  induction snapshots as [| regs snapshots IH]; intros w H; [exact H |].
  change (console_updates (regs :: snapshots) w)
    with (console_updates snapshots (console_update (fst regs) (snd regs) w)).
  apply IH. now apply console_update_window.
Qed.

(** X27: when the framebuffer negotiation succeeds, [main] does not return: it
    prints its demonstration text and enters its endless loop of
    [console_update] calls.  On a console of at most 240 columns the state is
    sound on entry and after any number of rounds of that loop, whatever the
    keyboard and the mouse deliver: the grid fits the cell array, the cursor
    is on the grid, the first displayed line is in the scroll range, and the
    geometry is the negotiated one. *)
Theorem main_enters_loop (mem : Z -> Z) (fw : firmware)
        (snapshots : list (pl050_regs * pl050_regs)) :
  fst (negotiated mem fw) = 0 ->
  console_cols (console (snd (negotiated mem fw))) <= 240 ->
  exists w,
    main mem fw = inr w
    /\ let c := console (console_updates snapshots w) in
       grid_ok c /\ cursor_in_grid c
       /\ 0 <= display_start c <= max_scroll c
       /\ 0 <= scroll_position c <= current_line c
       /\ console_cols c = console_cols (console (snd (negotiated mem fw)))
       /\ console_rows c = console_rows (console (snd (negotiated mem fw))).
Proof.
  intros Hok Hcols.
  destruct (negotiated_console mem fw Hok Hcols) as (Ht & Hw & K & R).
  cbv zeta in Ht, Hw, K, R.
  pose proof (universal_console_init_success mem fw boot_world Hok) as Hinit.
  cbv zeta in Hinit. fold (negotiated mem fw) in Hinit.
  destruct (main_success mem fw) as [w Hmain]; [now rewrite Hinit |].
  exists w. split; [exact Hmain |]. cbv zeta.
  set (I := fun c => text_inv c /\ window_inv c
                     /\ console_cols c = console_cols (console (snd (negotiated mem fw)))
                     /\ console_rows c = console_rows (console (snd (negotiated mem fw)))).
  assert (I_putchar : forall ch w, I (console w) -> I (console (console_putchar ch w))).
  { intros ch w0 (A & B & C & D). split; [now apply text_inv_putchar |].
    split; [now apply console_putchar_window |].
    destruct A as (Hg & Hc & Hk).
    destruct (console_putchar_cursor ch w0 Hg Hc Hk) as (_ & _ & K0).
    rewrite K0, console_putchar_rows. split; assumption. }
  assert (I_color : forall fg bg w, I (console w) -> I (console (console_set_color fg bg w))).
  { intros fg bg w0 H. exact H. }
  assert (H0 : I (console (snd (universal_console_init mem fw boot_world)))).
  { rewrite Hinit. cbn [snd].
    apply (output_print_banner I I_putchar I_color).
    rewrite clear_screen_console.
    split; [exact Ht | split; [exact Hw | split; assumption]]. }
  pose proof (output_main I I_putchar I_color mem fw w Hmain H0) as (A & B & C & D).
  clear H0 Hmain Hinit.
  pose proof (console_updates_text snapshots w) as T.
  pose proof (text_inv_same_text _ _ T A) as (Hg & Hc & _).
  pose proof (console_updates_window snapshots w B) as (_ & _ & _ & Hd & Hs).
  destruct T as (_ & _ & _ & _ & _ & _ & _ & K' & R' & _).
  split; [exact Hg | split; [exact Hc | split; [exact Hd | split; [exact Hs |]]]].
  split; congruence.
Qed.

Lemma main_enters_loop_witness :
  exists w,
    main (fun _ => 1) (fun request => request) = inr w
    /\ cursor_in_grid
         (console (console_updates
                     [({| PL050_STAT := 0x10; PL050_DATA := 0x48 |},
                       {| PL050_STAT := 0; PL050_DATA := 0 |})] w)).
Proof.
  destruct (main_enters_loop (fun _ => 1) (fun request => request)
              [({| PL050_STAT := 0x10; PL050_DATA := 0x48 |},
                {| PL050_STAT := 0; PL050_DATA := 0 |})]) as (w & Hmain & _ & H & _).
  - reflexivity.
  - change (console_cols (console (snd (negotiated (fun _ => 1) (fun request => request)))))
      with 80. lia.
  - exists w. split; [exact Hmain | exact H].
Defined.

(** ** Console dimensions as the program negotiates them *)



(** ** Scrolling back and forth *)

(** X28: scrolling up by [d] lines and down by [d] again, or down and up again,
    brings the window back to where it was, as long as the first move is not
    cut short by an end of the scroll range; the text is not touched. *)
Theorem handle_scroll_round_trip (d : Z) (w : world) :
  0 <= d <= 2 ^ 30 ->
  0 <= current_line (console w) < 2 ^ 30 ->
  0 <= console_rows (console w) < 2 ^ 30 ->
  0 <= scroll_position (console w) <= max_scroll (console w) ->
  display_start (console w) = scroll_position (console w) ->
  let c := console w in
  (d <= scroll_position c ->
     let c' := console (handle_scroll d (handle_scroll (- d) w)) in
     scroll_position c' = scroll_position c /\ display_start c' = display_start c
     /\ same_text c c')
  /\ (scroll_position c + d <= max_scroll c ->
     let c' := console (handle_scroll (- d) (handle_scroll d w)) in
     scroll_position c' = scroll_position c /\ display_start c' = display_start c
     /\ same_text c c').
Proof.
  intros Hd Hl Hr Hs Hsync. cbv zeta.
  assert (Hmax : 0 <= max_scroll (console w) <= 2 ^ 30) by (unfold max_scroll; lia).
  assert (Hstep : forall e w1,
             - 2 ^ 30 <= e <= 2 ^ 30 ->
             same_text (console w) (console w1) ->
             0 <= scroll_position (console w1) <= max_scroll (console w) ->
             display_start (console w1) = scroll_position (console w1) ->
             0 <= scroll_position (console w1) + e <= max_scroll (console w) ->
             scroll_position (console (handle_scroll e w1)) = scroll_position (console w1) + e
             /\ display_start (console (handle_scroll e w1))
                = scroll_position (console w1) + e
             /\ same_text (console w) (console (handle_scroll e w1))).
  { intros e w1 He T Hs1 Hsync1 Hin.
    pose proof T as (_ & L & _ & _ & _ & _ & _ & _ & R & _).
    assert (M : max_scroll (console w1) = max_scroll (console w))
      by (unfold max_scroll; now rewrite L, R).
    destruct (handle_scroll_position e w1) as (P & D1 & D2);
      try (unfold fits_int; rewrite ?L, ?R; unfold max_scroll in *; lia).
    cbv zeta in P, D1, D2. rewrite M in P.
    assert (P' : scroll_position (console (handle_scroll e w1))
                 = scroll_position (console w1) + e) by (rewrite P; unfold clamp; lia).
    split; [exact P' | split; [| now apply same_text_scroll]].
    destruct (Z.eq_dec e 0) as [-> | Hne].
    - rewrite D2 by lia. lia.
    - rewrite D1 by lia. exact P'. }
  split.
  - intros Hup.
    destruct (Hstep (- d) w) as (P1 & D1 & T1);
      [lia | apply same_text_refl | lia | exact Hsync | lia |].
    destruct (Hstep d (handle_scroll (- d) w)) as (P2 & D2 & T2);
      [lia | exact T1 | lia | lia | lia |].
    split; [lia | split; [lia | exact T2]].
  - intros Hdown.
    destruct (Hstep d w) as (P1 & D1 & T1);
      [lia | apply same_text_refl | lia | exact Hsync | lia |].
    destruct (Hstep (- d) (handle_scroll d w)) as (P2 & D2 & T2);
      [lia | exact T1 | lia | lia | lia |].
    split; [lia | split; [lia | exact T2]].
Qed.

Lemma handle_scroll_round_trip_witness :
  let w := upd_console (set_display_start 10)
             (upd_console (set_scroll_position 10)
                (upd_console (set_current_line 100) qemu_world)) in
  scroll_position (console (handle_scroll 3 (handle_scroll (- 3) w))) = 10.
Proof.
  cbv zeta.
  set (w := upd_console (set_display_start 10) _).
  assert (L : current_line (console w) = 100) by reflexivity.
  assert (R : console_rows (console w) = 29) by reflexivity.
  assert (P : scroll_position (console w) = 10) by reflexivity.
  assert (D : display_start (console w) = 10) by reflexivity.
  clearbody w.
  destruct (handle_scroll_round_trip 3 w) as [H _].
  - lia.
  - rewrite L. lia.
  - rewrite R. lia.
  - unfold max_scroll. rewrite P, L, R. lia.
  - rewrite P, D. reflexivity.
  - destruct H as (H & _); [rewrite P; lia |]. exact (eq_trans H P).
Defined.

(** ** The renderer's frame *)

(** X29: drawing never changes anything but pixel memory: the console state, the
    platform profile, the mouse packet and the record of calls come out of
    [render_console], [clear_screen], [draw_status_bar] and [draw_char_at]
    as they went in; without a framebuffer the first two do nothing at
    all. *)
Theorem rendering_changes_pixels_only (w : world) :
  only_vram w (render_console w)
  /\ only_vram w (draw_status_bar w)
  /\ (forall color, only_vram w (clear_screen color w))
  /\ (forall x y c fg bg, only_vram w (draw_char_at x y c fg bg w))
  /\ (framebuffer (console w) = 0 ->
        render_console w = w /\ forall color, clear_screen color w = w).
Proof.
  split; [apply render_console_only_vram |].
  split; [apply draw_status_bar_only_vram |].
  split; [intros color; apply clear_screen_only_vram |].
  split; [intros x y c fg bg; apply draw_char_at_only_vram |].
  intros Hfb. unfold render_console, clear_screen. rewrite Hfb.
  split; [reflexivity | intros color; reflexivity].
Qed.

Lemma rendering_changes_pixels_only_witness :
  render_console boot_world = boot_world.
Proof.
  destruct (rendering_changes_pixels_only boot_world) as (_ & _ & _ & _ & H).
  apply H. reflexivity.
Defined.

(** ** A whole mouse packet *)

(** The first two bytes of a packet are stored and nothing else happens. *)
Lemma handle_mouse_input_store mouse w :
  platform (current_platform w) = PLATFORM_QEMU_VERSATILE ->
  ps2_read_data mouse <> 0 ->
  0 <= packet_index w < 2 ->
  handle_mouse_input mouse w
  = set_packet_index (packet_index w + 1)
      (set_mouse_packet (<[Z.to_nat (packet_index w) := ps2_read_data mouse]> (mouse_packet w))
         w).
Proof.
  intros Hq Hd Hi. unfold handle_mouse_input.
  rewrite Hq. cbn [platform_eqb negb].
  apply Z.eqb_neq in Hd. rewrite Hd. cbv zeta.
  cbn [packet_index set_mouse_packet set_packet_index mouse_packet].
  rewrite (to_int_small (packet_index w + 1)) by lia.
  destruct (Z.leb_spec 3 (packet_index w + 1)); [lia | reflexivity].
Qed.

(** A zero byte is taken for no data. *)
Lemma handle_mouse_input_zero mouse w :
  ps2_read_data mouse = 0 -> handle_mouse_input mouse w = w.
Proof.
  intros Hd. unfold handle_mouse_input.
  destruct (negb _); [reflexivity |].
  cbv zeta. rewrite Hd. reflexivity.
Qed.

(** The third byte completes the packet. *)
Lemma handle_mouse_input_complete mouse w :
  platform (current_platform w) = PLATFORM_QEMU_VERSATILE ->
  ps2_read_data mouse <> 0 ->
  packet_index w = 2 ->
  1 <= width (console w) < 2 ^ 31 -> 1 <= height (console w) < 2 ^ 31 ->
  - 2 ^ 30 <= mouse_x (console w) <= 2 ^ 30 ->
  - 2 ^ 30 <= mouse_y (console w) <= 2 ^ 30 ->
  let packet := <[2%nat := ps2_read_data mouse]> (mouse_packet w) in
  let c := console w in
  let w' := handle_mouse_input mouse w in
  mouse_x (console w')
  = clamp 0 (width c - 1) (mouse_x c + to_int8 (default 0 (packet !! 1%nat)))
  /\ mouse_y (console w')
     = clamp 0 (height c - 1) (mouse_y c - to_int8 (default 0 (packet !! 2%nat)))
  /\ mouse_buttons (console w') = default 0 (packet !! 0%nat)
  /\ packet_index w' = 0.
Proof.
  intros Hq Hd Hi Hw Hh Hx Hy. cbv zeta.
  unfold handle_mouse_input.
  rewrite Hq. cbn [platform_eqb negb].
  apply Z.eqb_neq in Hd as Hd'. rewrite Hd'. cbv zeta.
  cbn [packet_index set_mouse_packet set_packet_index mouse_packet].
  rewrite Hi.
  change (to_int (2 + 1)) with 3. change (3 <=? 3) with true. cbv iota.
  change (Z.to_nat 2) with 2%nat.
  set (packet := <[2%nat := ps2_read_data mouse]> (mouse_packet w)).
  set (w0 := set_packet_index 0 _).
  assert (Hw0 : 1 <= width (console w0) < 2 ^ 31) by exact Hw.
  assert (Hh0 : 1 <= height (console w0) < 2 ^ 31) by exact Hh.
  assert (Hx0 : - 2 ^ 30 <= mouse_x (console w0) <= 2 ^ 30) by exact Hx.
  assert (Hy0 : - 2 ^ 30 <= mouse_y (console w0) <= 2 ^ 30) by exact Hy.
  pose proof (pointer_moved w0 (to_int8 (default 0 (packet !! 1%nat)))
                (to_int8 (default 0 (packet !! 2%nat)))
                Hw0 Hh0 Hx0 Hy0 (to_int8_range _) (to_int8_range _)) as H6.
  cbv zeta in H6.
  set (w6 := upd_console (fun c => if to_int (height c) <=? mouse_y c then _ else c) _) in *.
  change (console w0) with (console w) in H6.
  change (packet_index w0) with 0 in H6.
  destruct H6 as (X & Y & _ & _ & _ & I).
  clearbody w6. clear w0 Hw0 Hh0 Hx0 Hy0.
  set (ws := if negb (Z.land _ 2 =? 0) then _ else w6).
  assert (Hs : mouse_x (console ws) = mouse_x (console w6)
               /\ mouse_y (console ws) = mouse_y (console w6)
               /\ packet_index ws = packet_index w6).
  { subst ws.
    destruct (negb _); [| repeat split].
    destruct (negb _); [| repeat split].
    apply handle_scroll_frame. }
  destruct Hs as (Xs & Ys & Is). clearbody ws.
  rewrite console_upd_console.
  cbn [mouse_x mouse_y mouse_buttons set_mouse_buttons upd_console packet_index set_console].
  rewrite Xs, Ys, Is, X, Y, I. repeat split.
Qed.

(** X30: three reads from the mouse, starting between packets.  When the three
    bytes are non-zero they are decoded as one packet: buttons, signed
    horizontal delta, signed vertical delta (inverted), with the pointer
    clamped to the screen.  A zero movement byte, however, is taken for "no
    data" and skipped: the packet stays incomplete, pointer and buttons are
    not updated, and the decoder is left one byte out of step. *)
Theorem mouse_packet_decoded (r0 r1 r2 : pl050_regs) (w : world) :
  platform (current_platform w) = PLATFORM_QEMU_VERSATILE ->
  packet_index w = 0 -> length (mouse_packet w) = 3%nat ->
  ps2_read_data r0 <> 0 -> ps2_read_data r2 <> 0 ->
  1 <= width (console w) < 2 ^ 31 -> 1 <= height (console w) < 2 ^ 31 ->
  - 2 ^ 30 <= mouse_x (console w) <= 2 ^ 30 ->
  - 2 ^ 30 <= mouse_y (console w) <= 2 ^ 30 ->
  let c := console w in
  let w' := mouse_inputs [r0; r1; r2] w in
  (ps2_read_data r1 <> 0 ->
     mouse_buttons (console w') = ps2_read_data r0
     /\ mouse_x (console w') = clamp 0 (width c - 1) (mouse_x c + to_int8 (ps2_read_data r1))
     /\ mouse_y (console w') = clamp 0 (height c - 1) (mouse_y c - to_int8 (ps2_read_data r2))
     /\ packet_index w' = 0)
  /\ (ps2_read_data r1 = 0 ->
     packet_index w' = 2 /\ console w' = c /\ trace w' = trace w).
Proof.
  intros Hq Hi Hlen H0 H2 Hw Hh Hx Hy. cbv zeta.
  change (mouse_inputs [r0; r1; r2] w)
    with (handle_mouse_input r2 (handle_mouse_input r1 (handle_mouse_input r0 w))).
  rewrite (handle_mouse_input_store r0 w Hq H0) by lia.
  rewrite Hi. change (Z.to_nat 0) with 0%nat. change (0 + 1) with 1.
  destruct (mouse_packet w) as [| a [| b [| c [| ? ?]]]] eqn:Hp; try discriminate Hlen.
  change (<[0%nat := ps2_read_data r0]> [a; b; c]) with [ps2_read_data r0; b; c].
  set (w1 := set_packet_index 1 _).
  assert (Hq1 : platform (current_platform w1) = PLATFORM_QEMU_VERSATILE) by exact Hq.
  assert (Hi1 : packet_index w1 = 1) by reflexivity.
  assert (Hp1 : mouse_packet w1 = [ps2_read_data r0; b; c]) by reflexivity.
  assert (Hc1 : console w1 = console w) by reflexivity.
  assert (Ht1 : trace w1 = trace w) by reflexivity.
  clearbody w1.
  split.
  - intros H1.
    rewrite (handle_mouse_input_store r1 w1 Hq1 H1) by lia.
    rewrite Hi1, Hp1. change (Z.to_nat 1) with 1%nat. change (1 + 1) with 2.
    change (<[1%nat := ps2_read_data r1]> [ps2_read_data r0; b; c])
      with [ps2_read_data r0; ps2_read_data r1; c].
    set (w2 := set_packet_index 2 _).
    assert (Hq2 : platform (current_platform w2) = PLATFORM_QEMU_VERSATILE) by exact Hq1.
    assert (Hi2 : packet_index w2 = 2) by reflexivity.
    assert (Hp2 : mouse_packet w2 = [ps2_read_data r0; ps2_read_data r1; c]) by reflexivity.
    assert (Hc2 : console w2 = console w) by exact Hc1.
    clearbody w2.
    destruct (handle_mouse_input_complete r2 w2 Hq2 H2 Hi2) as (X & Y & B & I);
      try (rewrite Hc2; assumption).
    cbv zeta in X, Y, B. rewrite Hp2, Hc2 in *.
    change (<[2%nat := ps2_read_data r2]> [ps2_read_data r0; ps2_read_data r1; c])
      with [ps2_read_data r0; ps2_read_data r1; ps2_read_data r2] in *.
    split; [exact B | split; [exact X | split; [exact Y | exact I]]].
  - intros H1.
    rewrite (handle_mouse_input_zero r1 w1 H1).
    rewrite (handle_mouse_input_store r2 w1 Hq1 H2) by lia.
    rewrite Hi1. split; [reflexivity | split; [exact Hc1 | exact Ht1]].
Qed.

Lemma mouse_packet_decoded_witness :
  mouse_buttons
    (console (mouse_inputs [{| PL050_STAT := 0x10; PL050_DATA := 0x08 |};
                            {| PL050_STAT := 0x10; PL050_DATA := 5 |};
                            {| PL050_STAT := 0x10; PL050_DATA := 253 |}] qemu_world))
  = 0x08.
Proof.
  destruct (mouse_packet_decoded
              {| PL050_STAT := 0x10; PL050_DATA := 0x08 |}
              {| PL050_STAT := 0x10; PL050_DATA := 5 |}
              {| PL050_STAT := 0x10; PL050_DATA := 253 |} qemu_world) as [H _].
  - reflexivity.
  - reflexivity.
  - reflexivity.
  - discriminate.
  - discriminate.
  - change (width (console qemu_world)) with 640. lia.
  - change (height (console qemu_world)) with 480. lia.
  - change (mouse_x (console qemu_world)) with 0. lia.
  - change (mouse_y (console qemu_world)) with 0. lia.
  - destruct H as (H & _); [discriminate | exact H].
Defined.
